(** * osgearth_viewer: a shallow embedding of the viewer application

    The program under study is [src/applications/osgearth_viewer/osgearth_viewer.cpp]:
    a [main] that reads command-line options, loads an earth file, wires a
    camera manipulator, an optional sky and ocean, viewpoint bookmarks, a
    control panel and a mouse-coordinate read-out, and then runs the viewer's
    event loop, together with the five event handlers the loop calls back into.

    The embedding keeps the program's own state explicit (the six file-level
    static variables, the objects they point to, the handlers registered with
    the viewer and with the controls) and takes every function of
    OpenSceneGraph and of the osgEarth libraries that the file merely calls as a
    field of the [Toolkit] interface.  Dereferencing a null pointer is a
    [Crash NullDeref], so that pointer safety is a theorem and not a modelling
    assumption. *)

From Stdlib Require Import ZArith PrimFloat.
From stdpp Require Import gmap strings list pretty.

Set Warnings "-register-all".

Open Scope Z_scope.

(** ** Machine integers *)

(** [int] is a 32-bit two's complement integer; [to_int] is the conversion of
    an arbitrary integer value into it (wrap-around written out). *)
Definition int_min : Z := - 2 ^ 31.
Definition int_max : Z := 2 ^ 31 - 1.
Definition to_int (z : Z) : Z := (z + 2 ^ 31) mod 2 ^ 32 - 2 ^ 31.
Definition is_int (z : Z) : Prop := int_min <= z <= int_max.

(** An [unsigned int], as used for [osg::Node::NodeMask]. *)
Definition to_unsigned (z : Z) : Z := Z.land z (2 ^ 32 - 1).

(** Character constants compared against [ea.getKey()]. *)
Definition char_1 : Z := 49.
Definition char_v : Z := 118.
Definition char_question : Z := 63.
Definition char_0 : Z := 48.
Definition char_9 : Z := 57.

(** C++ [double] and [float] values are only passed along by this program;
    they are binary64 numbers here (every binary32 value is one). *)
Abbreviation double := float (only parsing).

(** ** Data of the scene graph and of the user interface *)

(** Addresses of objects and identities of scene nodes. *)
Abbreviation addr := positive (only parsing).
Abbreviation NodeId := positive (only parsing).

Record Vec3d := { v_x : double; v_y : double; v_z : double }.

(** [osgGA::GUIEventAdapter::EventType]. *)
Inductive EventType :=
  | NONE | PUSH | RELEASE | DOUBLECLICK | DRAG | MOVE | KEYDOWN | KEYUP
  | FRAME | RESIZE | SCROLL | PEN_PRESSURE | PEN_ORIENTATION
  | PEN_PROXIMITY_ENTER | PEN_PROXIMITY_LEAVE | CLOSE_WINDOW
  | QUIT_APPLICATION | USER.

Definition EventType_eqb (a b : EventType) : bool :=
  match a, b with
  | NONE, NONE | PUSH, PUSH | RELEASE, RELEASE | DOUBLECLICK, DOUBLECLICK
  | DRAG, DRAG | MOVE, MOVE | KEYDOWN, KEYDOWN | KEYUP, KEYUP | FRAME, FRAME
  | RESIZE, RESIZE | SCROLL, SCROLL | PEN_PRESSURE, PEN_PRESSURE
  | PEN_ORIENTATION, PEN_ORIENTATION
  | PEN_PROXIMITY_ENTER, PEN_PROXIMITY_ENTER
  | PEN_PROXIMITY_LEAVE, PEN_PROXIMITY_LEAVE | CLOSE_WINDOW, CLOSE_WINDOW
  | QUIT_APPLICATION, QUIT_APPLICATION | USER, USER => true
  | _, _ => false
  end.

(** What a handler reads off an event.  [ea_hits] stands for the result of
    [view->computeIntersections(ea.getX(), ea.getY(), _mapNodePath, results)]
    for this event: the world points the pick ray hits on the terrain, nearest
    first (the call returns [true] exactly when there is one). *)
Record GUIEventAdapter := {
  getEventType : EventType;
  getKey : Z;
  getX : double;
  getY : double;
  ea_hits : list Vec3d
}.

(** [LatLongFormatter::AngularFormat], the two values the program uses. *)
Inductive AngularFormat :=
  | FORMAT_DECIMAL_DEGREES
  | FORMAT_DEGREES_MINUTES_SECONDS.

Section Data.
Context {Viewpoint : Type}.

(** [osgEarth::Util::Annotation::AnnotationData] as far as [KMLUIBuilder]
    reads it. *)
Record AnnotationData := {
  ad_getName : string;
  ad_getViewpoint : option Viewpoint
}.

(** An [osg::Node] with its children: identity, node mask, user data. *)
Inductive Node :=
  | mkNode (node_id : NodeId) (node_mask : Z)
           (node_userData : option AnnotationData) (node_children : list Node).

(** The three [ControlEventHandler]s of the file. *)
Inductive ControlEventHandler :=
  | SkySliderHandler
  | ToggleNodeHandler (_node : NodeId)
  | ClickViewpointHandler (_vp : Viewpoint).

(** The widgets the file builds.  Colours, sizes, margins and alignment are
    presentation attributes of the toolkit and are left out; a control keeps
    what the handlers and the claims read: its kind, its visibility, its
    handlers and its children (a grid's cells in the order they are set). *)
Inductive ControlKind :=
  | VBox
  | HBox
  | Grid
  | LabelControl (text : string)
  | HSliderControl (min max value : double)
  | CheckBoxControl (value : bool).

Inductive Control :=
  | mkControl (kind : ControlKind) (visible : bool)
              (handlers : list ControlEventHandler) (children : list Control).

Definition control_kind (c : Control) : ControlKind :=
  match c with mkControl k _ _ _ => k end.
Definition control_visible (c : Control) : bool :=
  match c with mkControl _ v _ _ => v end.
Definition control_own_handlers (c : Control) : list ControlEventHandler :=
  match c with mkControl _ _ h _ => h end.
Definition control_children (c : Control) : list Control :=
  match c with mkControl _ _ _ cs => cs end.

(** Every handler attached to a control or to one of its descendants. *)
Fixpoint control_handlers (c : Control) : list ControlEventHandler :=
  match c with
  | mkControl _ _ h cs => h ++ flat_map control_handlers cs
  end.

(** Every control of a tree, the root first. *)
Fixpoint control_subtree (c : Control) : list Control :=
  c :: match c with
       | mkControl _ _ _ cs => flat_map control_subtree cs
       end.

(** Modelled from the spec: [Control::setVisible] and [Control::visible] of
    the osgEarth controls toolkit are not among the sources; visibility is a
    boolean attribute of the control that the one writes and the other reads. *)
Definition setVisible (b : bool) (c : Control) : Control :=
  match c with mkControl k _ h cs => mkControl k b h cs end.

(** [LabelControl::setText]; on a control that is not a label it has nothing
    to write. *)
Definition setText (s : string) (c : Control) : Control :=
  match c with
  | mkControl (LabelControl _) v h cs => mkControl (LabelControl s) v h cs
  | _ => c
  end.

(** A new control is visible and has no handler (the toolkit's defaults). *)
Definition new_control (k : ControlKind) : Control := mkControl k true [] [].

Definition addEventHandler (h : ControlEventHandler) (c : Control) : Control :=
  match c with mkControl k v hs cs => mkControl k v (hs ++ [h]) cs end.

Definition addControl (child : Control) (c : Control) : Control :=
  match c with mkControl k v hs cs => mkControl k v hs (cs ++ [child]) end.

Definition addControls (row : list Control) (c : Control) : Control :=
  match c with mkControl k v hs cs => mkControl k v hs (cs ++ row) end.
End Data.

Arguments AnnotationData : clear implicits.
Arguments Node : clear implicits.
Arguments ControlEventHandler : clear implicits.
Arguments Control : clear implicits.

(** ** The libraries the program calls *)

(** Everything below is code of OpenSceneGraph or of the osgEarth libraries
    that [osgearth_viewer.cpp] calls and that is not part of the file.  The
    embedding is parametric in it: the theorems hold for every implementation
    of this interface. *)
Class Toolkit : Type := {
  (* osg::ArgumentParser and osgDB *)
  ArgumentParser : Type;
  (** [arguments.read(option)]: whether the option was found (and removed). *)
  ArgumentParser_read : string → ArgumentParser → bool * ArgumentParser;
  (** [arguments.read(option, value)]: the value assigned, if any. *)
  ArgumentParser_read_string :
    string → ArgumentParser → option string * ArgumentParser;
  (** [osgViewer::Viewer viewer(arguments)] reads the viewer's own options. *)
  Viewer_arguments : ArgumentParser → ArgumentParser;
  (* osgEarth::Config *)
  Config : Type;
  Config_child : string → Config → Config;
  Config_hasChild : string → Config → bool;
  Config_children : string → Config → list Config;
  Config_empty : Config → bool;
  Config_value_double : string → double → Config → double;
  Config_boolValue : bool → Config → bool;
  (* osgEarth::Util::Viewpoint and osgEarth::XmlDocument *)
  Viewpoint : Type;
  Viewpoint_of_Config : Config → Viewpoint;
  Viewpoint_getName : Viewpoint → string;
  Viewpoint_getConfig : Viewpoint → Config;
  (** The text [XmlDocument(conf).store(out)] writes to [out]. *)
  XmlDocument_store : Config → string;
  (** [osgDB::readNodeFiles(arguments)]: the loaded scene, or null. *)
  readNodeFiles : ArgumentParser → option (Node Viewpoint);
  (* osgEarth::MapNode and osgEarth::Map *)
  MapNode : Type;
  MapNode_findMapNode : Node Viewpoint → option MapNode;
  MapNode_externalConfig : MapNode → Config;
  Map_isGeocentric : MapNode → bool;
  (** [_mapNode->getMap()->worldPointToMapPoint(point, lla)]: [lla] after
      the call. *)
  Map_worldPointToMapPoint : MapNode → Vec3d → Vec3d;
  (* osgEarth::Util::EarthManipulator *)
  EarthManipulator : Type;
  EarthManipulator_new : EarthManipulator;
  EarthManipulator_setArcViewpointTransitions :
    bool → EarthManipulator → EarthManipulator;
  EarthManipulator_setViewpoint :
    Viewpoint → double → EarthManipulator → EarthManipulator;
  EarthManipulator_getViewpoint : EarthManipulator → Viewpoint;
  (* osgEarth::Util::SkyNode *)
  SkyNode : Type;
  SkyNode_new : MapNode → SkyNode;
  SkyNode_setDateTime : Z → Z → Z → double → SkyNode → SkyNode;
  (* osgEarth::Drivers *)
  OceanSurface_loadOceanSurface : MapNode → option (Node Viewpoint);
  KML_load : string → MapNode → option (Node Viewpoint);
  (* osgEarth::Util formatters *)
  (** [MGRSFormatter(PRECISION_1M).format(lat, lon)]. *)
  MGRSFormatter_format : double → double → string;
  (** [LatLongFormatter(fmt).format(Angular(deg, Units::DEGREES), precision)]. *)
  LatLongFormatter_format : AngularFormat → double → Z → string
}.

(** ** Program state *)

(** What goes wrong when the C++ program leaves defined behaviour. *)
Inductive Fault :=
  | NullDeref     (* a member call through a null pointer *)
  | BadPointer    (* a pointer to no live object of the expected class *)
  | OutOfBounds.  (* [operator[]] past the end of a vector *)

Inductive Res (A : Type) :=
  | Ok (a : A)
  | Crash (f : Fault).
Arguments Ok {A} a.
Arguments Crash {A} f.

(** The three file-level pointer variables (lines 70-72). *)
Inductive StaticPtr := Ptr_s_manip | Ptr_s_controlPanel | Ptr_s_sky.

Definition StaticPtr_eqb (a b : StaticPtr) : bool :=
  match a, b with
  | Ptr_s_manip, Ptr_s_manip | Ptr_s_controlPanel, Ptr_s_controlPanel
  | Ptr_s_sky, Ptr_s_sky => true
  | _, _ => false
  end.

(** The file-level variables, lines 70-75, with their initial values. *)
Record Statics := {
  s_manip : option addr;
  s_controlPanel : option addr;
  s_sky : option addr;
  s_dms : bool;
  s_mgrs : bool;
  s_ocean : bool
}.

Definition initial_statics : Statics :=
  {| s_manip := None; s_controlPanel := None; s_sky := None;
     s_dms := false; s_mgrs := false; s_ocean := false |}.

(** Events of one interactive session. *)
Inductive ControlEvent :=
  | Click
  | FloatChanged (value : double)
  | BoolChanged (value : bool).

Inductive Event :=
  | GUIEvent (ea : GUIEventAdapter)
    (* the viewer hands [ea] to its event handlers *)
  | ControlFired (i : nat) (ce : ControlEvent).
    (* the canvas fires the callbacks of the [i]-th control handler *)

(** One run of the viewer's loop: the events it delivers before it is told to
    stop, and the value [viewer.run()] returns then. *)
Record Session := { events : list Event; exitStatus : Z }.

Section Program.
Context `{TK : Toolkit}.

(** Objects the program allocates with [new] and reaches through pointers. *)
Inductive Obj :=
  | OManip (m : EarthManipulator)
  | OSky (s : SkyNode)
  | OControl (c : Control Viewpoint).

(** The [osgGA::GUIEventHandler]s registered with the viewer: the two of the
    file and the stock ones of osgViewer and osgGA (lines 441-445), which act
    on the viewer alone. *)
Inductive GUIEventHandler :=
  | ViewpointHandler (_viewpoints : list Viewpoint)
  | MouseCoordsHandler (_label : addr) (_mapNode : MapNode)
  | StockHandler (name : string).

(** Children of [root], in the order [main] adds them. *)
Inductive SceneChild :=
  | ChildNode (n : Node Viewpoint)
  | ChildSky (p : addr)
  | ChildCanvas.

(** Calls whose effect stays inside the viewer or a library; they are
    recorded in the order the program makes them. *)
Inductive LibCall :=
  | setMinimumNumStencilBits (n : Z)
  | setCameraManipulator (p : option addr)
  | SkyNode_attach (p : addr)
  | addCullCallback_AutoClipPlaneCallback (map : MapNode)
  | setDoPreCompile (b : bool)
  | setSceneData (root : list SceneChild).

Record World := {
  statics : Statics;
  heap : gmap addr Obj;          (* the objects created with [new] *)
  next : addr;                   (* the address the next [new] returns *)
  nodeMasks : gmap NodeId Z;     (* node mask of every live scene node *)
  eventHandlers : list GUIEventHandler;  (* [viewer.addEventHandler] *)
  canvas : list addr;            (* [ControlCanvas::addControl] *)
  calls : list LibCall;
  cout : string;                 (* [std::cout] *)
  notice : list string;          (* lines sent to [OE_NOTICE] *)
  optionsRead : list string;     (* ghost: options asked of [arguments] *)
  assigned : list StaticPtr      (* ghost: assignments to the static pointers *)
}.

Definition initial_world : World :=
  {| statics := initial_statics; heap := ∅; next := 1%positive;
     nodeMasks := ∅; eventHandlers := []; canvas := []; calls := [];
     cout := ""; notice := []; optionsRead := []; assigned := [] |}.

Definition set_statics (f : Statics → Statics) (w : World) : World :=
  {| statics := f (statics w); heap := heap w; next := next w;
     nodeMasks := nodeMasks w; eventHandlers := eventHandlers w;
     canvas := canvas w; calls := calls w; cout := cout w;
     notice := notice w; optionsRead := optionsRead w;
     assigned := assigned w |}.

Definition set_heap (f : gmap addr Obj → gmap addr Obj) (w : World) : World :=
  {| statics := statics w; heap := f (heap w); next := next w;
     nodeMasks := nodeMasks w; eventHandlers := eventHandlers w;
     canvas := canvas w; calls := calls w; cout := cout w;
     notice := notice w; optionsRead := optionsRead w;
     assigned := assigned w |}.

Definition set_next (f : addr → addr) (w : World) : World :=
  {| statics := statics w; heap := heap w; next := f (next w);
     nodeMasks := nodeMasks w; eventHandlers := eventHandlers w;
     canvas := canvas w; calls := calls w; cout := cout w;
     notice := notice w; optionsRead := optionsRead w;
     assigned := assigned w |}.

Definition set_nodeMasks (f : gmap NodeId Z → gmap NodeId Z) (w : World) : World :=
  {| statics := statics w; heap := heap w; next := next w;
     nodeMasks := f (nodeMasks w); eventHandlers := eventHandlers w;
     canvas := canvas w; calls := calls w; cout := cout w;
     notice := notice w; optionsRead := optionsRead w;
     assigned := assigned w |}.

Definition set_eventHandlers
    (f : list GUIEventHandler → list GUIEventHandler) (w : World) : World :=
  {| statics := statics w; heap := heap w; next := next w;
     nodeMasks := nodeMasks w; eventHandlers := f (eventHandlers w);
     canvas := canvas w; calls := calls w; cout := cout w;
     notice := notice w; optionsRead := optionsRead w;
     assigned := assigned w |}.

Definition set_canvas (f : list addr → list addr) (w : World) : World :=
  {| statics := statics w; heap := heap w; next := next w;
     nodeMasks := nodeMasks w; eventHandlers := eventHandlers w;
     canvas := f (canvas w); calls := calls w; cout := cout w;
     notice := notice w; optionsRead := optionsRead w;
     assigned := assigned w |}.

Definition set_calls (f : list LibCall → list LibCall) (w : World) : World :=
  {| statics := statics w; heap := heap w; next := next w;
     nodeMasks := nodeMasks w; eventHandlers := eventHandlers w;
     canvas := canvas w; calls := f (calls w); cout := cout w;
     notice := notice w; optionsRead := optionsRead w;
     assigned := assigned w |}.

Definition set_cout (f : string → string) (w : World) : World :=
  {| statics := statics w; heap := heap w; next := next w;
     nodeMasks := nodeMasks w; eventHandlers := eventHandlers w;
     canvas := canvas w; calls := calls w; cout := f (cout w);
     notice := notice w; optionsRead := optionsRead w;
     assigned := assigned w |}.

Definition set_notice (f : list string → list string) (w : World) : World :=
  {| statics := statics w; heap := heap w; next := next w;
     nodeMasks := nodeMasks w; eventHandlers := eventHandlers w;
     canvas := canvas w; calls := calls w; cout := cout w;
     notice := f (notice w); optionsRead := optionsRead w;
     assigned := assigned w |}.

Definition set_optionsRead (f : list string → list string) (w : World) : World :=
  {| statics := statics w; heap := heap w; next := next w;
     nodeMasks := nodeMasks w; eventHandlers := eventHandlers w;
     canvas := canvas w; calls := calls w; cout := cout w;
     notice := notice w; optionsRead := f (optionsRead w);
     assigned := assigned w |}.

Definition set_assigned (f : list StaticPtr → list StaticPtr) (w : World) : World :=
  {| statics := statics w; heap := heap w; next := next w;
     nodeMasks := nodeMasks w; eventHandlers := eventHandlers w;
     canvas := canvas w; calls := calls w; cout := cout w;
     notice := notice w; optionsRead := optionsRead w;
     assigned := f (assigned w) |}.

(** ** The state-and-fault monad the program runs in *)

Definition M (A : Type) : Type := World → Res (A * World).

#[global] Instance M_ret : MRet M := λ A a w, Ok (a, w).
#[global] Instance M_bind : MBind M := λ A B k m w,
  match m w with
  | Ok (a, w') => k a w'
  | Crash f => Crash f
  end.

Definition gets {A} (f : World → A) : M A := λ w, Ok (f w, w).
Definition modify (f : World → World) : M unit := λ w, Ok (tt, f w).
Definition crash {A} (f : Fault) : M A := λ _, Crash f.

(** [new T(...)]: a fresh address holding the object. *)
Definition new (o : Obj) : M addr := λ w,
  Ok (next w, set_next Pos.succ (set_heap (insert (next w) o) w)).

(** [p->...]: the object a pointer leads to. *)
Definition deref (p : option addr) : M (addr * Obj) := λ w,
  match p with
  | None => Crash NullDeref
  | Some a =>
      match heap w !! a with
      | Some o => Ok ((a, o), w)
      | None => Crash BadPointer
      end
  end.

Definition manip_at (p : option addr) : M (addr * EarthManipulator) :=
  '(a, o) ← deref p;
  match o with OManip m => mret (a, m) | _ => crash BadPointer end.

Definition sky_at (p : option addr) : M (addr * SkyNode) :=
  '(a, o) ← deref p;
  match o with OSky s => mret (a, s) | _ => crash BadPointer end.

Definition control_at (p : option addr) : M (addr * Control Viewpoint) :=
  '(a, o) ← deref p;
  match o with OControl c => mret (a, c) | _ => crash BadPointer end.

Definition store (a : addr) (o : Obj) : M unit :=
  modify (set_heap (insert a o)).

(** A call of a method that changes the object it is called on. *)
Definition call_manip (p : option addr)
    (f : EarthManipulator → EarthManipulator) : M unit :=
  '(a, m) ← manip_at p; store a (OManip (f m)).

Definition call_sky (p : option addr) (f : SkyNode → SkyNode) : M unit :=
  '(a, s) ← sky_at p; store a (OSky (f s)).

Definition call_control (p : option addr)
    (f : Control Viewpoint → Control Viewpoint) : M unit :=
  '(a, c) ← control_at p; store a (OControl (f c)).

Definition libcall (c : LibCall) : M unit := modify (set_calls (λ l, l ++ [c])).

(** Assignments to the file-level variables; those to a pointer leave a mark
    in the ghost log [assigned]. *)
Definition assign_s_manip (p : option addr) : M unit :=
  modify (λ w, set_assigned (λ l, l ++ [Ptr_s_manip])
    (set_statics (λ s, {| s_manip := p; s_controlPanel := s_controlPanel s;
       s_sky := s_sky s; s_dms := s_dms s; s_mgrs := s_mgrs s;
       s_ocean := s_ocean s |}) w)).

Definition assign_s_controlPanel (p : option addr) : M unit :=
  modify (λ w, set_assigned (λ l, l ++ [Ptr_s_controlPanel])
    (set_statics (λ s, {| s_manip := s_manip s; s_controlPanel := p;
       s_sky := s_sky s; s_dms := s_dms s; s_mgrs := s_mgrs s;
       s_ocean := s_ocean s |}) w)).

Definition assign_s_sky (p : option addr) : M unit :=
  modify (λ w, set_assigned (λ l, l ++ [Ptr_s_sky])
    (set_statics (λ s, {| s_manip := s_manip s;
       s_controlPanel := s_controlPanel s; s_sky := p; s_dms := s_dms s;
       s_mgrs := s_mgrs s; s_ocean := s_ocean s |}) w)).

Definition assign_s_dms (b : bool) : M unit :=
  modify (set_statics (λ s, {| s_manip := s_manip s;
    s_controlPanel := s_controlPanel s; s_sky := s_sky s; s_dms := b;
    s_mgrs := s_mgrs s; s_ocean := s_ocean s |})).

Definition assign_s_mgrs (b : bool) : M unit :=
  modify (set_statics (λ s, {| s_manip := s_manip s;
    s_controlPanel := s_controlPanel s; s_sky := s_sky s; s_dms := s_dms s;
    s_mgrs := b; s_ocean := s_ocean s |})).

Definition assign_s_ocean (b : bool) : M unit :=
  modify (set_statics (λ s, {| s_manip := s_manip s;
    s_controlPanel := s_controlPanel s; s_sky := s_sky s; s_dms := s_dms s;
    s_mgrs := s_mgrs s; s_ocean := b |})).

(** [OE_NOTICE << line << std::endl]. *)
Definition OE_NOTICE (line : string) : M unit :=
  modify (set_notice (λ l, l ++ [line])).

Definition endl : string := String (Ascii.ascii_of_nat 10) "".

Definition string_empty (s : string) : bool :=
  match s with EmptyString => true | String _ _ => false end.

(** ** The functions of the file *)

(** [usage], lines 45-58. *)
Definition usage (msg : string) : M Z :=
  OE_NOTICE msg;;
  OE_NOTICE "";;
  OE_NOTICE "USAGE: osgearth_viewer [options] file.earth";;
  OE_NOTICE "   --sky           : activates the atmospheric model";;
  OE_NOTICE "   --autoclip      : activates the auto clip-plane handler";;
  OE_NOTICE "   --dms           : format coordinates as degrees/minutes/seconds";;
  OE_NOTICE "   --mgrs          : format coordinates as MGRS";;
  OE_NOTICE "   --ocean         : display an ocean surface layer, if found";;
  mret (-1).

(** [SkySliderHandler::onValueChanged], lines 79-82. *)
Definition SkySliderHandler_onValueChanged (value : double) : M unit :=
  p ← gets (λ w, s_sky (statics w));
  call_sky p (SkyNode_setDateTime 2011 3 6 value).

(** [ToggleNodeHandler::onValueChanged], lines 89-94: the observer pointer is
    locked, and the mask is written only if the node is still alive. *)
Definition ToggleNodeHandler_onValueChanged (_node : NodeId) (value : bool)
    : M unit :=
  safeNode ← gets (λ w, nodeMasks w !! _node);
  match safeNode with
  | Some _ =>
      modify (set_nodeMasks
        (insert _node (to_unsigned (if value then Z.lnot 0 else 0))))
  | None => mret tt
  end.

(** [ClickViewpointHandler::onClick], lines 104-107. *)
Definition ClickViewpointHandler_onClick (_vp : Viewpoint) : M unit :=
  p ← gets (λ w, s_manip (statics w));
  call_manip p (EarthManipulator_setViewpoint _vp 4.5%float).

(** The text [MouseCoordsHandler::handle] builds in [ss], lines 135-153. *)
Definition mouse_coords_text (mgrs dms : bool) (lla : Vec3d) : string :=
  let ss := if mgrs
            then "MGRS: " +:+ MGRSFormatter_format (v_y lla) (v_x lla) +:+ "   "
            else "" in
  let fFormat := if dms then FORMAT_DEGREES_MINUTES_SECONDS
                 else FORMAT_DECIMAL_DEGREES in
  ss +:+ "Lat: " +:+ LatLongFormatter_format fFormat (v_y lla) 4 +:+ "  "
     +:+ "Lon: " +:+ LatLongFormatter_format fFormat (v_x lla) 5.

(** [MouseCoordsHandler::handle], lines 119-164. *)
Definition MouseCoordsHandler_handle (_label : addr) (_mapNode : MapNode)
    (ea : GUIEventAdapter) : M bool :=
  (if EventType_eqb (getEventType ea) MOVE
      || EventType_eqb (getEventType ea) DRAG
   then
     match ea_hits ea with
     | first :: _ =>
         let point := first in
         let lla := Map_worldPointToMapPoint _mapNode point in
         mgrs ← gets (λ w, s_mgrs (statics w));
         dms ← gets (λ w, s_dms (statics w));
         call_control (Some _label) (setText (mouse_coords_text mgrs dms lla))
     | [] =>
         call_control (Some _label) (setText "")
     end
   else mret tt);;
  mret false.

(** One row of the viewpoint grid, lines 196-208: the number [i+1] (an
    [unsigned]) and the clickable name. *)
Definition viewpoint_row (i : nat) (vp : Viewpoint) : list (Control Viewpoint) :=
  let num := new_control (LabelControl (pretty (to_unsigned (Z.of_nat i + 1)))) in
  let vpc := new_control (LabelControl
               (if string_empty (Viewpoint_getName vp) then "<no name>"
                else Viewpoint_getName vp)) in
  let vpc := addEventHandler (ClickViewpointHandler vp) vpc in
  [num; vpc].

(** The sky-time box, lines 216-230. *)
Definition sky_box : Control Viewpoint :=
  let skyBox := new_control HBox in
  let skyBox := addControl (new_control (LabelControl "Time: ")) skyBox in
  let skySlider := new_control (HSliderControl 0.0%float 24.0%float 18.0%float) in
  let skySlider := addEventHandler SkySliderHandler skySlider in
  addControl skySlider skyBox.

(** [createControlPanel], lines 173-236. *)
Definition createControlPanel (vps : list Viewpoint) : M unit :=
  let main := new_control VBox in
  let main :=
    if 0 <? Z.of_nat (length vps) then
      let g := new_control Grid in
      let g := addControls (concat (imap viewpoint_row vps)) g in
      addControl g main
    else main in
  sky ← gets (λ w, s_sky (statics w));
  let main := if sky is Some _ then addControl sky_box main else main in
  p ← new (OControl main);
  modify (set_canvas (λ l, l ++ [p]));;
  assign_s_controlPanel (Some p).

(** [osg::NodeVisitor::validNodeMask] for a visitor that keeps the defaults,
    as [KMLUIBuilder] does: traversal mask [0xffffffff], node mask override
    [0].  The test [(traversalMask & (override | nodeMask)) != 0] is then
    that the node's mask is not zero. *)
Definition validNodeMask (mask : Z) : bool := negb (mask =? 0).

(** [KMLUIBuilder::apply], lines 254-275: the row added to the grid for a
    node and, by [traverse], what its children add.  [traverse] hands the
    visitor to each child through [osg::Node::accept], which applies it only
    to a child whose mask is valid. *)
Fixpoint KMLUIBuilder_apply (node : Node Viewpoint) : list (Control Viewpoint) :=
  match node with
  | mkNode id mask userData children =>
      match userData with
      | Some data =>
          let cb := addEventHandler (ToggleNodeHandler id)
                      (new_control (CheckBoxControl (negb (mask =? 0)))) in
          let name := if string_empty (ad_getName data) then "<unnamed>"
                      else ad_getName data in
          let label := new_control (LabelControl name) in
          let label := match ad_getViewpoint data with
                       | Some vp => addEventHandler (ClickViewpointHandler vp) label
                       | None => label
                       end in
          [cb; label]
      | None => []
      end
      ++ flat_map
           (λ child,
              match child with
              | mkNode _ childMask _ _ =>
                  if validNodeMask childMask then KMLUIBuilder_apply child
                  else []
              end) children
  end.

(** [osg::Node::accept] for the [KMLUIBuilder]: the visitor is applied to the
    node only if the node's mask is valid. *)
Definition Node_accept (node : Node Viewpoint) : list (Control Viewpoint) :=
  match node with
  | mkNode _ mask _ _ =>
      if validNodeMask mask then KMLUIBuilder_apply node else []
  end.

(** The visitor over a child of [root].  The sky node and the canvas are
    nodes of the libraries and carry no annotation data. *)
Definition KMLUIBuilder_child (c : SceneChild) : list (Control Viewpoint) :=
  match c with
  | ChildNode n => Node_accept n
  | ChildSky _ | ChildCanvas => []
  end.

(** [addMouseCoords], lines 281-293. *)
Definition addMouseCoords (mapNode : MapNode) : M unit :=
  mouseCoords ← new (OControl (new_control (LabelControl "")));
  modify (set_canvas (λ l, l ++ [mouseCoords]));;
  modify (set_eventHandlers (λ l, l ++ [MouseCoordsHandler mouseCoords mapNode])).

(** [ViewpointHandler::handle], lines 300-322. *)
Definition ViewpointHandler_handle (_viewpoints : list Viewpoint)
    (ea : GUIEventAdapter) : M bool :=
  (if EventType_eqb (getEventType ea) KEYDOWN then
     let index := to_int (getKey ea - char_1) in
     if (0 <=? index) && (index <? to_int (Z.of_nat (length _viewpoints))) then
       match _viewpoints !! Z.to_nat index with
       | Some vp =>
           p ← gets (λ w, s_manip (statics w));
           call_manip p (EarthManipulator_setViewpoint vp 4.5%float)
       | None => crash OutOfBounds
       end
     else if getKey ea =? char_v then
       p ← gets (λ w, s_manip (statics w));
       '(_, m) ← manip_at p;
       let vp := EarthManipulator_getViewpoint m in
       let xml := Viewpoint_getConfig vp in
       modify (set_cout (λ out, out +:+ XmlDocument_store xml));;
       modify (set_cout (λ out, out +:+ endl))
     else if getKey ea =? char_question then
       p ← gets (λ w, s_controlPanel (statics w));
       '(_, c) ← control_at p;
       call_control p (setVisible (negb (control_visible c)))
     else mret tt
   else mret tt);;
  mret false.

(** ** [main], lines 327-450 *)

(** [arguments.read(option)], with the ghost record of what was asked. *)
Definition arguments_read (opt : string) (arguments : ArgumentParser)
    : M (bool * ArgumentParser) :=
  modify (set_optionsRead (λ l, l ++ [opt]));;
  mret (ArgumentParser_read opt arguments).

(** [arguments.read(option, value)]: [value] keeps what it held when nothing
    is assigned. *)
Definition arguments_read_string (opt : string) (value : string)
    (arguments : ArgumentParser) : M (string * ArgumentParser) :=
  modify (set_optionsRead (λ l, l ++ [opt]));;
  let '(v, arguments) := ArgumentParser_read_string opt arguments in
  mret (default value v, arguments).

(** [root->addChild(child)]: a null child is not added.  The scene keeps the
    nodes it holds alive. *)
Fixpoint register_nodes (n : Node Viewpoint) (masks : gmap NodeId Z)
    : gmap NodeId Z :=
  match n with
  | mkNode id mask _ children =>
      fold_right register_nodes (<[id := to_unsigned mask]> masks) children
  end.

Definition addChild (child : option SceneChild) (root : list SceneChild)
    : M (list SceneChild) :=
  match child with
  | Some (ChildNode n) =>
      modify (set_nodeMasks (register_nodes n));;
      mret (root ++ [ChildNode n])
  | Some c => mret (root ++ [c])
  | None => mret root
  end.

(** The options, lines 330-341.  The result is the value of the locals
    [useAutoClip], [useSky] and [kmlFile] and what is left of [arguments]. *)
Definition main_options (arguments : ArgumentParser)
    : M (bool * bool * string * ArgumentParser) :=
  libcall (setMinimumNumStencilBits 8);;
  let arguments := Viewer_arguments arguments in
  '(useAutoClip, arguments) ← arguments_read "--autoclip" arguments;
  '(useSky, arguments) ← arguments_read "--sky" arguments;
  '(ocean, arguments) ← arguments_read "--ocean" arguments;
  assign_s_ocean ocean;;
  '(dms, arguments) ← arguments_read "--dms" arguments;
  assign_s_dms dms;;
  '(mgrs, arguments) ← arguments_read "--mgrs" arguments;
  assign_s_mgrs mgrs;;
  '(kmlFile, arguments) ← arguments_read_string "--kml" "" arguments;
  mret (useAutoClip, useSky, kmlFile, arguments).

(** The sky model, lines 364-376. *)
Definition main_sky (mapNode : MapNode) (externals : Config) (useSky : bool)
    (root : list SceneChild) : M (list SceneChild) :=
  let skyConf := Config_child "sky" externals in
  let useSky := if negb (Config_empty skyConf) then true else useSky in
  if useSky then
    let hours := Config_value_double "hours" 12.0%float skyConf in
    p ← new (OSky (SkyNode_new mapNode));
    assign_s_sky (Some p);;
    sky ← gets (λ w, s_sky (statics w));
    call_sky sky (SkyNode_setDateTime 2011 3 6 hours);;
    sky ← gets (λ w, s_sky (statics w));
    '(a, _) ← sky_at sky;
    libcall (SkyNode_attach a);;
    sky ← gets (λ w, s_sky (statics w));
    addChild (ChildSky <$> sky) root
  else mret root.

(** The ocean surface, lines 378-383. *)
Definition main_ocean (mapNode : MapNode) (root : list SceneChild)
    : M (list SceneChild) :=
  ocean ← gets (λ w, s_ocean (statics w));
  if ocean : bool then
    let oceanNode := OceanSurface_loadOceanSurface mapNode in
    addChild (ChildNode <$> oceanNode) root
  else mret root.

(** The clip-plane callback, lines 385-396. *)
Definition main_autoclip (mapNode : MapNode) (externals : Config)
    (useAutoClip : bool) : M unit :=
  let useAutoClip :=
    if Config_hasChild "autoclip" externals
    then Config_boolValue useAutoClip (Config_child "autoclip" externals)
    else useAutoClip in
  sky ← gets (λ w, s_sky (statics w));
  ocean ← gets (λ w, s_ocean (statics w));
  if bool_decide (is_Some sky) || ocean || useAutoClip
  then libcall (addCullCallback_AutoClipPlaneCallback mapNode)
  else mret tt.

(** The KML file, lines 417-431. *)
Definition main_kml (mapNode : MapNode) (kmlFile : string)
    (root : list SceneChild) : M (list SceneChild) :=
  if negb (string_empty kmlFile) then
    match KML_load kmlFile mapNode with
    | Some kml =>
        root ← addChild (Some (ChildNode kml)) root;
        (* KMLUIBuilder uibuilder( ControlCanvas::get(&viewer) ) *)
        _grid ← new (OControl (new_control Grid));
        modify (set_canvas (λ l, l ++ [_grid]));;
        (* root->accept( uibuilder ) *)
        call_control (Some _grid)
          (addControls (flat_map KMLUIBuilder_child root));;
        mret root
    | None => mret root
    end
  else mret root.

(** The body of [if ( mapNode->getMap()->isGeocentric() )], lines 363-397. *)
Definition main_geocentric (mapNode : MapNode) (externals : Config)
    (useAutoClip useSky : bool) (root : list SceneChild)
    : M (list SceneChild) :=
  root ← main_sky mapNode externals useSky root;
  root ← main_ocean mapNode root;
  main_autoclip mapNode externals useAutoClip;;
  mret root.

(** The viewpoints and the control panel, lines 399-413. *)
Definition main_viewpoints (externals : Config) (root : list SceneChild)
    : M (list SceneChild) :=
  (* read in viewpoints, if any *)
  let children := Config_children "viewpoint" externals in
  let viewpoints :=
    if 0 <? Z.of_nat (length children)
    then Viewpoint_of_Config <$> children else [] in
  (if 0 <? Z.of_nat (length children)
   then modify (set_eventHandlers (λ l, l ++ [ViewpointHandler viewpoints]))
   else mret tt);;
  (* Add a control panel to the scene *)
  root ← addChild (Some ChildCanvas) root;
  sky ← gets (λ w, s_sky (statics w));
  (if (0 <? Z.of_nat (length viewpoints)) || bool_decide (is_Some sky)
   then createControlPanel viewpoints
   else mret tt);;
  mret root.

(** The body of [if ( mapNode )], lines 359-432. *)
Definition main_mapNode (mapNode : MapNode) (useAutoClip useSky : bool)
    (kmlFile : string) (root : list SceneChild) : M (list SceneChild) :=
  let externals := MapNode_externalConfig mapNode in
  root ←
    (if Map_isGeocentric mapNode
     then main_geocentric mapNode externals useAutoClip useSky root
     else mret root);
  root ← main_viewpoints externals root;
  addMouseCoords mapNode;;
  main_kml mapNode kmlFile root.

(** Lines 348-447: everything between the load of the earth file and the
    call of [viewer.run()]. *)
Definition main_scene (useAutoClip useSky : bool) (kmlFile : string)
    (earthNode : Node Viewpoint) : M unit :=
  p ← new (OManip EarthManipulator_new);
  assign_s_manip (Some p);;
  manip ← gets (λ w, s_manip (statics w));
  call_manip manip (EarthManipulator_setArcViewpointTransitions true);;
  manip ← gets (λ w, s_manip (statics w));
  libcall (setCameraManipulator manip);;
  root ← addChild (Some (ChildNode earthNode)) [];
  root ←
    match MapNode_findMapNode earthNode with
    | Some mapNode => main_mapNode mapNode useAutoClip useSky kmlFile root
    | None => mret root
    end;
  libcall (setDoPreCompile true);;
  libcall (setSceneData root);;
  modify (set_eventHandlers (λ l, l ++ [StockHandler "osgViewer::StatsHandler"]));;
  modify (set_eventHandlers (λ l, l ++ [StockHandler "osgViewer::WindowSizeHandler"]));;
  modify (set_eventHandlers (λ l, l ++ [StockHandler "osgViewer::ThreadingHandler"]));;
  modify (set_eventHandlers (λ l, l ++ [StockHandler "osgViewer::LODScaleHandler"]));;
  modify (set_eventHandlers (λ l, l ++ [StockHandler "osgGA::StateSetManipulator"])).

(** ** The viewer's loop *)

Definition GUIEventHandler_handle (h : GUIEventHandler) (ea : GUIEventAdapter)
    : M bool :=
  match h with
  | ViewpointHandler _viewpoints => ViewpointHandler_handle _viewpoints ea
  | MouseCoordsHandler _label _mapNode =>
      MouseCoordsHandler_handle _label _mapNode ea
  | StockHandler _ => mret false
  end.

(** The callbacks a [ControlEventHandler] does not override are the empty
    ones of the base class. *)
Definition ControlEventHandler_fire (h : ControlEventHandler Viewpoint)
    (ce : ControlEvent) : M unit :=
  match h, ce with
  | SkySliderHandler, FloatChanged value => SkySliderHandler_onValueChanged value
  | ToggleNodeHandler _node, BoolChanged value =>
      ToggleNodeHandler_onValueChanged _node value
  | ClickViewpointHandler _vp, Click => ClickViewpointHandler_onClick _vp
  | _, _ => mret tt
  end.

(** An event goes to every registered handler, in the order of registration
    (all of them answer [false], not handled). *)
Fixpoint dispatch (hs : list GUIEventHandler) (ea : GUIEventAdapter) : M unit :=
  match hs with
  | [] => mret tt
  | h :: hs => GUIEventHandler_handle h ea;; dispatch hs ea
  end.

(** The handlers attached to the controls on the canvas. *)
Definition canvas_handlers (w : World) : list (ControlEventHandler Viewpoint) :=
  flat_map (λ a, match heap w !! a with
                 | Some (OControl c) => control_handlers c
                 | _ => []
                 end) (canvas w).

Definition process (e : Event) : M unit :=
  match e with
  | GUIEvent ea => hs ← gets eventHandlers; dispatch hs ea
  | ControlFired i ce =>
      hs ← gets canvas_handlers;
      match hs !! i with
      | Some h => ControlEventHandler_fire h ce
      | None => mret tt
      end
  end.

Fixpoint Viewer_loop (es : list Event) : M unit :=
  match es with
  | [] => mret tt
  | e :: es => process e;; Viewer_loop es
  end.

(** [viewer.run()]. *)
Definition Viewer_run (sess : Session) : M Z :=
  Viewer_loop (events sess);;
  mret (exitStatus sess).

(** [main], lines 327-450. *)
Definition main (arguments : ArgumentParser) (sess : Session) : M Z :=
  '(useAutoClip, useSky, kmlFile, arguments) ← main_options arguments;
  (* load the .earth file from the command line. *)
  match readNodeFiles arguments with
  | None => usage "Unable to load earth model."
  | Some earthNode =>
      main_scene useAutoClip useSky kmlFile earthNode;;
      Viewer_run sess
  end.

(** The whole process: [main] started on the initial values of the statics. *)
Definition run_program (arguments : ArgumentParser) (sess : Session)
    : Res (Z * World) :=
  main arguments sess initial_world.

(** ** Vocabulary of the specification *)

(** What survives of an object when a handler has run: its class and, for a
    control, whether it is a label and the handlers attached to it. *)
Inductive Shape :=
  | ShManip
  | ShSky
  | ShControl (label : bool) (hs : list (ControlEventHandler Viewpoint)).

Definition is_label (c : Control Viewpoint) : bool :=
  match control_kind c with LabelControl _ => true | _ => false end.

Definition is_slider (c : Control Viewpoint) : bool :=
  match control_kind c with HSliderControl _ _ _ => true | _ => false end.

Definition shape (o : Obj) : Shape :=
  match o with
  | OManip _ => ShManip
  | OSky _ => ShSky
  | OControl c => ShControl (is_label c) (control_handlers c)
  end.

Definition heap_shape (w : World) (a : addr) : option Shape :=
  shape <$> heap w !! a.

Definition static_ptr (v : StaticPtr) (s : Statics) : option addr :=
  match v with
  | Ptr_s_manip => s_manip s
  | Ptr_s_controlPanel => s_controlPanel s
  | Ptr_s_sky => s_sky s
  end.

(** [frame w w']: from [w] to [w'] nothing changed but the contents of
    objects (not their class, not the handlers on a control), the node masks,
    the text on [std::cout] and the calls made into the libraries. *)
Record frame (w w' : World) : Prop := {
  fr_statics : statics w' = statics w;
  fr_shape : ∀ a, heap_shape w' a = heap_shape w a;
  fr_next : next w' = next w;
  fr_eventHandlers : eventHandlers w' = eventHandlers w;
  fr_canvas : canvas w' = canvas w;
  fr_notice : notice w' = notice w;
  fr_optionsRead : optionsRead w' = optionsRead w;
  fr_assigned : assigned w' = assigned w
}.

(** The world after [new] has placed [o] at the next address. *)
Definition alloc (o : Obj) (w : World) : World :=
  set_next Pos.succ (set_heap (insert (next w) o) w).

(** [grows w w']: what start-up, once an object exists, no longer touches:
    the objects themselves, the manipulator pointer, the three flags, and
    what was written to [OE_NOTICE] and asked of the arguments; calls into
    the libraries are only added. *)
Record grows (w w' : World) : Prop := {
  g_heap : ∀ a o, heap w !! a = Some o → heap w' !! a = Some o;
  g_manip : s_manip (statics w') = s_manip (statics w);
  g_dms : s_dms (statics w') = s_dms (statics w);
  g_mgrs : s_mgrs (statics w') = s_mgrs (statics w);
  g_ocean : s_ocean (statics w') = s_ocean (statics w);
  g_notice : notice w' = notice w;
  g_optionsRead : optionsRead w' = optionsRead w;
  g_calls : calls w ⊆ calls w'
}.

(** The invariant of the program from line 348 on. *)
Record Inv (w : World) : Prop := {
  inv_wf : ∀ a, is_Some (heap w !! a) → (a < next w)%positive;
  inv_manip : ∃ a, s_manip (statics w) = Some a ∧ heap_shape w a = Some ShManip;
  inv_sky : ∀ a, s_sky (statics w) = Some a ↔ heap_shape w a = Some ShSky;
  inv_panel : ∀ a, s_controlPanel (statics w) = Some a →
              ∃ b hs, heap_shape w a = Some (ShControl b hs);
  inv_canvas : ∀ a, a ∈ canvas w →
               ∃ b hs, heap_shape w a = Some (ShControl b hs);
  inv_slider : SkySliderHandler ∈ canvas_handlers w →
               is_Some (s_sky (statics w));
  inv_labels : ∀ l mn, MouseCoordsHandler l mn ∈ eventHandlers w →
               ∃ hs, heap_shape w l = Some (ShControl true hs);
  inv_viewpoints : ∀ vps, ViewpointHandler vps ∈ eventHandlers w →
                   is_Some (s_controlPanel (statics w));
  inv_nodup : NoDup (assigned w);
  inv_assigned : ∀ v, v ∈ assigned w ↔ is_Some (static_ptr v (statics w))
}.

(** What a handler needs of the world it is registered in. *)
Definition registrable (w : World) (h : GUIEventHandler) : Prop :=
  match h with
  | ViewpointHandler _ => is_Some (s_controlPanel (statics w))
  | MouseCoordsHandler l _ => ∃ hs, heap_shape w l = Some (ShControl true hs)
  | StockHandler _ => True
  end.

(** The world [main] has before line 348: no object, no handler, no control,
    the three pointers null. *)
Record pristine (w : World) : Prop := {
  pr_heap : heap w = ∅;
  pr_manip : s_manip (statics w) = None;
  pr_controlPanel : s_controlPanel (statics w) = None;
  pr_sky : s_sky (statics w) = None;
  pr_eventHandlers : eventHandlers w = [];
  pr_canvas : canvas w = [];
  pr_assigned : assigned w = []
}.

(** What [main_scene] leaves as it found it. *)
Record kept (w w' : World) : Prop := {
  k_dms : s_dms (statics w') = s_dms (statics w);
  k_mgrs : s_mgrs (statics w') = s_mgrs (statics w);
  k_ocean : s_ocean (statics w') = s_ocean (statics w);
  k_notice : notice w' = notice w;
  k_optionsRead : optionsRead w' = optionsRead w
}.

(** The slider [createControlPanel] puts into the sky box. *)
Definition sky_slider : Control Viewpoint :=
  mkControl (HSliderControl 0.0%float 24.0%float 18.0%float) true
            [SkySliderHandler] [].

(** A computation that, whenever it returns, has left the file-level
    variables and the record of their assignments as they were. *)
Definition keeps_statics {A} (m : M A) : Prop :=
  ∀ w a w', m w = Ok (a, w') →
    statics w' = statics w ∧ assigned w' = assigned w.

(** The options [main] asks for, in the order it asks. *)
Definition main_option_names : list string :=
  ["--autoclip"; "--sky"; "--ocean"; "--dms"; "--mgrs"; "--kml"].

(** The six options as [main] reads them off the arguments, one after the
    other, each from what the reads before it have left. *)
Record Options := {
  opt_autoclip : bool;
  opt_sky : bool;
  opt_ocean : bool;
  opt_dms : bool;
  opt_mgrs : bool;
  opt_kml : string;
  opt_arguments : ArgumentParser
}.

Definition options_of (arguments : ArgumentParser) : Options :=
  let a0 := Viewer_arguments arguments in
  let r1 := ArgumentParser_read "--autoclip" a0 in
  let r2 := ArgumentParser_read "--sky" r1.2 in
  let r3 := ArgumentParser_read "--ocean" r2.2 in
  let r4 := ArgumentParser_read "--dms" r3.2 in
  let r5 := ArgumentParser_read "--mgrs" r4.2 in
  let r6 := ArgumentParser_read_string "--kml" r5.2 in
  {| opt_autoclip := r1.1; opt_sky := r2.1; opt_ocean := r3.1;
     opt_dms := r4.1; opt_mgrs := r5.1; opt_kml := default "" r6.1;
     opt_arguments := r6.2 |}.

(** The world with the options read: where line 344 finds the program. *)
Definition options_world (o : Options) : World :=
  set_statics (λ s, {| s_manip := None; s_controlPanel := None;
                       s_sky := None; s_dms := opt_dms o;
                       s_mgrs := opt_mgrs o; s_ocean := opt_ocean o |})
    (set_optionsRead (λ _, main_option_names)
       (set_calls (λ _, [setMinimumNumStencilBits 8]) initial_world)).

(** The world in which the viewer's loop starts, for given arguments. *)
Definition loop_entry (arguments : ArgumentParser) (w : World) : Prop :=
  ∃ useAutoClip useSky kmlFile arguments' earthNode w1,
    main_options arguments initial_world
      = Ok ((useAutoClip, useSky, kmlFile, arguments'), w1)
    ∧ readNodeFiles arguments' = Some earthNode
    ∧ main_scene useAutoClip useSky kmlFile earthNode w1 = Ok (tt, w).

(** The worlds an interactive session passes through. *)
Inductive reachable (arguments : ArgumentParser) : World → Prop :=
  | reachable_entry w :
      loop_entry arguments w → reachable arguments w
  | reachable_event w e w' :
      reachable arguments w → process e w = Ok (tt, w') →
      reachable arguments w'.

(** The lines [usage] prints. *)
Definition usage_text (msg : string) : list string :=
  [ msg; "";
    "USAGE: osgearth_viewer [options] file.earth";
    "   --sky           : activates the atmospheric model";
    "   --autoclip      : activates the auto clip-plane handler";
    "   --dms           : format coordinates as degrees/minutes/seconds";
    "   --mgrs          : format coordinates as MGRS";
    "   --ocean         : display an ocean surface layer, if found" ].

(** ** Vocabulary for the handlers and for start-up *)

Definition node_id (n : Node Viewpoint) : NodeId :=
  match n with mkNode id _ _ _ => id end.
Definition node_mask (n : Node Viewpoint) : Z :=
  match n with mkNode _ mask _ _ => mask end.
Definition node_userData (n : Node Viewpoint)
    : option (AnnotationData Viewpoint) :=
  match n with mkNode _ _ userData _ => userData end.

(** Every node of a scene, the root first, in the order a visitor that
    traverses all children meets them. *)
Fixpoint Node_subtree (n : Node Viewpoint) : list (Node Viewpoint) :=
  n :: match n with
       | mkNode _ _ _ children => flat_map Node_subtree children
       end.

(** The nodes a visitor with the default masks is applied to, once it is
    applied to [n]: [n], and below it every node that is reached through
    nodes with a valid mask only; in the order of the traversal. *)
Fixpoint Node_applied (n : Node Viewpoint) : list (Node Viewpoint) :=
  n :: match n with
       | mkNode _ _ _ children =>
           flat_map (λ child, if validNodeMask (node_mask child)
                              then Node_applied child else []) children
       end.

(** The nodes the visitor is applied to when [n] accepts it. *)
Definition Node_visited (n : Node Viewpoint) : list (Node Viewpoint) :=
  if validNodeMask (node_mask n) then Node_applied n else [].

(** Whether a node carries [AnnotationData]. *)
Definition annotated (n : Node Viewpoint) : bool :=
  match node_userData n with Some _ => true | None => false end.

(** The two controls [KMLUIBuilder::apply] makes for one node, lines 256-272:
    none for a node without [AnnotationData]. *)
Definition KMLUIBuilder_row (n : Node Viewpoint) : list (Control Viewpoint) :=
  match node_userData n with
  | Some data =>
      [ mkControl (CheckBoxControl (negb (node_mask n =? 0))) true
          [ToggleNodeHandler (node_id n)] [];
        mkControl (LabelControl (if string_empty (ad_getName data)
                                 then "<unnamed>" else ad_getName data)) true
          (match ad_getViewpoint data with
           | Some vp => [ClickViewpointHandler vp]
           | None => []
           end) [] ]
  | None => []
  end.

(** The text [MouseCoordsHandler::handle] gives the label on a MOVE or DRAG
    event, lines 126-160. *)
Definition label_text (_mapNode : MapNode) (ea : GUIEventAdapter) (w : World)
    : string :=
  match ea_hits ea with
  | first :: _ =>
      mouse_coords_text (s_mgrs (statics w)) (s_dms (statics w))
        (Map_worldPointToMapPoint _mapNode first)
  | [] => ""
  end.

(** [quiet w w']: what no event handler of the file can do between [w] and
    [w']: create an object or change the class of one, attach a handler to a
    control or take one off, register a handler or a control, write a
    file-level variable, make one of the calls into the viewer that
    start-up makes, print to [OE_NOTICE], take back what is on [std::cout],
    add a node to the scene or remove one. *)
Record quiet (w w' : World) : Prop := {
  q_frame : frame w w';
  q_calls : calls w' = calls w;
  q_nodes : ∀ n, is_Some (nodeMasks w' !! n) ↔ is_Some (nodeMasks w !! n);
  q_cout : ∃ s, cout w' = cout w +:+ s
}.

(** A computation that, whenever it returns, leaves a world related by [R]
    to the one it started in. *)
Definition leaves {A} (R : World → World → Prop) (m : M A) : Prop :=
  ∀ w a w', m w = Ok (a, w') → R w w'.

(** [adds w w' hs chs cs]: from [w] to [w'] start-up has registered the
    handlers [hs] with the viewer, put controls on the canvas that carry the
    handlers [chs], and made the calls [cs], each in this order and after
    what was there; it has removed no node from the scene and printed
    nothing on [std::cout]. *)
Record adds (w w' : World) (hs : list GUIEventHandler)
    (chs : list (ControlEventHandler Viewpoint)) (cs : list LibCall)
    : Prop := {
  a_eventHandlers : eventHandlers w' = eventHandlers w ++ hs;
  a_canvas_handlers : canvas_handlers w' = canvas_handlers w ++ chs;
  a_calls : calls w' = calls w ++ cs;
  a_nodes : ∀ n, is_Some (nodeMasks w !! n) → is_Some (nodeMasks w' !! n);
  a_cout : cout w' = cout w
}.

(** Every node of the children of [root] is in the scene. *)
Definition root_live (root : list SceneChild) (w : World) : Prop :=
  ∀ n n', ChildNode n ∈ root → n' ∈ Node_subtree n →
          is_Some (nodeMasks w !! node_id n').

(** What start-up decides from the map node, the options and the earth
    file: whether the sky node is made (lines 361-368), whether the clip
    plane callback is wanted (lines 385-388), and which nodes the ocean
    (lines 379-383) and the KML file (lines 418-425) add to the scene. *)
Definition sky_wanted (mapNode : MapNode) (useSky : bool) : bool :=
  Map_isGeocentric mapNode
  && (if negb (Config_empty
                 (Config_child "sky" (MapNode_externalConfig mapNode)))
      then true else useSky).

Definition autoclip_wanted (mapNode : MapNode) (useAutoClip : bool) : bool :=
  let externals := MapNode_externalConfig mapNode in
  if Config_hasChild "autoclip" externals
  then Config_boolValue useAutoClip (Config_child "autoclip" externals)
  else useAutoClip.

Definition ocean_child (mapNode : MapNode) (ocean : bool) : list SceneChild :=
  if Map_isGeocentric mapNode && ocean
  then option_list (ChildNode <$> OceanSurface_loadOceanSurface mapNode)
  else [].

Definition kml_child (mapNode : MapNode) (kmlFile : string)
    : list SceneChild :=
  if negb (string_empty kmlFile)
  then option_list (ChildNode <$> KML_load kmlFile mapNode)
  else [].

(** The [viewpoint] elements [main] loads, lines 400-405: those of the
    external configuration of the map node; none without a map node. *)
Definition loaded_viewpoints (earthNode : Node Viewpoint) : list Config :=
  match MapNode_findMapNode earthNode with
  | Some mapNode =>
      Config_children "viewpoint" (MapNode_externalConfig mapNode)
  | None => []
  end.

(** The viewpoints of the earth file, lines 400-405. *)
Definition earth_viewpoints (mapNode : MapNode) : list Viewpoint :=
  Viewpoint_of_Config
    <$> Config_children "viewpoint" (MapNode_externalConfig mapNode).

(** The five handlers of lines 441-445, in the order they are added. *)
Definition stock_handlers : list GUIEventHandler :=
  [ StockHandler "osgViewer::StatsHandler";
    StockHandler "osgViewer::WindowSizeHandler";
    StockHandler "osgViewer::ThreadingHandler";
    StockHandler "osgViewer::LODScaleHandler";
    StockHandler "osgGA::StateSetManipulator" ].

End Program.

(** ** A concrete toolkit

    A small implementation of the [Toolkit] interface on which the program can
    be run: options are words of a list, a configuration is a tree of keyed
    values, and four earth files exist.  It is used to evaluate the model on
    examples; no theorem about the program depends on it. *)
Module Demo.

Inductive DConfig :=
  | DConf (key text : string) (number : option double) (children : list DConfig).

Definition DConfig_key (c : DConfig) : string :=
  match c with DConf k _ _ _ => k end.
Definition DConfig_text (c : DConfig) : string :=
  match c with DConf _ t _ _ => t end.
Definition DConfig_number (c : DConfig) : option double :=
  match c with DConf _ _ n _ => n end.
Definition DConfig_children (c : DConfig) : list DConfig :=
  match c with DConf _ _ _ cs => cs end.

Definition DConfig_none : DConfig := DConf "" "" None [].

Definition DConfig_children_of (key : string) (c : DConfig) : list DConfig :=
  filter (λ d, DConfig_key d = key) (DConfig_children c).

Definition DConfig_child (key : string) (c : DConfig) : DConfig :=
  default DConfig_none (head (DConfig_children_of key c)).

Definition DConfig_empty (c : DConfig) : bool :=
  match c with
  | DConf k t None [] => string_empty k && string_empty t
  | _ => false
  end.

Fixpoint DConfig_xml (c : DConfig) : string :=
  match c with
  | DConf k t _ cs =>
      "<" +:+ k +:+ ">" +:+ t +:+ String.concat "" (map DConfig_xml cs)
      +:+ "</" +:+ k +:+ ">"
  end.

Record DMapNode := { dm_geocentric : bool; dm_externals : DConfig }.

Record DManip := { dm_arc : bool; dm_target : option (DConfig * double) }.

Definition viewpoint_conf (name : string) : DConfig :=
  DConf "viewpoint" "" None [DConf "name" name None []].

(** The earth files: a globe with two viewpoints and a sky element, a
    projected (flat) map with one viewpoint, and two globes with fifteen and
    seventy viewpoints. *)
Definition globe_externals : DConfig :=
  DConf "external" "" None
    [ viewpoint_conf "Home"; viewpoint_conf "Alps";
      DConf "sky" "" None [DConf "hours" "" (Some 20.0%float) []] ].

Definition flat_externals : DConfig :=
  DConf "external" "" None [ viewpoint_conf "Town" ].

Definition many_externals (n : nat) : DConfig :=
  DConf "external" "" None (replicate n (viewpoint_conf "")).

(** A globe whose earth file switches auto-clip off. *)
Definition noclip_externals : DConfig :=
  DConf "external" "" None [ DConf "autoclip" "false" None [] ].

Definition files : list (string * NodeId) :=
  [("globe.earth", 1%positive); ("flat.earth", 2%positive);
   ("fifteen.earth", 3%positive); ("seventy.earth", 4%positive);
   ("plain.earth", 5%positive); ("model.osg", 6%positive);
   ("noclip.earth", 7%positive)].

Definition maps : list (NodeId * DMapNode) :=
  [(1%positive, {| dm_geocentric := true; dm_externals := globe_externals |});
   (2%positive, {| dm_geocentric := false; dm_externals := flat_externals |});
   (3%positive, {| dm_geocentric := true; dm_externals := many_externals 15 |});
   (4%positive, {| dm_geocentric := true; dm_externals := many_externals 70 |});
   (5%positive, {| dm_geocentric := true;
                   dm_externals := DConf "external" "" None [] |});
   (7%positive, {| dm_geocentric := true;
                   dm_externals := noclip_externals |})].

Fixpoint assoc {A} (k : positive) (l : list (positive * A)) : option A :=
  match l with
  | [] => None
  | (k', a) :: l => if Pos.eqb k k' then Some a else assoc k l
  end.

Fixpoint assoc_string {A} (k : string) (l : list (string * A)) : option A :=
  match l with
  | [] => None
  | (k', a) :: l => if String.eqb k k' then Some a else assoc_string k l
  end.

Fixpoint remove_first (s : string) (l : list string) : list string :=
  match l with
  | [] => []
  | x :: l => if String.eqb s x then l else x :: remove_first s l
  end.

Definition read (opt : string) (args : list string) : bool * list string :=
  if bool_decide (opt ∈ args) then (true, remove_first opt args)
  else (false, args).

Fixpoint read_string (opt : string) (args : list string)
    : option string * list string :=
  match args with
  | x :: ((v :: rest) as tl) =>
      if String.eqb opt x then (Some v, rest)
      else let '(r, tl') := read_string opt tl in (r, x :: tl')
  | _ => (None, args)
  end.

Definition load (args : list string) : option (Node DConfig) :=
  id ← list_find (λ a, is_Some (assoc_string a files)) args
       ≫= (λ ia, assoc_string ia.2 files);
  Some (mkNode id 1 None []).

#[export] Instance toolkit : Toolkit := {|
  ArgumentParser := list string;
  ArgumentParser_read := read;
  ArgumentParser_read_string := read_string;
  Viewer_arguments := λ args, args;
  Config := DConfig;
  Config_child := DConfig_child;
  Config_hasChild := λ k c, bool_decide (DConfig_children_of k c ≠ []);
  Config_children := DConfig_children_of;
  Config_empty := DConfig_empty;
  Config_value_double := λ k fallback c,
    default fallback (DConfig_number (DConfig_child k c));
  Config_boolValue := λ fallback c,
    if String.eqb (DConfig_text c) "true" then true
    else if String.eqb (DConfig_text c) "false" then false else fallback;
  Viewpoint := DConfig;
  Viewpoint_of_Config := λ c, c;
  Viewpoint_getName := λ c, DConfig_text (DConfig_child "name" c);
  Viewpoint_getConfig := λ c, c;
  XmlDocument_store := DConfig_xml;
  readNodeFiles := load;
  MapNode := DMapNode;
  MapNode_findMapNode := λ n, match n with mkNode id _ _ _ => assoc id maps end;
  MapNode_externalConfig := dm_externals;
  Map_isGeocentric := dm_geocentric;
  Map_worldPointToMapPoint := λ _ p, p;
  EarthManipulator := DManip;
  EarthManipulator_new := {| dm_arc := false; dm_target := None |};
  EarthManipulator_setArcViewpointTransitions := λ b m,
    {| dm_arc := b; dm_target := dm_target m |};
  EarthManipulator_setViewpoint := λ vp t m,
    {| dm_arc := dm_arc m; dm_target := Some (vp, t) |};
  EarthManipulator_getViewpoint := λ m,
    match dm_target m with Some (vp, _) => vp | None => viewpoint_conf "start" end;
  SkyNode := option (Z * Z * Z * double);
  SkyNode_new := λ _, None;
  SkyNode_setDateTime := λ y m d h _, Some (y, m, d, h);
  OceanSurface_loadOceanSurface := λ _, None;
  KML_load := λ uri _,
    if String.eqb uri "places.kml"
    then Some (mkNode 20%positive 1 None
           [mkNode 21%positive 1
              (Some {| ad_getName := "Matterhorn";
                       ad_getViewpoint := Some (viewpoint_conf "Matterhorn") |}) [];
            mkNode 22%positive 0
              (Some {| ad_getName := ""; ad_getViewpoint := None |}) []])
    else None;
  MGRSFormatter_format := λ _ _, "32TLS";
  LatLongFormatter_format := λ fmt _ _,
    match fmt with
    | FORMAT_DECIMAL_DEGREES => "dd"
    | FORMAT_DEGREES_MINUTES_SECONDS => "dms"
    end
|}.

Definition key_down (k : Z) : GUIEventAdapter :=
  {| getEventType := KEYDOWN; getKey := k; getX := 0%float; getY := 0%float;
     ea_hits := [] |}.

Definition mouse (t : EventType) (hits : list Vec3d) : GUIEventAdapter :=
  {| getEventType := t; getKey := 0; getX := 0%float; getY := 0%float;
     ea_hits := hits |}.

(** The world in which the loop starts for given arguments (the initial
    world, should the program stop before). *)
Definition entry_world (args : list string) : World :=
  match run_program args {| events := []; exitStatus := 0 |} with
  | Ok (_, w) => w
  | Crash _ => initial_world
  end.

Definition globe_args : list string :=
  ["osgearth_viewer"; "--mgrs"; "globe.earth"].
Definition flat_args : list string :=
  ["osgearth_viewer"; "--sky"; "flat.earth"].
Definition fifteen_args : list string := ["osgearth_viewer"; "fifteen.earth"].
Definition seventy_args : list string := ["osgearth_viewer"; "seventy.earth"].

Definition globe_entry : World := Eval vm_compute in entry_world globe_args.
Definition flat_entry : World := Eval vm_compute in entry_world flat_args.
Definition fifteen_entry : World := Eval vm_compute in entry_world fifteen_args.
Definition seventy_entry : World := Eval vm_compute in entry_world seventy_args.

Definition globe_map : DMapNode :=
  {| dm_geocentric := true; dm_externals := globe_externals |}.

Definition flat_map_node : DMapNode :=
  {| dm_geocentric := false; dm_externals := flat_externals |}.

(** A short session on the globe: key ['2'], then the slider moved to 3.5. *)
Definition globe_events : list Event :=
  [GUIEvent (key_down 50); ControlFired 2 (FloatChanged 3.5%float)].

Definition globe_after : World := Eval vm_compute in
  match Viewer_loop globe_events globe_entry with
  | Ok (_, w) => w
  | Crash _ => initial_world
  end.

(** The worlds after one key on the two large earth files. *)
Definition after_handle (vps : list DConfig) (k : Z) (w : World) : World :=
  match ViewpointHandler_handle vps (key_down k) w with
  | Ok (_, w') => w'
  | Crash _ => initial_world
  end.

Definition fifteen_viewpoints : list DConfig :=
  replicate 15 (viewpoint_conf "").
Definition seventy_viewpoints : list DConfig :=
  replicate 70 (viewpoint_conf "").

Definition fifteen_after : World := Eval vm_compute in
  after_handle fifteen_viewpoints char_question fifteen_entry.
Definition seventy_after : World := Eval vm_compute in
  after_handle seventy_viewpoints char_v seventy_entry.

Definition fifteen_panel : Control DConfig := Eval vm_compute in
  match heap fifteen_entry !! 2%positive with
  | Some (OControl c) => c
  | _ => new_control VBox
  end.

(** The globe with a KML file of two placemarks, one of them hidden. *)
Definition kml_args : list string :=
  ["osgearth_viewer"; "--kml"; "places.kml"; "globe.earth"].
Definition kml_entry : World := Eval vm_compute in entry_world kml_args.

(** A globe without viewpoints and without a sky element. *)
Definition plain_args : list string := ["osgearth_viewer"; "plain.earth"].
Definition plain_entry : World := Eval vm_compute in entry_world plain_args.

Definition plain_map : DMapNode :=
  {| dm_geocentric := true; dm_externals := DConf "external" "" None [] |}.

(** The plain globe started with [--sky], and the globe without auto-clip
    started with [--autoclip]. *)
Definition plain_sky_args : list string :=
  ["osgearth_viewer"; "--sky"; "plain.earth"].
Definition plain_sky_entry : World :=
  Eval vm_compute in entry_world plain_sky_args.



(** The mouse over the globe at 8 E, 46 N. *)
Definition mouse_over_alps : GUIEventAdapter :=
  mouse MOVE [{| v_x := 8.0%float; v_y := 46.0%float; v_z := 0.0%float |}].

Definition globe_pointed : World := Eval vm_compute in
  match MouseCoordsHandler_handle 4%positive globe_map mouse_over_alps
          globe_entry with
  | Ok (_, w) => w
  | Crash _ => initial_world
  end.

(** The control panel of the globe, as the loop finds it. *)
Definition globe_panel : Control DConfig := Eval vm_compute in
  match heap globe_entry !! 3%positive with
  | Some (OControl c) => c
  | _ => new_control VBox
  end.

Definition globe_viewpoints : list DConfig :=
  [viewpoint_conf "Home"; viewpoint_conf "Alps"].

Definition manip_at_start : DManip := {| dm_arc := true; dm_target := None |}.

Definition manip_on (vp : DConfig) : DManip :=
  {| dm_arc := true; dm_target := Some (vp, 4.5%float) |}.

End Demo.

(** * Verification *)

Section Proofs.
Context `{TK : Toolkit}.

(** ** Machine integers *)

Lemma to_int_id z : is_int z → to_int z = z.
Proof.
  unfold is_int, int_min, int_max, to_int. intros H.
  rewrite Z.mod_small by lia. lia.
Qed.

Lemma to_int_le z : 0 <= z → to_int z <= z.
Proof.
  unfold to_int. intros H.
  pose proof (Z.mod_le (z + 2 ^ 31) (2 ^ 32)). lia.
Qed.

(** ** Running the monad *)

Lemma bind_unfold {A B} (m : M A) (k : A → M B) w :
  (m ≫= k) w = match m w with Ok (a, w') => k a w' | Crash f => Crash f end.
Proof. reflexivity. Qed.

Lemma bind_Ok {A B} (m : M A) (k : A → M B) w a w' :
  m w = Ok (a, w') → (m ≫= k) w = k a w'.
Proof. intros H. rewrite bind_unfold, H. reflexivity. Qed.

Lemma bind_inv {A B} (m : M A) (k : A → M B) w b w'' :
  (m ≫= k) w = Ok (b, w'') →
  ∃ a w', m w = Ok (a, w') ∧ k a w' = Ok (b, w'').
Proof.
  rewrite bind_unfold. destruct (m w) as [[a w']|f]; [|discriminate].
  intros H. eauto.
Qed.

Lemma gets_bind {A B} (f : World → A) (k : A → M B) w :
  (gets f ≫= k) w = k (f w) w.
Proof. reflexivity. Qed.

Lemma modify_bind {B} (f : World → World) (k : unit → M B) w :
  (modify f ≫= k) w = k tt (f w).
Proof. reflexivity. Qed.

Lemma ret_bind {A B} (a : A) (k : A → M B) w :
  (mret a ≫= k) w = k a w.
Proof. reflexivity. Qed.

(** Unfolds the combinators of the monad and the elementary actions. *)
Ltac run :=
  unfold mbind, M_bind, mret, M_ret, gets, modify, crash, libcall, store,
    OE_NOTICE, assign_s_manip, assign_s_controlPanel, assign_s_sky,
    assign_s_dms, assign_s_mgrs, assign_s_ocean; cbn.

Lemma libcall_bind {B} (c : LibCall) (k : unit → M B) w :
  (libcall c ≫= k) w = k tt (set_calls (λ l, l ++ [c]) w).
Proof. reflexivity. Qed.

Lemma addChild_node_bind {B} n root (k : list SceneChild → M B) w :
  (addChild (Some (ChildNode n)) root ≫= k) w
  = k (root ++ [ChildNode n]) (set_nodeMasks (register_nodes n) w).
Proof. reflexivity. Qed.

Lemma manip_at_Some w a m :
  heap w !! a = Some (OManip m) → manip_at (Some a) w = Ok ((a, m), w).
Proof. intros H. unfold manip_at, deref. rewrite bind_unfold, H. reflexivity. Qed.

Lemma sky_at_Some w a s :
  heap w !! a = Some (OSky s) → sky_at (Some a) w = Ok ((a, s), w).
Proof. intros H. unfold sky_at, deref. rewrite bind_unfold, H. reflexivity. Qed.

Lemma control_at_Some w a c :
  heap w !! a = Some (OControl c) → control_at (Some a) w = Ok ((a, c), w).
Proof. intros H. unfold control_at, deref. rewrite bind_unfold, H. reflexivity. Qed.

Lemma call_manip_Some w a m f :
  heap w !! a = Some (OManip m) →
  call_manip (Some a) f w = Ok (tt, set_heap (insert a (OManip (f m))) w).
Proof.
  intros H. unfold call_manip.
  rewrite (bind_Ok _ _ _ _ _ (manip_at_Some _ _ _ H)). reflexivity.
Qed.

Lemma call_sky_Some w a s f :
  heap w !! a = Some (OSky s) →
  call_sky (Some a) f w = Ok (tt, set_heap (insert a (OSky (f s))) w).
Proof.
  intros H. unfold call_sky.
  rewrite (bind_Ok _ _ _ _ _ (sky_at_Some _ _ _ H)). reflexivity.
Qed.

Lemma call_control_Some w a c f :
  heap w !! a = Some (OControl c) →
  call_control (Some a) f w = Ok (tt, set_heap (insert a (OControl (f c))) w).
Proof.
  intros H. unfold call_control.
  rewrite (bind_Ok _ _ _ _ _ (control_at_Some _ _ _ H)). reflexivity.
Qed.

(** A null pointer stops the three kinds of member call. *)
Lemma call_sky_null f w : call_sky None f w = Crash NullDeref.
Proof. reflexivity. Qed.

Lemma control_at_null w : control_at None w = Crash NullDeref.
Proof. reflexivity. Qed.

Lemma call_manip_null f w : call_manip None f w = Crash NullDeref.
Proof. reflexivity. Qed.

(** ** Shapes and frames *)

Lemma heap_shape_manip w a :
  heap_shape w a = Some ShManip → ∃ m, heap w !! a = Some (OManip m).
Proof.
  unfold heap_shape. destruct (heap w !! a) as [[m|s|c]|]; simpl;
    intros H; inversion H. eauto.
Qed.

Lemma heap_shape_sky w a :
  heap_shape w a = Some ShSky → ∃ s, heap w !! a = Some (OSky s).
Proof.
  unfold heap_shape. destruct (heap w !! a) as [[m|s|c]|]; simpl;
    intros H; inversion H. eauto.
Qed.

Lemma heap_shape_control w a b hs :
  heap_shape w a = Some (ShControl b hs) →
  ∃ c, heap w !! a = Some (OControl c)
       ∧ is_label c = b ∧ control_handlers c = hs.
Proof.
  unfold heap_shape. destruct (heap w !! a) as [[m|s|c]|]; simpl;
    intros H; inversion H. eauto.
Qed.

Lemma frame_refl w : frame w w.
Proof. by constructor. Qed.

Lemma frame_trans w1 w2 w3 : frame w1 w2 → frame w2 w3 → frame w1 w3.
Proof.
  intros [] []. constructor; congruence.
Qed.

Lemma frame_store w a o o' :
  heap w !! a = Some o → shape o' = shape o →
  frame w (set_heap (insert a o') w).
Proof.
  intros Ha Hs. constructor; try reflexivity.
  intros b. unfold heap_shape. simpl.
  destruct (decide (a = b)) as [<-|Hne].
  - rewrite lookup_insert_eq, Ha. simpl. by rewrite Hs.
  - by rewrite lookup_insert_ne.
Qed.

Lemma setText_shape s (c : Control Viewpoint) :
  shape (OControl (setText s c)) = shape (OControl c).
Proof. by destruct c as [[] ? ? ?]. Qed.

Lemma setVisible_shape b (c : Control Viewpoint) :
  shape (OControl (setVisible b c)) = shape (OControl c).
Proof. by destruct c. Qed.

Lemma frame_set_cout w f : frame w (set_cout f w).
Proof. by constructor. Qed.

Lemma frame_set_nodeMasks w f : frame w (set_nodeMasks f w).
Proof. by constructor. Qed.

Lemma canvas_handlers_shape w :
  canvas_handlers w =
  flat_map (λ a, match heap_shape w a with
                 | Some (ShControl _ hs) => hs
                 | _ => []
                 end) (canvas w).
Proof.
  unfold canvas_handlers, heap_shape. apply flat_map_ext. intros a.
  by destruct (heap w !! a) as [[m|s|c]|].
Qed.

Lemma canvas_handlers_frame w w' :
  frame w w' → canvas_handlers w' = canvas_handlers w.
Proof.
  intros F. rewrite !canvas_handlers_shape, (fr_canvas _ _ F).
  apply flat_map_ext. intros a. by rewrite (fr_shape _ _ F).
Qed.

Lemma frame_Inv w w' : frame w w' → Inv w → Inv w'.
Proof.
  intros F I. pose proof (canvas_handlers_frame _ _ F) as Hc.
  destruct F as [Fs Fh Fn Fe Fc _ _ Fa]. destruct I.
  constructor; rewrite ?Fs, ?Fn, ?Fe, ?Fc, ?Fa, ?Hc; try done.
  - intros a [o Ho]. apply inv_wf0.
    specialize (Fh a). unfold heap_shape in Fh. rewrite Ho in Fh.
    destruct (heap w !! a); [done | discriminate].
  - destruct inv_manip0 as (a & ? & ?). exists a. by rewrite Fh.
  - intros a. rewrite Fh. apply inv_sky0.
  - intros a ?. setoid_rewrite Fh. eauto.
  - intros a ?. setoid_rewrite Fh. eauto.
  - intros l mn ?. setoid_rewrite Fh. eauto.
Qed.

(** ** The handlers under the invariant *)

Lemma Inv_manip_obj w :
  Inv w → ∃ a m, s_manip (statics w) = Some a ∧ heap w !! a = Some (OManip m).
Proof.
  intros I. destruct (inv_manip _ I) as (a & Ha & Hs).
  destruct (heap_shape_manip _ _ Hs) as [m Hm]. eauto.
Qed.

Lemma set_viewpoint_ok vp w :
  Inv w →
  ∃ w', (p ← gets (λ w, s_manip (statics w));
         call_manip p (EarthManipulator_setViewpoint vp 4.5%float)) w
        = Ok (tt, w') ∧ frame w w'.
Proof.
  intros I. destruct (Inv_manip_obj _ I) as (a & m & Ha & Hm).
  eexists. split.
  - rewrite bind_unfold. simpl. rewrite Ha. by apply call_manip_Some.
  - by eapply frame_store.
Qed.

Lemma ViewpointHandler_handle_ok vps ea w :
  Inv w → is_Some (s_controlPanel (statics w)) →
  ∃ w', ViewpointHandler_handle vps ea w = Ok (false, w') ∧ frame w w'.
Proof.
  intros I [p Hp]. unfold ViewpointHandler_handle.
  destruct (Inv_manip_obj _ I) as (a & m & Ha & Hm).
  destruct (EventType_eqb (getEventType ea) KEYDOWN);
    [|eexists; split; [reflexivity | apply frame_refl]].
  set (index := to_int (getKey ea - char_1)).
  destruct ((0 <=? index) && (index <? to_int (Z.of_nat (length vps)))) eqn:Hr.
  - apply andb_true_iff in Hr as [H0 H1].
    apply Z.leb_le in H0. apply Z.ltb_lt in H1.
    pose proof (to_int_le (Z.of_nat (length vps)) ltac:(lia)) as Hle.
    destruct (lookup_lt_is_Some_2 vps (Z.to_nat index) ltac:(lia)) as [vp Hvp].
    rewrite Hvp.
    destruct (set_viewpoint_ok vp w I) as (w' & Hw' & F).
    exists w'. split; [|done].
    rewrite bind_unfold, Hw'. reflexivity.
  - destruct (getKey ea =? char_v).
    + eexists. split.
      * rewrite bind_unfold. rewrite (bind_unfold (gets _)). simpl. rewrite Ha.
        rewrite (bind_Ok _ _ _ _ _ (manip_at_Some _ _ _ Hm)). reflexivity.
      * simpl. eapply frame_trans; apply frame_set_cout.
    + destruct (getKey ea =? char_question);
        [|eexists; split; [reflexivity | apply frame_refl]].
      destruct (inv_panel _ I _ Hp) as (b & hs & Hs).
      destruct (heap_shape_control _ _ _ _ Hs) as (c & Hc & Hl & Hh).
      eexists. split.
      * rewrite bind_unfold. rewrite (bind_unfold (gets _)). simpl. rewrite Hp.
        rewrite (bind_Ok _ _ _ _ _ (control_at_Some _ _ _ Hc)).
        rewrite (call_control_Some _ _ _ _ Hc). reflexivity.
      * eapply frame_store; [done|]. apply setVisible_shape.
Qed.

Lemma MouseCoordsHandler_handle_ok l mn ea w :
  (∃ hs, heap_shape w l = Some (ShControl true hs)) →
  ∃ w', MouseCoordsHandler_handle l mn ea w = Ok (false, w') ∧ frame w w'.
Proof.
  intros [hs Hs].
  destruct (heap_shape_control _ _ _ _ Hs) as (c & Hc & Hl & Hh).
  unfold MouseCoordsHandler_handle.
  destruct (EventType_eqb (getEventType ea) MOVE
            || EventType_eqb (getEventType ea) DRAG);
    [|eexists; split; [reflexivity | apply frame_refl]].
  destruct (ea_hits ea) as [|first rest].
  - eexists. split.
    + rewrite bind_unfold, (call_control_Some _ _ _ _ Hc). reflexivity.
    + eapply frame_store; [done|]. apply setText_shape.
  - eexists. split.
    + rewrite bind_unfold, !gets_bind.
      rewrite (call_control_Some _ _ _ _ Hc). reflexivity.
    + eapply frame_store; [done|]. apply setText_shape.
Qed.

Lemma GUIEventHandler_handle_ok h ea w :
  Inv w → h ∈ eventHandlers w →
  ∃ w', GUIEventHandler_handle h ea w = Ok (false, w') ∧ frame w w'.
Proof.
  intros I Hin. destruct h as [vps|l mn|name]; simpl.
  - apply ViewpointHandler_handle_ok; [done|]. by eapply inv_viewpoints.
  - apply MouseCoordsHandler_handle_ok. by eapply inv_labels.
  - eexists. split; [reflexivity | apply frame_refl].
Qed.

Lemma SkySliderHandler_onValueChanged_ok value w :
  Inv w → is_Some (s_sky (statics w)) →
  ∃ w', SkySliderHandler_onValueChanged value w = Ok (tt, w') ∧ frame w w'.
Proof.
  intros I [a Ha].
  destruct (heap_shape_sky _ _ (proj1 (inv_sky _ I _) Ha)) as [s Hs].
  eexists. split.
  - unfold SkySliderHandler_onValueChanged. rewrite bind_unfold. simpl.
    rewrite Ha. by apply call_sky_Some.
  - by eapply frame_store.
Qed.

Lemma ToggleNodeHandler_onValueChanged_ok n value w :
  ∃ w', ToggleNodeHandler_onValueChanged n value w = Ok (tt, w') ∧ frame w w'.
Proof.
  unfold ToggleNodeHandler_onValueChanged. rewrite bind_unfold. simpl.
  destruct (nodeMasks w !! n); eexists; (split; [reflexivity|]).
  - apply frame_set_nodeMasks.
  - apply frame_refl.
Qed.

Lemma ControlEventHandler_fire_ok h ce w :
  Inv w → h ∈ canvas_handlers w →
  ∃ w', ControlEventHandler_fire h ce w = Ok (tt, w') ∧ frame w w'.
Proof.
  intros I Hin.
  destruct h as [|n|vp], ce as [|v|b]; simpl;
    try (eexists; split; [reflexivity | apply frame_refl]).
  - apply SkySliderHandler_onValueChanged_ok; [done|]. by apply inv_slider.
  - apply ToggleNodeHandler_onValueChanged_ok.
  - by apply set_viewpoint_ok.
Qed.

Lemma dispatch_ok hs ea w :
  Inv w → hs ⊆ eventHandlers w →
  ∃ w', dispatch hs ea w = Ok (tt, w') ∧ frame w w'.
Proof.
  revert w. induction hs as [|h hs IH]; intros w I Hsub; simpl.
  - eexists. split; [reflexivity | apply frame_refl].
  - destruct (GUIEventHandler_handle_ok h ea w I) as (w1 & H1 & F1).
    { apply Hsub. by left. }
    destruct (IH w1) as (w2 & H2 & F2).
    + by eapply frame_Inv.
    + rewrite (fr_eventHandlers _ _ F1). intros x Hx. apply Hsub. by right.
    + exists w2. split; [|by eapply frame_trans].
      rewrite bind_unfold, H1. exact H2.
Qed.

Lemma process_ok e w :
  Inv w → ∃ w', process e w = Ok (tt, w') ∧ frame w w'.
Proof.
  intros I. destruct e as [ea|i ce]; simpl.
  - rewrite bind_unfold. simpl. by apply dispatch_ok.
  - rewrite bind_unfold. simpl.
    destruct (canvas_handlers w !! i) as [h|] eqn:Hi.
    + apply ControlEventHandler_fire_ok; [done|].
      by eapply list_elem_of_lookup_2.
    + eexists. split; [reflexivity | apply frame_refl].
Qed.

Lemma Viewer_loop_ok es w :
  Inv w → ∃ w', Viewer_loop es w = Ok (tt, w') ∧ frame w w'.
Proof.
  revert w. induction es as [|e es IH]; intros w I; simpl.
  - eexists. split; [reflexivity | apply frame_refl].
  - destruct (process_ok e w I) as (w1 & H1 & F1).
    destruct (IH w1 (frame_Inv _ _ F1 I)) as (w2 & H2 & F2).
    exists w2. split; [|by eapply frame_trans].
    rewrite bind_unfold, H1. exact H2.
Qed.

(** ** Start-up establishes the invariant *)

Lemma frame_set_calls w f : frame w (set_calls f w).
Proof. by constructor. Qed.

Lemma main_options_initial arguments :
  let o := options_of arguments in
  main_options arguments initial_world =
  Ok ((opt_autoclip o, opt_sky o, opt_kml o, opt_arguments o),
      options_world o).
Proof.
  unfold main_options, options_of, arguments_read, arguments_read_string.
  run.
  destruct (ArgumentParser_read "--autoclip" (Viewer_arguments arguments))
    as [b1 a1]; cbn.
  destruct (ArgumentParser_read "--sky" a1) as [b2 a2]; cbn.
  destruct (ArgumentParser_read "--ocean" a2) as [b3 a3]; cbn.
  destruct (ArgumentParser_read "--dms" a3) as [b4 a4]; cbn.
  destruct (ArgumentParser_read "--mgrs" a4) as [b5 a5]; cbn.
  destruct (ArgumentParser_read_string "--kml" a5) as [v6 a6]; cbn.
  reflexivity.
Qed.

Lemma new_run o w : new o w = Ok (next w, alloc o w).
Proof. reflexivity. Qed.

Lemma grows_refl w : grows w w.
Proof. by constructor. Qed.

Lemma grows_trans w1 w2 w3 : grows w1 w2 → grows w2 w3 → grows w1 w3.
Proof.
  intros [] []. constructor; try congruence; [eauto|].
  by etrans.
Qed.

Lemma Inv_fresh w a : Inv w → is_Some (heap w !! a) → a ≠ next w.
Proof. intros I Ha ->. pose proof (inv_wf _ I _ Ha). lia. Qed.

Lemma Inv_next_fresh w : Inv w → heap w !! next w = None.
Proof.
  intros I. destruct (heap w !! next w) eqn:E; [|done].
  by destruct (Inv_fresh w (next w) I).
Qed.

Lemma heap_shape_is_Some w a sh :
  heap_shape w a = Some sh → is_Some (heap w !! a).
Proof. unfold heap_shape. destruct (heap w !! a); [eauto | discriminate]. Qed.

Lemma heap_shape_alloc w o a :
  a ≠ next w → heap_shape (alloc o w) a = heap_shape w a.
Proof. intros Hne. unfold heap_shape. simpl. by rewrite lookup_insert_ne. Qed.

Lemma heap_shape_alloc_new w o :
  heap_shape (alloc o w) (next w) = Some (shape o).
Proof. unfold heap_shape. simpl. by rewrite lookup_insert_eq. Qed.

Lemma grows_alloc w o : Inv w → grows w (alloc o w).
Proof.
  intros I. constructor; try done.
  intros a o' Ha. simpl. rewrite lookup_insert_ne; [done|].
  intros <-. by rewrite (Inv_next_fresh _ I) in Ha.
Qed.

Lemma flat_map_ext_elem {A B} (f g : A → list B) (l : list A) :
  (∀ a, a ∈ l → f a = g a) → flat_map f l = flat_map g l.
Proof.
  induction l as [|x l IH]; intros H; simpl; [done|].
  rewrite (H x) by (by left). rewrite IH; [done|].
  intros a Ha. apply H. by right.
Qed.

Lemma canvas_handlers_alloc w o :
  Inv w → canvas_handlers (alloc o w) = canvas_handlers w.
Proof.
  intros I. rewrite !canvas_handlers_shape. simpl.
  apply flat_map_ext_elem. intros a Ha.
  rewrite heap_shape_alloc; [done|].
  destruct (inv_canvas _ I a Ha) as (b & hs & Hs).
  eapply Inv_fresh; [done|]. by eapply heap_shape_is_Some.
Qed.

Lemma Inv_alloc_control w c :
  Inv w →
  (SkySliderHandler ∈ control_handlers c → is_Some (s_sky (statics w))) →
  Inv (set_canvas (λ l, l ++ [next w]) (alloc (OControl c) w)).
Proof.
  intros I Hc. pose proof (canvas_handlers_alloc w (OControl c) I) as Hch.
  assert (Hold : ∀ a sh, heap_shape w a = Some sh →
                 heap_shape (alloc (OControl c) w) a = Some sh).
  { intros a sh Ha. rewrite heap_shape_alloc; [done|].
    eapply Inv_fresh; [done|]. by eapply heap_shape_is_Some. }
  constructor; simpl.
  - intros a [o Ho]. destruct (decide (a = next w)) as [->|Hne]; [lia|].
    rewrite lookup_insert_ne in Ho by done.
    pose proof (inv_wf _ I a (ex_intro _ o Ho)). lia.
  - destruct (inv_manip _ I) as (a & Ha & Hs). exists a. split; [done|].
    by apply Hold.
  - intros a. split.
    + intros Ha. apply Hold. by apply inv_sky.
    + intros Ha. apply (inv_sky _ I).
      unfold heap_shape in Ha |- *. simpl in Ha.
      destruct (decide (a = next w)) as [->|Hne].
      * by rewrite lookup_insert_eq in Ha.
      * by rewrite lookup_insert_ne in Ha.
  - intros a Ha. destruct (inv_panel _ I a Ha) as (b & hs & Hs).
    exists b, hs. by apply Hold.
  - intros a [Ha| ->%list_elem_of_singleton]%elem_of_app.
    + destruct (inv_canvas _ I a Ha) as (b & hs & Hs). exists b, hs.
      by apply Hold.
    + do 2 eexists. apply (heap_shape_alloc_new w (OControl c)).
  - unfold canvas_handlers. simpl. rewrite flat_map_app. simpl.
    rewrite lookup_insert_eq, app_nil_r.
    intros [H|H]%elem_of_app; [|by apply Hc].
    apply (inv_slider _ I). rewrite <- Hch. exact H.
  - intros l mn Hl. destruct (inv_labels _ I l mn Hl) as [hs Hs]. exists hs.
    by apply Hold.
  - apply (inv_viewpoints _ I).
  - apply (inv_nodup _ I).
  - apply (inv_assigned _ I).
Qed.

Lemma Inv_assign_s_controlPanel w p b hs w' :
  Inv w → s_controlPanel (statics w) = None →
  heap_shape w p = Some (ShControl b hs) →
  assign_s_controlPanel (Some p) w = Ok (tt, w') → Inv w'.
Proof.
  intros I Hnone Hp [= <-].
  constructor; simpl.
  - apply (inv_wf _ I).
  - apply (inv_manip _ I).
  - apply (inv_sky _ I).
  - intros a [= <-]. eauto.
  - apply (inv_canvas _ I).
  - apply (inv_slider _ I).
  - apply (inv_labels _ I).
  - eauto.
  - apply NoDup_app. split; [apply (inv_nodup _ I)|]. split; [|apply NoDup_singleton].
    intros x Hx ->%list_elem_of_singleton.
    apply (inv_assigned _ I) in Hx. simpl in Hx. rewrite Hnone in Hx.
    by destruct Hx.
  - intros v. rewrite elem_of_app, list_elem_of_singleton, (inv_assigned _ I v).
    destruct v; simpl; try rewrite Hnone; intuition (eauto; try discriminate).
Qed.

Lemma Inv_alloc_sky w s :
  Inv w → s_sky (statics w) = None →
  ∃ w', assign_s_sky (Some (next w)) (alloc (OSky s) w) = Ok (tt, w')
        ∧ Inv w' ∧ grows w w'
        ∧ s_sky (statics w') = Some (next w)
        ∧ heap w' !! next w = Some (OSky s)
        ∧ s_controlPanel (statics w') = s_controlPanel (statics w)
        ∧ calls w' = calls w.
Proof.
  intros I Hnone. eexists. split; [reflexivity|].
  assert (Hold : ∀ a sh, heap_shape w a = Some sh →
                 heap_shape (alloc (OSky s) w) a = Some sh).
  { intros a sh Ha. rewrite heap_shape_alloc; [done|].
    eapply Inv_fresh; [done|]. by eapply heap_shape_is_Some. }
  split; [|split; [|split; [reflexivity|split; [|done]]]].
  - constructor; simpl.
    + intros a [o Ho]. destruct (decide (a = next w)) as [->|Hne]; [lia|].
      rewrite lookup_insert_ne in Ho by done.
      pose proof (inv_wf _ I a (ex_intro _ o Ho)). lia.
    + destruct (inv_manip _ I) as (a & Ha & Hs). exists a. split; [done|].
      by apply Hold.
    + intros a. split.
      * intros [= <-]. apply (heap_shape_alloc_new w (OSky s)).
      * intros Ha. destruct (decide (a = next w)) as [->|Hne]; [done|].
        unfold heap_shape in Ha. simpl in Ha.
        rewrite lookup_insert_ne in Ha by done.
        apply (inv_sky _ I) in Ha. congruence.
    + intros a Ha. destruct (inv_panel _ I a Ha) as (b & hs & Hs).
      exists b, hs. by apply Hold.
    + intros a Ha. destruct (inv_canvas _ I a Ha) as (b & hs & Hs).
      exists b, hs. by apply Hold.
    + eauto.
    + intros l mn Hl. destruct (inv_labels _ I l mn Hl) as [hs Hs]. exists hs.
      by apply Hold.
    + apply (inv_viewpoints _ I).
    + apply NoDup_app. split; [apply (inv_nodup _ I)|].
      split; [|apply NoDup_singleton].
      intros x Hx ->%list_elem_of_singleton.
      apply (inv_assigned _ I) in Hx. simpl in Hx. rewrite Hnone in Hx.
      by destruct Hx.
    + intros v.
      rewrite elem_of_app, list_elem_of_singleton, (inv_assigned _ I v).
      destruct v; simpl; try rewrite Hnone;
        intuition (eauto; try discriminate).
  - destruct (grows_alloc w (OSky s) I). by constructor.
  - simpl. by rewrite lookup_insert_eq.
Qed.

Lemma Inv_addEventHandler w h :
  Inv w → registrable w h → Inv (set_eventHandlers (λ l, l ++ [h]) w).
Proof.
  intros I Hh. constructor; simpl; try apply I.
  - intros l mn [H| <-%list_elem_of_singleton]%elem_of_app; [|exact Hh].
    exact (inv_labels _ I l mn H).
  - intros vps [H| <-%list_elem_of_singleton]%elem_of_app; [|exact Hh].
    exact (inv_viewpoints _ I vps H).
Qed.

Lemma grows_frame w w' :
  frame w w' → heap w' = heap w → calls w ⊆ calls w' → grows w w'.
Proof.
  intros F H Hc. constructor; try by rewrite (fr_statics _ _ F).
  - intros a o. by rewrite H.
  - apply (fr_notice _ _ F).
  - apply (fr_optionsRead _ _ F).
  - done.
Qed.

Lemma addChild_frame child root w :
  ∃ root' w', addChild child root w = Ok (root', w')
              ∧ frame w w' ∧ heap w' = heap w ∧ calls w' = calls w.
Proof.
  destruct child as [[n|p|]|]; simpl; do 2 eexists;
    (split; [reflexivity|]); split; try done;
    (apply frame_set_nodeMasks || apply frame_refl).
Qed.

Lemma main_sky_spec mapNode externals useSky root w :
  Inv w → s_sky (statics w) = None →
  let skyConf := Config_child "sky" externals in
  ∃ root' w',
    main_sky mapNode externals useSky root w = Ok (root', w')
    ∧ Inv w' ∧ grows w w'
    ∧ s_controlPanel (statics w') = s_controlPanel (statics w)
    ∧ if (if negb (Config_empty skyConf) then true else useSky) then
        s_sky (statics w') = Some (next w)
        ∧ heap w' !! next w =
            Some (OSky (SkyNode_setDateTime 2011 3 6
                          (Config_value_double "hours" 12.0%float skyConf)
                          (SkyNode_new mapNode)))
        ∧ SkyNode_attach (next w) ∈ calls w'
      else w' = w.
Proof.
  intros I Hnone skyConf. unfold main_sky. fold skyConf.
  destruct (if negb (Config_empty skyConf) then true else useSky);
    [|do 2 eexists; split; [reflexivity|];
      split; [done|]; split; [apply grows_refl|done]].
  destruct (Inv_alloc_sky w (SkyNode_new mapNode) I Hnone)
    as (w1 & H1 & I1 & G1 & Hs1 & Hh1 & Hp1 & Hc1).
  set (s' := SkyNode_setDateTime 2011 3 6
               (Config_value_double "hours" 12.0%float skyConf)
               (SkyNode_new mapNode)).
  set (w2 := set_heap (insert (next w) (OSky s')) w1).
  assert (H2 : heap w2 !! next w = Some (OSky s')).
  { subst w2. simpl. by rewrite lookup_insert_eq. }
  assert (F12 : frame w1 w2) by (by eapply frame_store).
  exists (root ++ [ChildSky (next w)]),
         (set_calls (λ l, l ++ [SkyNode_attach (next w)]) w2).
  split; [|split; [|split; [|split; [|split; [|split]]]]].
  - rewrite bind_unfold, new_run, bind_unfold, H1, gets_bind, Hs1.
    rewrite (bind_Ok _ _ _ _ _ (call_sky_Some _ _ _ _ Hh1)). fold s'. fold w2.
    rewrite gets_bind.
    replace (s_sky (statics w2)) with (Some (next w)) by (by rewrite <- Hs1).
    rewrite (bind_Ok _ _ _ _ _ (sky_at_Some _ _ _ H2)).
    unfold libcall. rewrite modify_bind, gets_bind. simpl.
    replace (s_sky (statics w1)) with (Some (next w)). reflexivity.
  - eapply frame_Inv; [apply frame_set_calls|].
    by eapply frame_Inv.
  - destruct G1. constructor; simpl; try done.
    + intros a o Ha. rewrite lookup_insert_ne; [by apply g_heap0|].
      intros <-. by rewrite (Inv_next_fresh _ I) in Ha.
    + intros c Hc. apply elem_of_app. left. by apply g_calls0.
  - exact Hp1.
  - exact Hs1.
  - exact H2.
  - simpl. apply elem_of_app. right. by apply list_elem_of_singleton.
Qed.

Lemma main_ocean_spec mapNode root w :
  ∃ root' w', main_ocean mapNode root w = Ok (root', w')
              ∧ frame w w' ∧ heap w' = heap w ∧ calls w' = calls w.
Proof.
  unfold main_ocean. rewrite gets_bind.
  destruct (s_ocean (statics w)).
  - apply addChild_frame.
  - do 2 eexists. split; [reflexivity|]. split; [apply frame_refl|done].
Qed.

Lemma main_autoclip_spec mapNode externals useAutoClip w :
  ∃ w', main_autoclip mapNode externals useAutoClip w = Ok (tt, w')
        ∧ frame w w' ∧ heap w' = heap w ∧ calls w ⊆ calls w'.
Proof.
  unfold main_autoclip. rewrite !gets_bind.
  destruct (_ || _ || _); eexists; (split; [reflexivity|]).
  - split; [apply frame_set_calls|]. split; [done|].
    intros c Hc. simpl. apply elem_of_app. by left.
  - split; [apply frame_refl | done].
Qed.

(** ** The control panel *)

Lemma viewpoint_rows_handlers (vps : list Viewpoint) k h :
  h ∈ flat_map control_handlers
        (concat (imap (λ i, viewpoint_row (k + i)) vps)) →
  ∃ vp, h = ClickViewpointHandler vp.
Proof.
  revert k. induction vps as [|vp vps IH]; intros k; simpl.
  - by intros ?%elem_of_nil.
  - rewrite elem_of_cons. intros [->|H]; [eauto|].
    apply (IH (S k)).
    erewrite imap_ext; [exact H|]. intros i x _. simpl. f_equal. lia.
Qed.

Lemma viewpoint_rows_subtree (vps : list Viewpoint) k c :
  c ∈ flat_map control_subtree
        (concat (imap (λ i, viewpoint_row (k + i)) vps)) →
  is_slider c = false.
Proof.
  revert k. induction vps as [|vp vps IH]; intros k; simpl.
  - by intros ?%elem_of_nil.
  - rewrite !elem_of_cons. intros [->|[->|H]]; [done..|].
    apply (IH (S k)).
    erewrite imap_ext; [exact H|]. intros i x _. simpl. f_equal. lia.
Qed.

Lemma createControlPanel_run vps w :
  ∃ c w',
    createControlPanel vps w = Ok (tt, w')
    ∧ assign_s_controlPanel (Some (next w))
        (set_canvas (λ l, l ++ [next w]) (alloc (OControl c) w)) = Ok (tt, w')
    ∧ (SkySliderHandler ∈ control_handlers c → is_Some (s_sky (statics w)))
    ∧ (is_Some (s_sky (statics w)) → sky_slider ∈ control_subtree c)
    ∧ (∀ c', c' ∈ control_subtree c → is_slider c' = true → c' = sky_slider).
Proof.
  unfold createControlPanel. rewrite gets_bind.
  pose proof (viewpoint_rows_handlers vps 0) as Hh.
  pose proof (viewpoint_rows_subtree vps 0) as Hs.
  simpl in Hh, Hs.
  eexists _, _. split; [reflexivity|]. split; [reflexivity|].
  assert (Hin : ∀ c' : Control Viewpoint,
            c' ∈ flat_map control_subtree (concat (imap viewpoint_row vps)) →
            is_slider c' = true → c' = sky_slider).
  { intros c' H1 H2. by rewrite (Hs c' H1) in H2. }
  destruct (s_sky (statics w)) as [a|], (0 <? Z.of_nat (length vps)); simpl;
    (split; [|split]).
  - eauto.
  - intros _. rewrite !elem_of_cons, !elem_of_app, !elem_of_cons. auto 10.
  - intros c'. rewrite !elem_of_cons, !elem_of_app, !elem_of_cons, elem_of_nil.
    intros [->|[->|[H|[->|[->|[->|[]]]]]]] Hsl; try done. by apply Hin.
  - eauto.
  - intros _. rewrite !elem_of_cons. auto 10.
  - intros c'. rewrite !elem_of_cons, elem_of_nil.
    intros [->|[->|[->|[->|[]]]]] Hsl; done.
  - rewrite app_nil_r. intros H. by destruct (Hh _ H).
  - by intros [].
  - intros c'. rewrite app_nil_r, !elem_of_cons.
    intros [->|[->|H]] Hsl; try done. by apply Hin.
  - by intros ?%elem_of_nil.
  - by intros [].
  - intros c'. rewrite elem_of_cons, elem_of_nil. by intros [->|[]].
Qed.

Lemma grows_canvas_alloc w o :
  Inv w → grows w (set_canvas (λ l, l ++ [next w]) (alloc o w)).
Proof. intros I. destruct (grows_alloc w o I). by constructor. Qed.

Lemma createControlPanel_spec vps w :
  Inv w → s_controlPanel (statics w) = None →
  ∃ w', createControlPanel vps w = Ok (tt, w')
        ∧ Inv w' ∧ grows w w'
        ∧ s_sky (statics w') = s_sky (statics w)
        ∧ is_Some (s_controlPanel (statics w'))
        ∧ eventHandlers w' = eventHandlers w.
Proof.
  intros I Hnone.
  destruct (createControlPanel_run vps w) as (c & w' & Hrun & Hw' & Hc & _).
  exists w'. split; [done|].
  pose proof (Inv_alloc_control w c I Hc) as I1.
  split; [|inversion Hw'; subst w'; simpl; split; [|by eauto]].
  - eapply (Inv_assign_s_controlPanel _ (next w)); [exact I1|exact Hnone| |exact Hw'].
    unfold heap_shape. simpl. by rewrite lookup_insert_eq.
  - destruct (grows_alloc w (OControl c) I). by constructor.
Qed.

Lemma addMouseCoords_spec mapNode w :
  Inv w →
  ∃ w', addMouseCoords mapNode w = Ok (tt, w')
        ∧ Inv w' ∧ grows w w'
        ∧ s_sky (statics w') = s_sky (statics w)
        ∧ s_controlPanel (statics w') = s_controlPanel (statics w).
Proof.
  intros I. eexists. split; [reflexivity|].
  pose proof (Inv_alloc_control w (new_control (LabelControl "")) I) as I1.
  split; [|split; [|done]].
  - apply (Inv_addEventHandler _ (MouseCoordsHandler (next w) mapNode)).
    + apply I1. by intros ?%elem_of_nil.
    + eexists. unfold heap_shape. simpl. by rewrite lookup_insert_eq.
  - destruct (grows_alloc w (OControl (new_control (LabelControl ""))) I).
    by constructor.
Qed.

(** Induction over a scene node and all its descendants. *)
Lemma Node_ind_Forall (P : Node Viewpoint → Prop) :
  (∀ id mask userData children,
     Forall P children → P (mkNode id mask userData children)) →
  ∀ n, P n.
Proof.
  intros Hstep. fix IH 1. intros [id mask userData children].
  apply Hstep. induction children as [|c cs IHcs]; constructor.
  - apply IH.
  - exact IHcs.
Qed.

Lemma KMLUIBuilder_apply_children id mask userData children :
  KMLUIBuilder_apply (mkNode id mask userData children)
  = KMLUIBuilder_apply (mkNode id mask userData []) ++ flat_map Node_accept children.
Proof. simpl. by rewrite app_nil_r. Qed.

Lemma KMLUIBuilder_apply_handlers n :
  SkySliderHandler ∉ flat_map control_handlers (KMLUIBuilder_apply n).
Proof.
  induction n as [id mask userData children IH] using Node_ind_Forall.
  rewrite KMLUIBuilder_apply_children, flat_map_app.
  intros [H|H]%elem_of_app.
  - simpl in H.
    destruct userData as [data|]; simpl in H; [|by apply elem_of_nil in H].
    destruct (ad_getViewpoint data); simpl in H;
      repeat (apply elem_of_cons in H as [H|H]; [discriminate|]);
      by apply elem_of_nil in H.
  - induction IH as [|c cs Hc _ IHcs]; simpl in H; [by apply elem_of_nil in H|].
    rewrite flat_map_app in H. apply elem_of_app in H as [H|H]; [|auto].
    unfold Node_accept in H. destruct c as [cid cmask cdata cchildren].
    destruct (validNodeMask cmask); [auto|by apply elem_of_nil in H].
Qed.

Lemma Node_accept_handlers n :
  SkySliderHandler ∉ flat_map control_handlers (Node_accept n).
Proof.
  unfold Node_accept. destruct n as [id mask userData children].
  destruct (validNodeMask mask); [apply KMLUIBuilder_apply_handlers|].
  by intros ?%elem_of_nil.
Qed.

Lemma KMLUIBuilder_rows_handlers (root : list SceneChild) :
  SkySliderHandler ∉
    control_handlers (addControls (flat_map KMLUIBuilder_child root)
                        (new_control Grid)).
Proof.
  simpl. induction root as [|c root IH]; simpl; [by intros ?%elem_of_nil|].
  rewrite flat_map_app. intros [H|H]%elem_of_app; [|done].
  destruct c as [n|p|]; simpl in H; try by apply elem_of_nil in H.
  by apply (Node_accept_handlers n).
Qed.

Lemma main_kml_spec mapNode kmlFile root w :
  Inv w →
  ∃ root' w', main_kml mapNode kmlFile root w = Ok (root', w')
        ∧ Inv w' ∧ grows w w'
        ∧ s_sky (statics w') = s_sky (statics w)
        ∧ s_controlPanel (statics w') = s_controlPanel (statics w).
Proof.
  intros I. unfold main_kml.
  destruct (negb (string_empty kmlFile));
    [|by do 2 eexists; split; [reflexivity|];
         split; [|split; [apply grows_refl|]]].
  destruct (KML_load kmlFile mapNode) as [kml|];
    [|by do 2 eexists; split; [reflexivity|];
         split; [|split; [apply grows_refl|]]].
  set (w1 := set_nodeMasks (register_nodes kml) w).
  assert (F1 : frame w w1) by apply frame_set_nodeMasks.
  pose proof (frame_Inv _ _ F1 I) as I1.
  set (rows := flat_map KMLUIBuilder_child (root ++ [ChildNode kml])).
  set (g := addControls rows (new_control Grid)).
  exists (root ++ [ChildNode kml]),
         (set_canvas (λ l, l ++ [next w1]) (alloc (OControl g) w1)).
  split; [|split; [|split; [|done]]].
  - simpl. rewrite bind_unfold. simpl. fold w1.
    rewrite bind_unfold, new_run, modify_bind.
    erewrite bind_Ok;
      [|apply call_control_Some; simpl; apply lookup_insert_eq].
    unfold mret, M_ret, set_heap, set_canvas, alloc, set_next, set_heap.
    simpl. rewrite insert_insert_eq. reflexivity.
  - apply Inv_alloc_control; [done|].
    intros H. by apply KMLUIBuilder_rows_handlers in H.
  - eapply grows_trans; [|by apply grows_canvas_alloc].
    by apply grows_frame.
Qed.

Lemma createControlPanel_commute vps f w w' :
  createControlPanel vps w = Ok (tt, w') →
  createControlPanel vps (set_eventHandlers f w)
  = Ok (tt, set_eventHandlers f w').
Proof. unfold createControlPanel. run. by intros [= <-]. Qed.

Lemma main_geocentric_spec mapNode externals useAutoClip useSky root w :
  Inv w → s_sky (statics w) = None → s_controlPanel (statics w) = None →
  let skyConf := Config_child "sky" externals in
  ∃ root' w',
    main_geocentric mapNode externals useAutoClip useSky root w
    = Ok (root', w')
    ∧ Inv w' ∧ grows w w'
    ∧ s_controlPanel (statics w') = None
    ∧ if (if negb (Config_empty skyConf) then true else useSky)
      then ∃ a, s_sky (statics w') = Some a
                ∧ heap w' !! a =
                    Some (OSky (SkyNode_setDateTime 2011 3 6
                             (Config_value_double "hours" 12.0%float skyConf)
                             (SkyNode_new mapNode)))
                ∧ SkyNode_attach a ∈ calls w'
      else s_sky (statics w') = None.
Proof.
  intros I Hsky Hpanel skyConf. unfold main_geocentric.
  destruct (main_sky_spec mapNode externals useSky root w I Hsky)
    as (ra & wa & Ha & Ia & Ga & Pa & Sa).
  destruct (main_ocean_spec mapNode ra wa) as (rb & wb & Hb & Fb & Eb & Cb).
  destruct (main_autoclip_spec mapNode externals useAutoClip wb)
    as (wc & Hc & Fc & Ec & Cc).
  exists rb, wc. split; [|split; [|split; [|split]]].
  - rewrite bind_unfold, Ha, bind_unfold, Hb, bind_unfold, Hc. reflexivity.
  - eapply frame_Inv; [exact Fc|]. by eapply frame_Inv.
  - eapply grows_trans; [exact Ga|]. eapply grows_trans.
    + apply grows_frame; [exact Fb|exact Eb|by rewrite Cb].
    + by apply grows_frame.
  - by rewrite (fr_statics _ _ Fc), (fr_statics _ _ Fb), Pa.
  - cbv zeta in Sa. fold skyConf in Sa.
    destruct (if negb (Config_empty skyConf) then true else useSky).
    + destruct Sa as (Sa1 & Sa2 & Sa3). exists (next w).
      rewrite (fr_statics _ _ Fc), (fr_statics _ _ Fb), Ec, Eb.
      split; [done|]. split; [done|]. apply Cc. by rewrite Cb.
    + rewrite (fr_statics _ _ Fc), (fr_statics _ _ Fb). by subst wa.
Qed.

Lemma main_viewpoints_spec externals root w :
  Inv w → s_controlPanel (statics w) = None →
  ∃ w', main_viewpoints externals root w = Ok (root ++ [ChildCanvas], w')
        ∧ Inv w' ∧ grows w w'
        ∧ s_sky (statics w') = s_sky (statics w).
Proof.
  intros I Hpanel. unfold main_viewpoints. cbv zeta.
  set (children := Config_children "viewpoint" externals).
  destruct (0 <? Z.of_nat (length children)) eqn:Hlen.
  - set (viewpoints := fmap Viewpoint_of_Config children).
    assert (Hv : (0 <? Z.of_nat (length viewpoints)) = true).
    { subst viewpoints. by rewrite length_fmap. }
    destruct (createControlPanel_spec viewpoints w I Hpanel)
      as (wp & Hp & Ip & Gp & Sp & Pp & Ep).
    exists (set_eventHandlers (λ l, l ++ [ViewpointHandler viewpoints]) wp).
    split; [|split; [|split]].
    + rewrite modify_bind. simpl. rewrite ret_bind, gets_bind, Hv. simpl.
      rewrite bind_unfold.
      rewrite (createControlPanel_commute _ _ _ _ Hp). reflexivity.
    + by apply Inv_addEventHandler.
    + destruct Gp. by constructor.
    + exact Sp.
  - rewrite ret_bind. simpl. rewrite ret_bind, gets_bind. simpl.
    destruct (bool_decide (is_Some (s_sky (statics w)))).
    + destruct (createControlPanel_spec [] w I Hpanel)
        as (wp & Hp & Ip & Gp & Sp & Pp & Ep).
      exists wp. rewrite bind_unfold, Hp. done.
    + exists w. split; [reflexivity|]. split; [done|].
      split; [apply grows_refl|done].
Qed.

Lemma main_mapNode_spec mapNode useAutoClip useSky kmlFile root w :
  Inv w → s_sky (statics w) = None → s_controlPanel (statics w) = None →
  let skyConf := Config_child "sky" (MapNode_externalConfig mapNode) in
  ∃ root' w',
    main_mapNode mapNode useAutoClip useSky kmlFile root w = Ok (root', w')
    ∧ Inv w' ∧ grows w w'
    ∧ if Map_isGeocentric mapNode
         && (if negb (Config_empty skyConf) then true else useSky)
      then ∃ a, s_sky (statics w') = Some a
                ∧ heap w' !! a =
                    Some (OSky (SkyNode_setDateTime 2011 3 6
                             (Config_value_double "hours" 12.0%float skyConf)
                             (SkyNode_new mapNode)))
                ∧ SkyNode_attach a ∈ calls w'
      else s_sky (statics w') = None.
Proof.
  intros I Hsky Hpanel skyConf. unfold main_mapNode. cbv zeta.
  assert (∃ root1 w1,
    (if Map_isGeocentric mapNode
     then main_geocentric mapNode (MapNode_externalConfig mapNode)
            useAutoClip useSky root
     else mret root) w = Ok (root1, w1)
    ∧ Inv w1 ∧ grows w w1
    ∧ s_controlPanel (statics w1) = None
    ∧ if Map_isGeocentric mapNode
         && (if negb (Config_empty skyConf) then true else useSky)
      then ∃ a, s_sky (statics w1) = Some a
                ∧ heap w1 !! a =
                    Some (OSky (SkyNode_setDateTime 2011 3 6
                             (Config_value_double "hours" 12.0%float skyConf)
                             (SkyNode_new mapNode)))
                ∧ SkyNode_attach a ∈ calls w1
      else s_sky (statics w1) = None) as (root1 & w1 & H1 & I1 & G1 & P1 & S1).
  { destruct (Map_isGeocentric mapNode); simpl.
    - by apply main_geocentric_spec.
    - do 2 eexists. split; [reflexivity|].
      split; [done|]. split; [apply grows_refl|done]. }
  destruct (main_viewpoints_spec (MapNode_externalConfig mapNode) root1 w1 I1 P1)
    as (w2 & H2 & I2 & G2 & S2).
  destruct (addMouseCoords_spec mapNode w2 I2) as (w3 & H3 & I3 & G3 & S3 & _).
  destruct (main_kml_spec mapNode kmlFile (root1 ++ [ChildCanvas]) w3 I3)
    as (root4 & w4 & H4 & I4 & G4 & S4 & _).
  exists root4, w4. split; [|split; [|split]].
  - rewrite bind_unfold, H1, bind_unfold, H2, bind_unfold, H3. exact H4.
  - exact I4.
  - eapply grows_trans; [exact G1|]. eapply grows_trans; [exact G2|].
    by eapply grows_trans.
  - destruct (Map_isGeocentric mapNode && _).
    + destruct S1 as (a & Sa & Ha & Ca). exists a.
      rewrite S4, S3, S2. split; [done|]. split.
      * apply (g_heap _ _ G4), (g_heap _ _ G3), (g_heap _ _ G2), Ha.
      * apply (g_calls _ _ G4), (g_calls _ _ G3), (g_calls _ _ G2), Ca.
    + by rewrite S4, S3, S2.
Qed.


Lemma Inv_manip_created w :
  pristine w →
  Inv (set_heap (insert (next w)
                   (OManip (EarthManipulator_setArcViewpointTransitions true
                              EarthManipulator_new)))
         (set_assigned (λ l, l ++ [Ptr_s_manip])
            (set_statics (λ s, {| s_manip := Some (next w);
                                  s_controlPanel := s_controlPanel s;
                                  s_sky := s_sky s; s_dms := s_dms s;
                                  s_mgrs := s_mgrs s; s_ocean := s_ocean s |})
               (alloc (OManip EarthManipulator_new) w)))).
Proof.
  intros [Hh Hm Hp Hs He Hc Ha].
  constructor; simpl; rewrite ?Hh, ?Hp, ?Hs, ?He, ?Hc, ?Ha; simpl.
  - intros a [o Ho]. rewrite insert_insert_eq in Ho.
    destruct (decide (a = next w)) as [->|Hne]; [lia|].
    by rewrite lookup_insert_ne, lookup_empty in Ho.
  - exists (next w). split; [done|]. unfold heap_shape. simpl.
    by rewrite lookup_insert_eq.
  - intros a. unfold heap_shape. simpl. rewrite insert_insert_eq, Hh.
    split; [done|].
    destruct (decide (a = next w)) as [->|Hne].
    + by rewrite lookup_insert_eq.
    + rewrite lookup_insert_ne by done. by rewrite lookup_empty.
  - done.
  - by intros a ?%elem_of_nil.
  - unfold canvas_handlers. simpl. rewrite Hc. by intros ?%elem_of_nil.
  - by intros l mn ?%elem_of_nil.
  - by intros vps ?%elem_of_nil.
  - apply NoDup_singleton.
  - intros v. rewrite list_elem_of_singleton.
    destruct v; simpl; rewrite ?Hp, ?Hs; split; intros H; try done;
      by destruct H.
Qed.

Lemma main_scene_spec useAutoClip useSky kmlFile earthNode w :
  pristine w →
  ∃ w', main_scene useAutoClip useSky kmlFile earthNode w = Ok (tt, w')
        ∧ Inv w' ∧ kept w w'
        ∧ match MapNode_findMapNode earthNode with
          | Some mapNode =>
              let skyConf :=
                Config_child "sky" (MapNode_externalConfig mapNode) in
              if Map_isGeocentric mapNode
                 && (if negb (Config_empty skyConf) then true else useSky)
              then ∃ a, s_sky (statics w') = Some a
                        ∧ heap w' !! a =
                            Some (OSky (SkyNode_setDateTime 2011 3 6
                                     (Config_value_double "hours" 12.0%float
                                        skyConf)
                                     (SkyNode_new mapNode)))
                        ∧ SkyNode_attach a ∈ calls w'
              else s_sky (statics w') = None
          | None => s_sky (statics w') = None
          end.
Proof.
  intros P. pose proof (Inv_manip_created w P) as I0.
  unfold main_scene.
  rewrite bind_unfold, new_run. unfold assign_s_manip at 1.
  rewrite modify_bind, gets_bind. simpl s_manip.
  erewrite bind_Ok; [|apply call_manip_Some; simpl; apply lookup_insert_eq].
  rewrite gets_bind. simpl s_manip. rewrite libcall_bind.
  rewrite addChild_node_bind. simpl app.
  match goal with |- ∃ w', (_ ≫= _) ?w0 = _ ∧ _ => set (w2 := w0) end.
  assert (I2 : Inv w2).
  { eapply frame_Inv; [apply frame_set_nodeMasks|].
    eapply frame_Inv; [apply frame_set_calls|]. exact I0. }
  assert (Hs2 : s_sky (statics w2) = None) by apply (pr_sky _ P).
  assert (Hp2 : s_controlPanel (statics w2) = None)
    by apply (pr_controlPanel _ P).
  assert (K2 : kept w w2) by (by constructor).
  assert (∃ root3 w3,
    match MapNode_findMapNode earthNode with
    | Some mapNode =>
        main_mapNode mapNode useAutoClip useSky kmlFile [ChildNode earthNode]
    | None => mret [ChildNode earthNode]
    end w2 = Ok (root3, w3)
    ∧ Inv w3 ∧ kept w w3
    ∧ match MapNode_findMapNode earthNode with
      | Some mapNode =>
          let skyConf :=
            Config_child "sky" (MapNode_externalConfig mapNode) in
          if Map_isGeocentric mapNode
             && (if negb (Config_empty skyConf) then true else useSky)
          then ∃ a, s_sky (statics w3) = Some a
                    ∧ heap w3 !! a =
                        Some (OSky (SkyNode_setDateTime 2011 3 6
                                 (Config_value_double "hours" 12.0%float
                                    skyConf)
                                 (SkyNode_new mapNode)))
                    ∧ SkyNode_attach a ∈ calls w3
          else s_sky (statics w3) = None
      | None => s_sky (statics w3) = None
      end) as (root3 & w3 & H3 & I3 & K3 & S3).
  { destruct (MapNode_findMapNode earthNode) as [mapNode|].
    - destruct (main_mapNode_spec mapNode useAutoClip useSky kmlFile
                  [ChildNode earthNode] w2 I2 Hs2 Hp2)
        as (r & w3 & H3 & I3 & G3 & S3).
      exists r, w3. split; [done|]. split; [done|]. split; [|done].
      destruct G3, K2. constructor; congruence.
    - eauto 10. }
  rewrite bind_unfold, H3.
  eexists. split; [reflexivity|]. split; [|split].
  - repeat (apply Inv_addEventHandler; [|exact Logic.I]).
    eapply frame_Inv; [apply frame_set_calls|].
    eapply frame_Inv; [apply frame_set_calls|]. exact I3.
  - destruct K3. by constructor.
  - destruct (MapNode_findMapNode earthNode) as [mapNode|]; [|exact S3].
    cbv zeta in *.
    destruct (Map_isGeocentric mapNode && _); [|exact S3].
    destruct S3 as (a & ? & ? & ?). exists a. split; [done|]. split; [done|].
    simpl. rewrite !elem_of_app. auto.
Qed.

(** ** No handler writes a file-level variable *)

Lemma keeps_ret {A} (a : A) : keeps_statics (mret a).
Proof. by intros w a' w' [= _ <-]. Qed.

Lemma keeps_crash {A} f : keeps_statics (crash f : M A).
Proof. by intros w a w' ?. Qed.

Lemma keeps_gets {A} (f : World → A) : keeps_statics (gets f).
Proof. by intros w a' w' [= _ <-]. Qed.

Lemma keeps_modify f :
  (∀ w, statics (f w) = statics w ∧ assigned (f w) = assigned w) →
  keeps_statics (modify f).
Proof. intros H w a' w' Hw. inversion Hw; subst. apply H. Qed.

Lemma keeps_bind {A B} (m : M A) (k : A → M B) :
  keeps_statics m → (∀ a, keeps_statics (k a)) → keeps_statics (m ≫= k).
Proof.
  intros Hm Hk w b w'' (a & w' & H1 & H2)%bind_inv.
  destruct (Hm _ _ _ H1) as [E1 E2]. destruct (Hk a _ _ _ H2) as [E3 E4].
  split; congruence.
Qed.

Lemma keeps_deref p : keeps_statics (deref p).
Proof.
  intros w [a o] w'. unfold deref. destruct p as [a'|]; [|done].
  destruct (heap w !! a'); [|done]. by intros [= _ _ <-].
Qed.

Lemma keeps_store a o : keeps_statics (store a o).
Proof. by apply keeps_modify. Qed.

Lemma keeps_call_manip p f : keeps_statics (call_manip p f).
Proof.
  apply keeps_bind; [|intros [a m]; apply keeps_store].
  apply keeps_bind; [apply keeps_deref|].
  intros [a [m|s|c]]; (apply keeps_ret || apply keeps_crash).
Qed.

Lemma keeps_call_sky p f : keeps_statics (call_sky p f).
Proof.
  apply keeps_bind; [|intros [a m]; apply keeps_store].
  apply keeps_bind; [apply keeps_deref|].
  intros [a [m|s|c]]; (apply keeps_ret || apply keeps_crash).
Qed.

Lemma keeps_control_at p : keeps_statics (control_at p).
Proof.
  apply keeps_bind; [apply keeps_deref|].
  intros [a [m|s|c]]; (apply keeps_ret || apply keeps_crash).
Qed.

Lemma keeps_call_control p f : keeps_statics (call_control p f).
Proof.
  apply keeps_bind; [apply keeps_control_at|intros [a m]; apply keeps_store].
Qed.

Lemma keeps_ViewpointHandler_handle vps ea :
  keeps_statics (ViewpointHandler_handle vps ea).
Proof.
  unfold ViewpointHandler_handle.
  apply keeps_bind; [|intros; apply keeps_ret].
  repeat case_match; try apply keeps_ret; try apply keeps_crash.
  - apply keeps_bind; [apply keeps_gets|intros; apply keeps_call_manip].
  - apply keeps_bind; [apply keeps_gets|]. intros p.
    apply keeps_bind.
    + apply keeps_bind; [apply keeps_deref|].
      intros [a [m|s|c]]; (apply keeps_ret || apply keeps_crash).
    + intros [a m].
      apply keeps_bind; [by apply keeps_modify|intros; by apply keeps_modify].
  - apply keeps_bind; [apply keeps_gets|]. intros p.
    apply keeps_bind; [apply keeps_control_at|].
    intros [a c]. apply keeps_call_control.
Qed.

Lemma keeps_MouseCoordsHandler_handle l mn ea :
  keeps_statics (MouseCoordsHandler_handle l mn ea).
Proof.
  unfold MouseCoordsHandler_handle.
  apply keeps_bind; [|intros; apply keeps_ret].
  repeat case_match; try apply keeps_ret; try apply keeps_call_control.
  repeat (apply keeps_bind; [apply keeps_gets|intros]).
  apply keeps_call_control.
Qed.

Lemma keeps_GUIEventHandler_handle h ea :
  keeps_statics (GUIEventHandler_handle h ea).
Proof.
  destruct h; simpl.
  - apply keeps_ViewpointHandler_handle.
  - apply keeps_MouseCoordsHandler_handle.
  - apply keeps_ret.
Qed.

Lemma keeps_ControlEventHandler_fire h ce :
  keeps_statics (ControlEventHandler_fire h ce).
Proof.
  destruct h as [|n|vp], ce as [|v|b]; simpl; try apply keeps_ret.
  - apply keeps_bind; [apply keeps_gets|intros; apply keeps_call_sky].
  - apply keeps_bind; [apply keeps_gets|].
    intros [mask|]; [by apply keeps_modify | apply keeps_ret].
  - apply keeps_bind; [apply keeps_gets|intros; apply keeps_call_manip].
Qed.

Lemma keeps_dispatch hs ea : keeps_statics (dispatch hs ea).
Proof.
  induction hs as [|h hs IH]; simpl; [apply keeps_ret|].
  apply keeps_bind; [apply keeps_GUIEventHandler_handle | by intros].
Qed.

Lemma keeps_process e : keeps_statics (process e).
Proof.
  destruct e as [ea|i ce]; simpl.
  - apply keeps_bind; [apply keeps_gets|intros; apply keeps_dispatch].
  - apply keeps_bind; [apply keeps_gets|]. intros hs.
    destruct (hs !! i); [apply keeps_ControlEventHandler_fire|apply keeps_ret].
Qed.

Lemma keeps_Viewer_loop es : keeps_statics (Viewer_loop es).
Proof.
  induction es as [|e es IH]; simpl; [apply keeps_ret|].
  apply keeps_bind; [apply keeps_process | by intros].
Qed.

(** ** The whole program *)

Lemma pristine_options o : pristine (options_world o).
Proof. by constructor. Qed.

Lemma kept_trans w1 w2 w3 : kept w1 w2 → kept w2 w3 → kept w1 w3.
Proof. intros [] []. constructor; congruence. Qed.

Lemma kept_frame w w' : frame w w' → kept w w'.
Proof.
  intros F. constructor; try by rewrite (fr_statics _ _ F).
  - apply (fr_notice _ _ F).
  - apply (fr_optionsRead _ _ F).
Qed.

Lemma loop_entry_inv arguments w :
  loop_entry arguments w →
  let o := options_of arguments in
  ∃ earthNode,
    readNodeFiles (opt_arguments o) = Some earthNode
    ∧ main_scene (opt_autoclip o) (opt_sky o) (opt_kml o) earthNode
        (options_world o) = Ok (tt, w).
Proof.
  intros (ua & us & kml & args' & earthNode & w1 & H1 & H2 & H3) o.
  rewrite main_options_initial in H1. inversion H1; subst.
  by exists earthNode.
Qed.

Lemma loop_entry_intro arguments earthNode w :
  let o := options_of arguments in
  readNodeFiles (opt_arguments o) = Some earthNode →
  main_scene (opt_autoclip o) (opt_sky o) (opt_kml o) earthNode
    (options_world o) = Ok (tt, w) →
  loop_entry arguments w.
Proof.
  intros o H1 H2. unfold loop_entry.
  do 6 eexists. split; [apply main_options_initial|]. by split.
Qed.

Lemma loop_entry_facts arguments w :
  loop_entry arguments w →
  Inv w ∧ kept (options_world (options_of arguments)) w.
Proof.
  intros (earthNode & H1 & H2)%loop_entry_inv.
  destruct (main_scene_spec (opt_autoclip (options_of arguments))
              (opt_sky (options_of arguments))
              (opt_kml (options_of arguments)) earthNode _
              (pristine_options (options_of arguments)))
    as (w' & H & I & K & _).
  rewrite H in H2. inversion H2; subst. by split.
Qed.

Lemma reachable_facts arguments w :
  reachable arguments w →
  Inv w ∧ kept (options_world (options_of arguments)) w.
Proof.
  induction 1 as [w H|w e w' _ [I K] H].
  - by apply loop_entry_facts.
  - destruct (process_ok e w I) as (w'' & H' & F).
    rewrite H' in H. inversion H; subst w''.
    split; [by eapply frame_Inv|].
    eapply kept_trans; [exact K|]. by apply kept_frame.
Qed.

Lemma reachable_loop arguments es w w' :
  reachable arguments w → Viewer_loop es w = Ok (tt, w') →
  reachable arguments w'.
Proof.
  revert w. induction es as [|e es IH]; intros w R; simpl.
  - by intros [= <-].
  - intros (u & w1 & H1 & H2)%bind_inv. destruct u.
    eapply IH; [|exact H2]. by eapply reachable_event.
Qed.

Lemma set_notice_twice f g w :
  set_notice f (set_notice g w) = set_notice (λ l, f (g l)) w.
Proof. reflexivity. Qed.

Lemma set_notice_ext f g w :
  f (notice w) = g (notice w) → set_notice f w = set_notice g w.
Proof. unfold set_notice. by intros ->. Qed.

Lemma eight_lines {A} (l : list A) a b c d e f g h :
  (((((((l ++ [a]) ++ [b]) ++ [c]) ++ [d]) ++ [e]) ++ [f]) ++ [g]) ++ [h]
  = l ++ [a; b; c; d; e; f; g; h].
Proof. by rewrite <- !app_assoc. Qed.

Lemma usage_run msg w :
  usage msg w = Ok (-1, set_notice (λ l, l ++ usage_text msg) w).
Proof.
  unfold usage, OE_NOTICE. rewrite !modify_bind. unfold mret, M_ret.
  rewrite !set_notice_twice. do 2 f_equal.
  apply set_notice_ext, eight_lines.
Qed.

Lemma run_program_unfold arguments sess :
  let o := options_of arguments in
  run_program arguments sess =
  match readNodeFiles (opt_arguments o) with
  | None => usage "Unable to load earth model." (options_world o)
  | Some earthNode =>
      (main_scene (opt_autoclip o) (opt_sky o) (opt_kml o) earthNode;;
       Viewer_run sess) (options_world o)
  end.
Proof.
  intros o. unfold run_program, main.
  rewrite bind_unfold, main_options_initial. fold o.
  by destruct (readNodeFiles (opt_arguments o)).
Qed.

(** The program never leaves defined behaviour: it ends in [usage], or it
    enters the loop in a world that satisfies the invariant and returns what
    the loop returns. *)
Lemma run_program_spec arguments sess :
  let o := options_of arguments in
  match readNodeFiles (opt_arguments o) with
  | None =>
      run_program arguments sess =
      Ok (-1, set_notice (λ l, l ++ usage_text "Unable to load earth model.")
                (options_world o))
  | Some earthNode =>
      ∃ w0 w, loop_entry arguments w0
              ∧ Viewer_loop (events sess) w0 = Ok (tt, w)
              ∧ frame w0 w
              ∧ run_program arguments sess = Ok (exitStatus sess, w)
  end.
Proof.
  intros o. rewrite run_program_unfold. fold o.
  destruct (readNodeFiles (opt_arguments o)) as [earthNode|] eqn:Hload.
  - destruct (main_scene_spec (opt_autoclip o) (opt_sky o) (opt_kml o)
                earthNode _ (pristine_options o)) as (w0 & H0 & I0 & K0 & _).
    destruct (Viewer_loop_ok (events sess) w0 I0) as (w & Hw & F).
    exists w0, w. split; [by eapply loop_entry_intro|].
    split; [done|]. split; [done|].
    rewrite bind_unfold, H0. unfold Viewer_run.
    rewrite bind_unfold, Hw. reflexivity.
  - apply usage_run.
Qed.


(** * The claims *)

(** C1.  [main] has one failure path.  When [osgDB::readNodeFiles] returns
    null for what the option reads have left of the arguments, [main] prints
    the message and the usage lines (the options [--sky], [--autoclip],
    [--dms], [--mgrs], [--ocean]) to [OE_NOTICE] and returns -1, having
    created no object and registered no handler.  When the earth file loads,
    whatever the arguments and whatever the events of the session, [main]
    prints nothing to [OE_NOTICE], never leaves defined behaviour, and returns
    the value of [viewer.run()]. *)
Theorem main_failure_path arguments sess :
  match readNodeFiles (opt_arguments (options_of arguments)) with
  | None =>
      ∃ w, run_program arguments sess = Ok (-1, w)
           ∧ -1 < 0
           ∧ notice w =
               [ "Unable to load earth model."; "";
                 "USAGE: osgearth_viewer [options] file.earth";
                 "   --sky           : activates the atmospheric model";
                 "   --autoclip      : activates the auto clip-plane handler";
                 "   --dms           : format coordinates as degrees/minutes/seconds";
                 "   --mgrs          : format coordinates as MGRS";
                 "   --ocean         : display an ocean surface layer, if found" ]
           ∧ heap w = ∅ ∧ eventHandlers w = [] ∧ assigned w = []
  | Some earthNode =>
      ∃ w, run_program arguments sess = Ok (exitStatus sess, w)
           ∧ notice w = []
           ∧ is_Some (s_manip (statics w))
  end.
Proof.
  pose proof (run_program_spec arguments sess) as H. cbv zeta in H.
  destruct (readNodeFiles (opt_arguments (options_of arguments))) as [earth|].
  - destruct H as (w0 & w & He & Hl & F & Hr).
    exists w. split; [exact Hr|].
    destruct (loop_entry_facts _ _ He) as [I K].
    split.
    + by rewrite (fr_notice _ _ F), (k_notice _ _ K).
    + rewrite (fr_statics _ _ F).
      destruct (inv_manip _ I) as (a & Ha & _). by rewrite Ha.
  - eexists. split; [exact H|]. repeat split; reflexivity.
Qed.

(** C2.  On a KEYDOWN event whose key [k] has [0 <= k - '1' < n], [n] the
    number of viewpoints the handler holds, [ViewpointHandler::handle] calls
    [s_manip->setViewpoint(_viewpoints[k - '1'], 4.5)] and changes nothing
    else; on a digit key outside that range (['0'] among them) it changes
    nothing at all.  The number of viewpoints is one an [int] can hold. *)
Theorem ViewpointHandler_selects_viewpoint _viewpoints ea w :
  (getEventType ea = KEYDOWN →
   Z.of_nat (length _viewpoints) <= int_max →
   0 <= getKey ea - char_1 < Z.of_nat (length _viewpoints) →
   ∀ a m, s_manip (statics w) = Some a → heap w !! a = Some (OManip m) →
   ∃ vp, _viewpoints !! Z.to_nat (getKey ea - char_1) = Some vp
         ∧ ViewpointHandler_handle _viewpoints ea w =
           Ok (false,
               set_heap (insert a (OManip
                           (EarthManipulator_setViewpoint vp 4.5%float m))) w))
  ∧ (char_0 <= getKey ea <= char_9 →
     ¬ (0 <= getKey ea - char_1 < Z.of_nat (length _viewpoints)) →
     ViewpointHandler_handle _viewpoints ea w = Ok (false, w)).
Proof.
  split.
  - intros Hk Hn Hr a m Ha Hm. unfold ViewpointHandler_handle.
    rewrite Hk. simpl EventType_eqb. cbv iota zeta.
    rewrite !to_int_id by (unfold is_int, int_min, int_max in *; lia).
    destruct (Z.leb_spec 0 (getKey ea - char_1)); [|lia].
    destruct (Z.ltb_spec (getKey ea - char_1) (Z.of_nat (length _viewpoints)));
      [|lia].
    simpl andb. cbv iota.
    destruct (lookup_lt_is_Some_2 _viewpoints (Z.to_nat (getKey ea - char_1))
                ltac:(lia)) as [vp Hvp].
    exists vp. split; [done|]. rewrite Hvp.
    rewrite bind_unfold, gets_bind, Ha, (call_manip_Some _ _ _ _ Hm).
    reflexivity.
  - intros Hd Hr. unfold ViewpointHandler_handle, char_0, char_9, char_1 in *.
    destruct (EventType_eqb (getEventType ea) KEYDOWN); [|reflexivity].
    cbv zeta.
    assert (Hi : to_int (getKey ea - 49) = getKey ea - 49)
      by (apply to_int_id; unfold is_int, int_min, int_max; lia).
    rewrite Hi.
    destruct (Z.leb_spec 0 (getKey ea - 49)); simpl andb; cbv iota.
    + assert (Hlen : Z.of_nat (length _viewpoints) <= getKey ea - 49) by lia.
      rewrite to_int_id by (unfold is_int, int_min, int_max; lia).
      destruct (Z.ltb_spec (getKey ea - 49) (Z.of_nat (length _viewpoints)));
        [lia|].
      unfold char_v, char_question.
      destruct (Z.eqb_spec (getKey ea) 118); [lia|].
      destruct (Z.eqb_spec (getKey ea) 63); [lia|]. reflexivity.
    + unfold char_v, char_question.
      destruct (Z.eqb_spec (getKey ea) 118); [lia|].
      destruct (Z.eqb_spec (getKey ea) 63); [lia|]. reflexivity.
Qed.

Lemma World_eta w :
  {| statics := statics w; heap := heap w; next := next w;
     nodeMasks := nodeMasks w; eventHandlers := eventHandlers w;
     canvas := canvas w; calls := calls w; cout := cout w;
     notice := notice w; optionsRead := optionsRead w;
     assigned := assigned w |} = w.
Proof. by destruct w. Qed.

Lemma setVisible_twice (c : Control Viewpoint) :
  setVisible (negb (control_visible (setVisible (negb (control_visible c)) c)))
    (setVisible (negb (control_visible c)) c) = c.
Proof. destruct c as [k v h cs]. simpl. by rewrite negb_involutive. Qed.

(** The ['?'] branch of [ViewpointHandler::handle], line 318, which a handler
    with fewer than fifteen viewpoints reaches: with the control panel in
    place, its visibility is negated and nothing else changes; a second
    call gives back the state before the first. *)
Lemma ViewpointHandler_handle_toggles _viewpoints ea w p c :
  getEventType ea = KEYDOWN → getKey ea = char_question →
  Z.of_nat (length _viewpoints) < 15 →
  s_controlPanel (statics w) = Some p → heap w !! p = Some (OControl c) →
  ∃ w',
    ViewpointHandler_handle _viewpoints ea w = Ok (false, w')
    ∧ w' = set_heap (insert p (OControl
                       (mkControl (control_kind c) (negb (control_visible c))
                          (control_own_handlers c) (control_children c)))) w
    ∧ ViewpointHandler_handle _viewpoints ea w' = Ok (false, w).
Proof.
  intros Hk Hq Hn Hp Hc.
  assert (Hstep : ∀ w0 c0, s_controlPanel (statics w0) = Some p →
            heap w0 !! p = Some (OControl c0) →
            ViewpointHandler_handle _viewpoints ea w0 =
            Ok (false, set_heap (insert p (OControl
                         (setVisible (negb (control_visible c0)) c0))) w0)).
  { intros w0 c0 Hp0 Hc0. unfold ViewpointHandler_handle.
    rewrite Hk, Hq. simpl EventType_eqb. cbv iota zeta.
    rewrite (to_int_id (Z.of_nat _))
      by (unfold is_int, int_min, int_max; lia).
    change (to_int (char_question - char_1)) with 14.
    destruct (Z.ltb_spec 14 (Z.of_nat (length _viewpoints))); [lia|].
    simpl. rewrite bind_unfold, gets_bind, Hp0.
    rewrite (bind_Ok _ _ _ _ _ (control_at_Some _ _ _ Hc0)).
    rewrite (call_control_Some _ _ _ _ Hc0). reflexivity. }
  eexists. split; [by apply Hstep|]. split; [by destruct c|].
  erewrite Hstep; [|exact Hp|simpl; apply lookup_insert_eq].
  rewrite setVisible_twice. unfold set_heap. simpl.
  rewrite insert_insert_eq, insert_id by done. by rewrite World_eta.
Qed.

(** The ['v'] branch of [ViewpointHandler::handle], lines 311-314, which a
    handler with fewer than seventy viewpoints reaches: the XML of the
    manipulator's current viewpoint and a newline go to [std::cout], and
    nothing else changes. *)
Lemma ViewpointHandler_handle_prints _viewpoints ea w a m :
  getEventType ea = KEYDOWN → getKey ea = char_v →
  Z.of_nat (length _viewpoints) < 70 →
  s_manip (statics w) = Some a → heap w !! a = Some (OManip m) →
  ViewpointHandler_handle _viewpoints ea w =
  Ok (false,
      set_cout (λ out,
        (out +:+ XmlDocument_store
                   (Viewpoint_getConfig (EarthManipulator_getViewpoint m)))
        +:+ endl) w).
Proof.
  intros Hk Hv Hn Ha Hm. unfold ViewpointHandler_handle.
  rewrite Hk, Hv. simpl EventType_eqb. cbv iota zeta.
  rewrite (to_int_id (Z.of_nat _)) by (unfold is_int, int_min, int_max; lia).
  change (to_int (char_v - char_1)) with 69.
  destruct (Z.ltb_spec 69 (Z.of_nat (length _viewpoints))); [lia|].
  simpl. rewrite bind_unfold, gets_bind, Ha.
  rewrite (bind_Ok _ _ _ _ _ (manip_at_Some _ _ _ Hm)). reflexivity.
Qed.

Lemma main_scene_no_mapNode useAutoClip useSky kmlFile earthNode w w' :
  MapNode_findMapNode earthNode = None →
  main_scene useAutoClip useSky kmlFile earthNode w = Ok (tt, w') →
  canvas w' = canvas w
  ∧ eventHandlers w' = eventHandlers w ++
      [ StockHandler "osgViewer::StatsHandler";
        StockHandler "osgViewer::WindowSizeHandler";
        StockHandler "osgViewer::ThreadingHandler";
        StockHandler "osgViewer::LODScaleHandler";
        StockHandler "osgGA::StateSetManipulator" ].
Proof.
  intros Hnone. unfold main_scene.
  rewrite bind_unfold, new_run. unfold assign_s_manip at 1.
  rewrite modify_bind, gets_bind. simpl s_manip.
  erewrite bind_Ok; [|apply call_manip_Some; simpl; apply lookup_insert_eq].
  rewrite gets_bind. simpl s_manip. rewrite libcall_bind.
  rewrite addChild_node_bind, Hnone. simpl app.
  intros [= <-]. simpl. by rewrite <- !app_assoc.
Qed.

(** C3, as the code has it.  The handlers themselves test nothing: what
    keeps them from a null pointer is where they are registered.  In every
    world a session of the program passes through, each handler registered
    with the viewer and each handler attached to a control on the canvas runs
    to its end on every event; a [ViewpointHandler] is registered only where
    the control panel exists, a [SkySliderHandler] is attached only where the
    sky node exists, and the manipulator always exists.  The map node is used
    under [if ( mapNode )] alone: without one, no control is put on the canvas
    and only the stock handlers are registered. *)
Theorem registered_handlers_find_their_objects arguments w :
  reachable arguments w →
  (∀ h ea, h ∈ eventHandlers w →
     ∃ w', GUIEventHandler_handle h ea w = Ok (false, w'))
  ∧ (∀ h ce, h ∈ canvas_handlers w →
     ∃ w', ControlEventHandler_fire h ce w = Ok (tt, w'))
  ∧ (∀ vps, ViewpointHandler vps ∈ eventHandlers w →
     ∃ p c, s_controlPanel (statics w) = Some p
            ∧ heap w !! p = Some (OControl c))
  ∧ (SkySliderHandler ∈ canvas_handlers w →
     ∃ a s, s_sky (statics w) = Some a ∧ heap w !! a = Some (OSky s))
  ∧ (∃ a m, s_manip (statics w) = Some a ∧ heap w !! a = Some (OManip m))
  ∧ (∀ earthNode,
       readNodeFiles (opt_arguments (options_of arguments)) = Some earthNode →
       MapNode_findMapNode earthNode = None →
       canvas w = [] ∧ ∀ h, h ∈ eventHandlers w → ∃ name, h = StockHandler name).
Proof.
  intros R. destruct (reachable_facts _ _ R) as [I _].
  split; [|split; [|split; [|split; [|split]]]].
  - intros h ea Hh.
    destruct (GUIEventHandler_handle_ok h ea w I Hh) as (w' & H & _). eauto.
  - intros h ce Hh.
    destruct (ControlEventHandler_fire_ok h ce w I Hh) as (w' & H & _). eauto.
  - intros vps Hv. destruct (inv_viewpoints _ I vps Hv) as [p Hp].
    destruct (inv_panel _ I p Hp) as (b & hs & Hs).
    destruct (heap_shape_control _ _ _ _ Hs) as (c & Hc & _). eauto.
  - intros Hs. destruct (inv_slider _ I Hs) as [a Ha].
    destruct (heap_shape_sky _ _ (proj1 (inv_sky _ I a) Ha)) as [s Hs'].
    eauto.
  - by apply Inv_manip_obj.
  - intros earthNode Hload Hnone.
    induction R as [w He|w e w' R IH Hp].
    + destruct (loop_entry_inv _ _ He) as (earthNode' & Hload' & Hs).
      rewrite Hload in Hload'. injection Hload' as <-.
      destruct (main_scene_no_mapNode _ _ _ _ _ _ Hnone Hs) as [Hc Hh].
      split; [done|]. intros h. rewrite Hh. simpl.
      rewrite !elem_of_cons, elem_of_nil. intros [->|[->|[->|[->|[->|[]]]]]];
        eauto.
    + destruct (reachable_facts _ _ R) as [I0 _].
      destruct (process_ok e w I0) as (w'' & H' & F).
      rewrite H' in Hp. inversion Hp; subst w''.
      rewrite (fr_canvas _ _ F), (fr_eventHandlers _ _ F). by apply IH.
Qed.

Lemma prefix_append s t : String.prefix s (s +:+ t) = true.
Proof.
  induction s as [|a s IH].
  - by destruct t.
  - change (String.prefix (String a s) (String a (s +:+ t)) = true).
    simpl. by destruct (Ascii.ascii_dec a a).
Qed.

Lemma mouse_coords_text_prefix mgrs dms lla :
  String.prefix "MGRS: " (mouse_coords_text mgrs dms lla) = mgrs.
Proof.
  destruct mgrs; [|reflexivity].
  set (fFormat := if dms then FORMAT_DEGREES_MINUTES_SECONDS
                  else FORMAT_DECIMAL_DEGREES).
  exact (prefix_append "MGRS: "
           ((MGRSFormatter_format (v_y lla) (v_x lla) +:+ "   ")
            +:+ "Lat: " +:+ LatLongFormatter_format fFormat (v_y lla) 4
            +:+ "  "
            +:+ "Lon: " +:+ LatLongFormatter_format fFormat (v_x lla) 5)).
Qed.

(** C6.  In every world of a session, for the registered
    [MouseCoordsHandler]: its label is a label control, and on a MOVE or DRAG
    event the label's text becomes, when the pick ray hits the terrain, the
    map coordinates of the first hit, written as ["Lat: "], the latitude,
    ["  Lon: "] and the longitude, in degrees-minutes-seconds when [--dms]
    was read from the arguments and in decimal degrees otherwise, with
    ["MGRS: "], the MGRS rendering and three blanks in front when [--mgrs] was
    read and only then; the text becomes empty when the ray hits nothing; an
    event of any other type leaves the whole state as it is. *)
Theorem mouse_coordinates_label arguments w _label _mapNode ea :
  reachable arguments w →
  MouseCoordsHandler _label _mapNode ∈ eventHandlers w →
  let mgrs := opt_mgrs (options_of arguments) in
  let dms := opt_dms (options_of arguments) in
  let fFormat := if dms then FORMAT_DEGREES_MINUTES_SECONDS
                 else FORMAT_DECIMAL_DEGREES in
  let text lla :=
    (if mgrs
     then "MGRS: " +:+ MGRSFormatter_format (v_y lla) (v_x lla) +:+ "   "
     else "")
    +:+ "Lat: " +:+ LatLongFormatter_format fFormat (v_y lla) 4 +:+ "  "
    +:+ "Lon: " +:+ LatLongFormatter_format fFormat (v_x lla) 5 in
  ∃ t v hs cs,
    heap w !! _label = Some (OControl (mkControl (LabelControl t) v hs cs))
    ∧ (∀ lla, String.prefix "MGRS: " (text lla) = mgrs)
    ∧ let shows s :=
        MouseCoordsHandler_handle _label _mapNode ea w =
        Ok (false,
            set_heap (insert _label
                        (OControl (mkControl (LabelControl s) v hs cs))) w) in
      match getEventType ea with
      | MOVE | DRAG =>
          match ea_hits ea with
          | first :: _ => shows (text (Map_worldPointToMapPoint _mapNode first))
          | [] => shows ""
          end
      | _ => MouseCoordsHandler_handle _label _mapNode ea w = Ok (false, w)
      end.
Proof.
  intros R Hin mgrs dms fFormat text.
  destruct (reachable_facts _ _ R) as [I K].
  destruct (inv_labels _ I _ _ Hin) as [hs0 Hs].
  destruct (heap_shape_control _ _ _ _ Hs) as ([k v hs cs] & Hc & Hl & _).
  destruct k as [| | |t| |]; try discriminate Hl.
  exists t, v, hs, cs. split; [exact Hc|]. split.
  { intros lla. apply (mouse_coords_text_prefix mgrs dms lla). }
  assert (Hm : s_mgrs (statics w) = mgrs) by apply (k_mgrs _ _ K).
  assert (Hd : s_dms (statics w) = dms) by apply (k_dms _ _ K).
  assert (Hmove : EventType_eqb (getEventType ea) MOVE
                  || EventType_eqb (getEventType ea) DRAG = true →
    match ea_hits ea with
    | first :: _ =>
        MouseCoordsHandler_handle _label _mapNode ea w =
        Ok (false,
            set_heap (insert _label (OControl (mkControl
              (LabelControl (text (Map_worldPointToMapPoint _mapNode first)))
              v hs cs))) w)
    | [] =>
        MouseCoordsHandler_handle _label _mapNode ea w =
        Ok (false,
            set_heap (insert _label
                        (OControl (mkControl (LabelControl "") v hs cs))) w)
    end).
  { intros He. unfold MouseCoordsHandler_handle. rewrite He.
    destruct (ea_hits ea) as [|first rest].
    - rewrite bind_unfold, (call_control_Some _ _ _ _ Hc). reflexivity.
    - rewrite bind_unfold, !gets_bind, Hm, Hd.
      rewrite (call_control_Some _ _ _ _ Hc). reflexivity. }
  cbv zeta.
  destruct (getEventType ea) eqn:He; try (apply Hmove; reflexivity);
    unfold MouseCoordsHandler_handle; rewrite He; reflexivity.
Qed.

(** C8.  Each of [s_manip], [s_controlPanel] and [s_sky] is assigned at most
    once in a run of the program, and only before the viewer's loop starts:
    the record of assignments has no repetition when the process ends, a
    pointer is non-null exactly when it has been assigned, and the loop,
    whatever events it delivers, leaves the six file-level variables and the
    record as they were when it started.  No handler of the file writes a
    file-level variable, in any state and on any event. *)
Theorem static_pointers_assigned_once arguments sess :
  (∃ status w, run_program arguments sess = Ok (status, w)
               ∧ NoDup (assigned w))
  ∧ (∀ w0, loop_entry arguments w0 →
       NoDup (assigned w0)
       ∧ (∀ v, v ∈ assigned w0 ↔ is_Some (static_ptr v (statics w0)))
       ∧ ∀ es w1, Viewer_loop es w0 = Ok (tt, w1) →
           s_manip (statics w1) = s_manip (statics w0)
           ∧ s_controlPanel (statics w1) = s_controlPanel (statics w0)
           ∧ s_sky (statics w1) = s_sky (statics w0)
           ∧ assigned w1 = assigned w0)
  ∧ (∀ h ea, keeps_statics (GUIEventHandler_handle h ea))
  ∧ (∀ h ce, keeps_statics (ControlEventHandler_fire h ce)).
Proof.
  split; [|split; [|split]].
  - pose proof (run_program_spec arguments sess) as H. cbv zeta in H.
    destruct (readNodeFiles (opt_arguments (options_of arguments))).
    + destruct H as (w0 & w & He & Hl & F & Hr).
      destruct (loop_entry_facts _ _ He) as [I _].
      exists (exitStatus sess), w. split; [done|].
      rewrite (fr_assigned _ _ F). apply (inv_nodup _ I).
    + eexists _, _. split; [exact H|]. simpl. apply NoDup_nil_2.
  - intros w0 He. destruct (loop_entry_facts _ _ He) as [I _].
    split; [apply (inv_nodup _ I)|]. split; [apply (inv_assigned _ I)|].
    intros es w1 Hl. destruct (keeps_Viewer_loop es _ _ _ Hl) as [-> ->].
    done.
  - apply keeps_GUIEventHandler_handle.
  - apply keeps_ControlEventHandler_fire.
Qed.

(** C9.  With a map node in the loaded scene: if the map is geocentric and
    the external configuration has a non-empty ["sky"] element, then, whether
    or not [--sky] was given, the loop starts with [s_sky] pointing to a sky
    node made for the map, set to 6 March 2011 at the hour the element gives
    under ["hours"] (12.0 without one) and attached to the viewer; if the
    map is not geocentric, no sky node exists when the loop starts nor at any
    later point of the session, whatever the options. *)
Theorem sky_model_from_earth_file arguments earthNode mapNode w :
  readNodeFiles (opt_arguments (options_of arguments)) = Some earthNode →
  MapNode_findMapNode earthNode = Some mapNode →
  loop_entry arguments w →
  let skyConf := Config_child "sky" (MapNode_externalConfig mapNode) in
  (Map_isGeocentric mapNode = true → Config_empty skyConf = false →
     ∃ a, s_sky (statics w) = Some a
          ∧ heap w !! a =
              Some (OSky (SkyNode_setDateTime 2011 3 6
                            (Config_value_double "hours" 12.0%float skyConf)
                            (SkyNode_new mapNode)))
          ∧ SkyNode_attach a ∈ calls w)
  ∧ (Map_isGeocentric mapNode = false →
     ∀ es w', Viewer_loop es w = Ok (tt, w') →
       s_sky (statics w') = None
       ∧ (∀ a s, heap w' !! a ≠ Some (OSky s))
       ∧ SkySliderHandler ∉ canvas_handlers w').
Proof.
  intros Hload Hmap He skyConf.
  destruct (loop_entry_inv _ _ He) as (earthNode' & Hload' & Hs).
  cbv zeta in Hload'. rewrite Hload in Hload'. injection Hload' as <-.
  destruct (main_scene_spec (opt_autoclip (options_of arguments))
              (opt_sky (options_of arguments))
              (opt_kml (options_of arguments)) earthNode _
              (pristine_options (options_of arguments)))
    as (w' & H & I & K & S).
  cbv zeta in Hs. rewrite H in Hs. inversion Hs; subst w'. clear Hs.
  rewrite Hmap in S. cbv zeta in S. fold skyConf in S.
  split.
  - intros Hg Hc. rewrite Hg, Hc in S. exact S.
  - intros Hg es w' Hl. rewrite Hg in S. simpl in S.
    assert (R : reachable arguments w').
    { eapply reachable_loop; [|exact Hl]. by apply reachable_entry. }
    destruct (reachable_facts _ _ R) as [I' _].
    destruct (keeps_Viewer_loop es _ _ _ Hl) as [E _].
    assert (Hnone : s_sky (statics w') = None) by (by rewrite E).
    split; [done|]. split.
    + intros a s Ha.
      assert (Hsh : heap_shape w' a = Some ShSky)
        by (unfold heap_shape; by rewrite Ha).
      apply (inv_sky _ I') in Hsh. congruence.
    + intros Hin. destruct (inv_slider _ I' Hin) as [a Ha]. congruence.
Qed.

(** C10.  Where the sky node exists, [createControlPanel] builds a panel
    with one slider and no other: range 0.0 to 24.0, initial value 18.0, and
    the [SkySliderHandler] as its only handler.  Whatever value the slider
    reports, [SkySliderHandler::onValueChanged] calls
    [s_sky->setDateTime(2011, 3, 6, value)] and changes nothing else; no
    other callback of the handler does anything. *)
Theorem sky_slider_sets_hour :
  (∀ vps w, is_Some (s_sky (statics w)) →
     ∃ c w', createControlPanel vps w = Ok (tt, w')
             ∧ s_controlPanel (statics w') = Some (next w)
             ∧ heap w' !! next w = Some (OControl c)
             ∧ mkControl (HSliderControl 0.0%float 24.0%float 18.0%float) true
                         [SkySliderHandler] [] ∈ control_subtree c
             ∧ ∀ c' min max value,
                 c' ∈ control_subtree c →
                 control_kind c' = HSliderControl min max value →
                 c' = mkControl
                        (HSliderControl 0.0%float 24.0%float 18.0%float) true
                        [SkySliderHandler] [])
  ∧ (∀ value w a s,
       s_sky (statics w) = Some a → heap w !! a = Some (OSky s) →
       ControlEventHandler_fire SkySliderHandler (FloatChanged value) w =
       Ok (tt, set_heap (insert a (OSky (SkyNode_setDateTime 2011 3 6 value s)))
                 w))
  ∧ (∀ w, ControlEventHandler_fire SkySliderHandler Click w = Ok (tt, w))
  ∧ (∀ b w,
       ControlEventHandler_fire SkySliderHandler (BoolChanged b) w = Ok (tt, w)).
Proof.
  split; [|split; [|split]].
  - intros vps w Hsky.
    destruct (createControlPanel_run vps w)
      as (c & w' & Hrun & Hw' & _ & Hin & Honly).
    exists c, w'. split; [exact Hrun|].
    inversion Hw'; subst w'. simpl. split; [done|].
    split; [apply lookup_insert_eq|]. split; [by apply Hin|].
    intros c' mn mx v Hc' Hk. apply Honly; [done|].
    unfold is_slider. by rewrite Hk.
  - intros value w a s Ha Hs. simpl.
    unfold SkySliderHandler_onValueChanged.
    rewrite gets_bind, Ha. by apply call_sky_Some.
  - reflexivity.
  - reflexivity.
Qed.

End Proofs.

(** * The handlers one by one *)

Section Handlers.
Context `{TK : Toolkit}.

Lemma ToggleNodeHandler_run _node value w :
  ToggleNodeHandler_onValueChanged _node value w =
  Ok (tt, match nodeMasks w !! _node with
          | Some _ =>
              set_nodeMasks
                (insert _node (if value then 4294967295 else 0)) w
          | None => w
          end).
Proof.
  unfold ToggleNodeHandler_onValueChanged. rewrite gets_bind.
  destruct (nodeMasks w !! _node); [|reflexivity].
  by destruct value.
Qed.

(** X1.  [ToggleNodeHandler::onValueChanged] on a node that no longer exists
    does nothing.  On a live node it writes the mask [0xFFFFFFFF] for [true]
    and [0] for [false] and touches nothing else, no other node's mask
    either; the mask it leaves is non-zero exactly when the value was [true],
    which is the test [KMLUIBuilder] uses for the state of a check box; and
    what an earlier call wrote is forgotten by the next one.  The callbacks
    the handler does not override do nothing. *)
Theorem ToggleNodeHandler_sets_node_mask _node value w :
  let fire ce := ControlEventHandler_fire (ToggleNodeHandler _node) ce in
  (nodeMasks w !! _node = None → fire (BoolChanged value) w = Ok (tt, w))
  ∧ (is_Some (nodeMasks w !! _node) →
     ∃ w', fire (BoolChanged value) w = Ok (tt, w')
       ∧ w' = set_nodeMasks
                (insert _node (if value then 4294967295 else 0)) w
       ∧ (∃ mask, nodeMasks w' !! _node = Some mask
                  ∧ negb (mask =? 0) = value)
       ∧ (∀ n, n ≠ _node → nodeMasks w' !! n = nodeMasks w !! n)
       ∧ ∀ v, fire (BoolChanged v) w' = fire (BoolChanged v) w)
  ∧ fire Click w = Ok (tt, w)
  ∧ ∀ v, fire (FloatChanged v) w = Ok (tt, w).
Proof.
  intros fire. subst fire. cbn [ControlEventHandler_fire].
  split; [|split; [|split; [reflexivity|intros; reflexivity]]].
  - intros Hdead. by rewrite ToggleNodeHandler_run, Hdead.
  - intros [m Hlive]. eexists. split; [|split; [reflexivity|]].
    { by rewrite ToggleNodeHandler_run, Hlive. }
    split; [|split].
    + simpl. rewrite lookup_insert_eq. eexists. split; [reflexivity|].
      by destruct value.
    + intros n Hn. simpl. by rewrite lookup_insert_ne.
    + intros v. rewrite !ToggleNodeHandler_run. simpl.
      rewrite lookup_insert_eq, Hlive. unfold set_nodeMasks. simpl.
      by rewrite insert_insert_eq.
Qed.

Lemma ClickViewpointHandler_run _vp w :
  ClickViewpointHandler_onClick _vp w
  = call_manip (s_manip (statics w))
      (EarthManipulator_setViewpoint _vp 4.5%float) w.
Proof. reflexivity. Qed.

(** X2.  A click on the label of a viewpoint is the key that selects it: for
    the viewpoint at index [i] of the list a [ViewpointHandler] holds,
    [ClickViewpointHandler::onClick] does to the program what the handler
    does on a KEYDOWN with key ['1' + i], in every state, a null [s_manip]
    included: there both go through the null pointer, as neither tests it.
    With the manipulator in place the click calls [setViewpoint(_vp, 4.5)] on
    it and changes nothing else. *)
Theorem click_is_the_viewpoint_key _viewpoints i _vp ea w :
  getEventType ea = KEYDOWN →
  getKey ea = char_1 + Z.of_nat i →
  Z.of_nat (length _viewpoints) <= int_max →
  _viewpoints !! i = Some _vp →
  ViewpointHandler_handle _viewpoints ea w
  = (ControlEventHandler_fire (ClickViewpointHandler _vp) Click;;
     mret false) w
  ∧ (s_manip (statics w) = None →
     ControlEventHandler_fire (ClickViewpointHandler _vp) Click w
     = Crash NullDeref)
  ∧ (∀ a m, s_manip (statics w) = Some a → heap w !! a = Some (OManip m) →
     ControlEventHandler_fire (ClickViewpointHandler _vp) Click w
     = Ok (tt, set_heap (insert a (OManip
                 (EarthManipulator_setViewpoint _vp 4.5%float m))) w)).
Proof.
  intros Hty Hkey Hmax Hvp.
  assert (Hi : (i < length _viewpoints)%nat) by (by eapply lookup_lt_Some).
  cbn [ControlEventHandler_fire].
  split; [|split].
  - unfold ViewpointHandler_handle. rewrite Hty, Hkey. cbn [EventType_eqb].
    replace (char_1 + Z.of_nat i - char_1) with (Z.of_nat i) by lia.
    rewrite (to_int_id (Z.of_nat i)) by (unfold is_int, int_min, int_max in *; lia).
    rewrite (to_int_id (Z.of_nat (length _viewpoints)))
      by (unfold is_int, int_min, int_max in *; lia).
    replace (0 <=? Z.of_nat i) with true by (symmetry; apply Z.leb_le; lia).
    replace (Z.of_nat i <? Z.of_nat (length _viewpoints)) with true
      by (symmetry; apply Z.ltb_lt; lia).
    cbn [andb]. rewrite Nat2Z.id, Hvp. reflexivity.
  - intros Hnull. rewrite ClickViewpointHandler_run, Hnull.
    apply call_manip_null.
  - intros a m Ha Hm. rewrite ClickViewpointHandler_run, Ha.
    by apply call_manip_Some.
Qed.

(** ** Pointers *)

Lemma deref_inv p w r w' :
  deref p w = Ok (r, w') →
  ∃ a o, p = Some a ∧ heap w !! a = Some o ∧ r = (a, o) ∧ w' = w.
Proof.
  unfold deref. destruct p as [a|]; [|done].
  destruct (heap w !! a) as [o|] eqn:Ho; [|done].
  intros [= <- <-]. by exists a, o.
Qed.

Lemma manip_at_inv p w r w' :
  manip_at p w = Ok (r, w') →
  ∃ a m, p = Some a ∧ heap w !! a = Some (OManip m) ∧ r = (a, m) ∧ w' = w.
Proof.
  unfold manip_at. intros (r0 & w0 & H0 & H1)%bind_inv.
  apply deref_inv in H0 as (a & o & -> & Ho & -> & ->).
  destruct o; try done. injection H1 as <- <-. by exists a, m.
Qed.

Lemma sky_at_inv p w r w' :
  sky_at p w = Ok (r, w') →
  ∃ a s, p = Some a ∧ heap w !! a = Some (OSky s) ∧ r = (a, s) ∧ w' = w.
Proof.
  unfold sky_at. intros (r0 & w0 & H0 & H1)%bind_inv.
  apply deref_inv in H0 as (a & o & -> & Ho & -> & ->).
  destruct o; try done. injection H1 as <- <-. by exists a, s.
Qed.

Lemma control_at_inv p w r w' :
  control_at p w = Ok (r, w') →
  ∃ a c, p = Some a ∧ heap w !! a = Some (OControl c) ∧ r = (a, c) ∧ w' = w.
Proof.
  unfold control_at. intros (r0 & w0 & H0 & H1)%bind_inv.
  apply deref_inv in H0 as (a & o & -> & Ho & -> & ->).
  destruct o; try done. injection H1 as <- <-. by exists a, c.
Qed.

Lemma call_manip_inv p f w u w' :
  call_manip p f w = Ok (u, w') →
  ∃ a m, p = Some a ∧ heap w !! a = Some (OManip m)
         ∧ w' = set_heap (insert a (OManip (f m))) w.
Proof.
  unfold call_manip. intros ([a m] & w0 & H0 & H1)%bind_inv.
  apply manip_at_inv in H0 as (a' & m' & -> & Hm & [= -> ->] & ->).
  injection H1 as <-. by exists a', m'.
Qed.

Lemma call_sky_inv p f w u w' :
  call_sky p f w = Ok (u, w') →
  ∃ a s, p = Some a ∧ heap w !! a = Some (OSky s)
         ∧ w' = set_heap (insert a (OSky (f s))) w.
Proof.
  unfold call_sky. intros ([a s] & w0 & H0 & H1)%bind_inv.
  apply sky_at_inv in H0 as (a' & s' & -> & Hs & [= -> ->] & ->).
  injection H1 as <-. by exists a', s'.
Qed.

Lemma call_control_inv p f w u w' :
  call_control p f w = Ok (u, w') →
  ∃ a c, p = Some a ∧ heap w !! a = Some (OControl c)
         ∧ w' = set_heap (insert a (OControl (f c))) w.
Proof.
  unfold call_control. intros ([a c] & w0 & H0 & H1)%bind_inv.
  apply control_at_inv in H0 as (a' & c' & -> & Hc & [= -> ->] & ->).
  injection H1 as <-. by exists a', c'.
Qed.

(** ** The two handlers of viewer events *)

Lemma setText_setText s t (c : Control Viewpoint) :
  setText s (setText t c) = setText s c.
Proof. by destruct c as [[]]. Qed.

Lemma MouseCoordsHandler_run _label _mapNode ea w c :
  heap w !! _label = Some (OControl c) →
  MouseCoordsHandler_handle _label _mapNode ea w =
  Ok (false,
      if EventType_eqb (getEventType ea) MOVE
         || EventType_eqb (getEventType ea) DRAG
      then set_heap (insert _label
             (OControl (setText (label_text _mapNode ea w) c))) w
      else w).
Proof.
  intros Hc. unfold MouseCoordsHandler_handle, label_text.
  destruct (_ || _); [|reflexivity].
  destruct (ea_hits ea) as [|first hits].
  - by rewrite (bind_Ok _ _ _ _ _ (call_control_Some _ _ _ _ Hc)).
  - rewrite bind_unfold, !gets_bind.
    by rewrite (call_control_Some _ _ _ _ Hc).
Qed.

Lemma MouseCoordsHandler_inv _label _mapNode ea w b w' :
  MouseCoordsHandler_handle _label _mapNode ea w = Ok (b, w') →
  EventType_eqb (getEventType ea) MOVE
    || EventType_eqb (getEventType ea) DRAG = true →
  ∃ c, heap w !! _label = Some (OControl c).
Proof.
  unfold MouseCoordsHandler_handle. intros H Hty. rewrite Hty in H.
  apply bind_inv in H as (u & w1 & H & _).
  destruct (ea_hits ea) as [|first hits].
  - apply call_control_inv in H as (a & c & [= <-] & Hc & _). by exists c.
  - rewrite !gets_bind in H.
    apply call_control_inv in H as (a & c & [= <-] & Hc & _). by exists c.
Qed.

(** X6.  The label of the mouse coordinates keeps no history.  Once
    [MouseCoordsHandler::handle] has returned from an event, a MOVE or DRAG
    event that follows leaves the program where it would have left it had the
    first event never come, and handing the handler the same event a second
    time changes nothing any more. *)
Theorem mouse_label_shows_latest_position _label _mapNode ea1 ea2 w w1 :
  MouseCoordsHandler_handle _label _mapNode ea1 w = Ok (false, w1) →
  getEventType ea2 = MOVE ∨ getEventType ea2 = DRAG →
  MouseCoordsHandler_handle _label _mapNode ea2 w1
  = MouseCoordsHandler_handle _label _mapNode ea2 w
  ∧ MouseCoordsHandler_handle _label _mapNode ea1 w1 = Ok (false, w1).
Proof.
  intros H1 H2.
  destruct (EventType_eqb (getEventType ea1) MOVE
            || EventType_eqb (getEventType ea1) DRAG) eqn:Hty.
  - destruct (MouseCoordsHandler_inv _ _ _ _ _ _ H1 Hty) as [c Hc].
    rewrite (MouseCoordsHandler_run _ _ _ _ _ Hc), Hty in H1.
    injection H1 as <-.
    set (c1 := setText (label_text _mapNode ea1 w) c).
    assert (Hc1 : heap (set_heap (insert _label (OControl c1)) w) !! _label
                  = Some (OControl c1)) by (simpl; apply lookup_insert_eq).
    rewrite !(MouseCoordsHandler_run _ _ _ _ _ Hc1).
    rewrite (MouseCoordsHandler_run _ _ _ _ _ Hc), Hty.
    assert (Hty2 : EventType_eqb (getEventType ea2) MOVE
                   || EventType_eqb (getEventType ea2) DRAG = true)
      by (by destruct H2 as [-> | ->]).
    rewrite Hty2. unfold label_text, set_heap, c1. simpl.
    by rewrite !insert_insert_eq, !setText_setText.
  - assert (H0 : MouseCoordsHandler_handle _label _mapNode ea1 w
                 = Ok (false, w)).
    { unfold MouseCoordsHandler_handle. by rewrite Hty. }
    rewrite H0 in H1. injection H1 as <-. done.
Qed.

(** X7.  No handler of the file consumes an event: whenever one returns, it
    returns [false], so the handlers registered after it and the camera
    manipulator see the event as well.  [ViewpointHandler::handle] does
    nothing at all, and reads no pointer, on an event that is not a KEYDOWN
    (a key release among them) and on a key that is neither the number of a
    viewpoint nor ['v'] nor ['?']; [MouseCoordsHandler::handle] does nothing
    on an event that is neither MOVE nor DRAG. *)
Theorem handlers_never_consume_an_event :
  (∀ h ea w b w', GUIEventHandler_handle h ea w = Ok (b, w') → b = false)
  ∧ (∀ vps ea w, getEventType ea ≠ KEYDOWN →
       ViewpointHandler_handle vps ea w = Ok (false, w))
  ∧ (∀ vps ea w,
       ¬ (0 <= to_int (getKey ea - char_1)
          < to_int (Z.of_nat (length vps))) →
       getKey ea ≠ char_v → getKey ea ≠ char_question →
       ViewpointHandler_handle vps ea w = Ok (false, w))
  ∧ (∀ l mn ea w, getEventType ea ≠ MOVE → getEventType ea ≠ DRAG →
       MouseCoordsHandler_handle l mn ea w = Ok (false, w)).
Proof.
  split; [|split; [|split]].
  - intros [vps|l mn|name] ea w b w'; simpl.
    + unfold ViewpointHandler_handle.
      by intros (u & w1 & _ & [= <- _])%bind_inv.
    + unfold MouseCoordsHandler_handle.
      by intros (u & w1 & _ & [= <- _])%bind_inv.
    + by intros [= <- _].
  - intros vps ea w Hty. unfold ViewpointHandler_handle.
    by destruct (getEventType ea).
  - intros vps ea w Hidx Hv Hq. unfold ViewpointHandler_handle.
    destruct (EventType_eqb _ _); [|reflexivity].
    replace ((0 <=? to_int (getKey ea - char_1))
             && (to_int (getKey ea - char_1)
                 <? to_int (Z.of_nat (length vps)))) with false.
    2:{ symmetry. apply andb_false_iff.
        destruct (Z.leb_spec 0 (to_int (getKey ea - char_1))); [|by left].
        right. apply Z.ltb_ge. lia. }
    apply Z.eqb_neq in Hv, Hq. by rewrite Hv, Hq.
  - intros l mn ea w Hm Hd. unfold MouseCoordsHandler_handle.
    by destruct (getEventType ea).
Qed.

(** ** Relations a computation leaves between its two worlds *)

Section Leaves.
Context (R : World → World → Prop).
Context (R_refl : ∀ w, R w w).
Context (R_trans : ∀ w1 w2 w3, R w1 w2 → R w2 w3 → R w1 w3).

Lemma leaves_ret {A} (a : A) : leaves R (mret a).
Proof using R_refl. intros w a' w' [= <- <-]. apply R_refl. Qed.

Lemma leaves_gets {A} (f : World → A) : leaves R (gets f).
Proof using R_refl. intros w a' w' [= <- <-]. apply R_refl. Qed.

Lemma leaves_crash {A} f : leaves R (crash f : M A).
Proof. intros w a' w' [=]. Qed.

Lemma leaves_modify f : (∀ w, R w (f w)) → leaves R (modify f).
Proof. intros H w a' w' [= <- <-]. apply H. Qed.

Lemma leaves_bind {A B} (m : M A) (k : A → M B) :
  leaves R m → (∀ a, leaves R (k a)) → leaves R (m ≫= k).
Proof using R_trans.
  intros Hm Hk w b w'' (a & w' & H1 & H2)%bind_inv.
  eapply R_trans; [by eapply Hm|by eapply Hk].
Qed.

Lemma leaves_manip_at p : leaves R (manip_at p).
Proof using R_refl.
  intros w r w' (a & m & _ & _ & _ & ->)%manip_at_inv. apply R_refl.
Qed.

Lemma leaves_control_at p : leaves R (control_at p).
Proof using R_refl.
  intros w r w' (a & m & _ & _ & _ & ->)%control_at_inv. apply R_refl.
Qed.

End Leaves.

(** ** What an event cannot do *)

Lemma string_app_nil_r (s : string) : s +:+ "" = s.
Proof.
  induction s as [|a s IH]; [done|].
  change (String a (s +:+ "") = String a s). by rewrite IH.
Qed.

Lemma string_app_assoc (s t u : string) : (s +:+ t) +:+ u = s +:+ (t +:+ u).
Proof.
  induction s as [|a s IH]; [done|].
  change (String a ((s +:+ t) +:+ u) = String a (s +:+ (t +:+ u))).
  by rewrite IH.
Qed.

Lemma quiet_refl w : quiet w w.
Proof.
  constructor; [apply frame_refl|done|done|].
  exists "". by rewrite string_app_nil_r.
Qed.

Lemma quiet_trans w1 w2 w3 : quiet w1 w2 → quiet w2 w3 → quiet w1 w3.
Proof.
  intros [F1 C1 N1 [s1 O1]] [F2 C2 N2 [s2 O2]]. constructor.
  - by eapply frame_trans.
  - by rewrite C2.
  - intros n. by rewrite N2.
  - exists (s1 +:+ s2). by rewrite O2, O1, string_app_assoc.
Qed.

Lemma quiet_store w a o o' :
  heap w !! a = Some o → shape o' = shape o →
  quiet w (set_heap (insert a o') w).
Proof.
  intros Ho Hs. constructor; [by eapply frame_store|done|done|].
  exists "". simpl. by rewrite string_app_nil_r.
Qed.

Lemma quiet_set_cout w s : quiet w (set_cout (λ out, out +:+ s) w).
Proof. constructor; [apply frame_set_cout|done|done|by exists s]. Qed.

Lemma quiet_set_nodeMasks w n mask :
  is_Some (nodeMasks w !! n) → quiet w (set_nodeMasks (insert n mask) w).
Proof.
  intros Hn. constructor; [apply frame_set_nodeMasks|done| |].
  - intros n'. simpl. destruct (decide (n' = n)) as [->|Hne].
    + rewrite lookup_insert_eq. split; eauto.
    + by rewrite lookup_insert_ne.
  - exists "". simpl. by rewrite string_app_nil_r.
Qed.

(** The handlers change the world in three ways only: a method call on an
    object, text added to [std::cout], a new mask for a live node.  A
    relation these three steps respect holds across every handler. *)
Section LeavesHandlers.
Context (R : World → World → Prop).
Context (R_refl : ∀ w, R w w).
Context (R_trans : ∀ w1 w2 w3, R w1 w2 → R w2 w3 → R w1 w3).
Context (R_store : ∀ w a o o', heap w !! a = Some o → shape o' = shape o →
                     R w (set_heap (insert a o') w)).

Lemma leaves_call_manip p f : leaves R (call_manip p f).
Proof using R_store.
  intros w u w' (a & m & -> & Hm & ->)%call_manip_inv.
  by eapply R_store.
Qed.

Lemma leaves_call_sky p f : leaves R (call_sky p f).
Proof using R_store.
  intros w u w' (a & s & -> & Hs & ->)%call_sky_inv.
  by eapply R_store.
Qed.

Lemma leaves_call_control p f :
  (∀ c, shape (OControl (f c)) = shape (OControl c)) →
  leaves R (call_control p f).
Proof using R_store.
  intros Hf w u w' (a & c & -> & Hc & ->)%call_control_inv.
  by eapply R_store.
Qed.

Ltac leaves_step :=
  first
    [ apply (leaves_ret R R_refl)
    | apply (leaves_gets R R_refl)
    | apply (leaves_crash R)
    | apply (leaves_manip_at R R_refl)
    | apply (leaves_control_at R R_refl)
    | apply leaves_call_manip
    | apply leaves_call_sky
    | apply (leaves_bind R R_trans) ].

Lemma leaves_MouseCoordsHandler_handle l mn ea :
  leaves R (MouseCoordsHandler_handle l mn ea).
Proof using R_refl R_trans R_store.
  unfold MouseCoordsHandler_handle.
  leaves_step; [|intros; leaves_step].
  destruct (_ || _); [|leaves_step].
  destruct (ea_hits ea).
  - apply leaves_call_control. intros c'. apply setText_shape.
  - leaves_step; [leaves_step|intros mgrs].
    leaves_step; [leaves_step|intros dms].
    apply leaves_call_control. intros c'. apply setText_shape.
Qed.

Lemma leaves_SkySliderHandler_onValueChanged value :
  leaves R (SkySliderHandler_onValueChanged value).
Proof using R_refl R_trans R_store.
  unfold SkySliderHandler_onValueChanged.
  leaves_step; [leaves_step|intros; leaves_step].
Qed.

Lemma leaves_ClickViewpointHandler_onClick vp :
  leaves R (ClickViewpointHandler_onClick vp).
Proof using R_refl R_trans R_store.
  unfold ClickViewpointHandler_onClick.
  leaves_step; [leaves_step|intros; leaves_step].
Qed.

Section Output.
Context (R_cout : ∀ w s, R w (set_cout (λ out, out +:+ s) w)).

Lemma leaves_ViewpointHandler_handle vps ea :
  leaves R (ViewpointHandler_handle vps ea).
Proof using R_refl R_trans R_store R_cout.
  unfold ViewpointHandler_handle.
  leaves_step; [|intros; leaves_step].
  destruct (EventType_eqb _ _); [|leaves_step].
  destruct (_ && _).
  { destruct (vps !! _); [|leaves_step].
    leaves_step; [leaves_step|intros; leaves_step]. }
  destruct (_ =? char_v).
  { leaves_step; [leaves_step|intros p].
    leaves_step; [leaves_step|intros [a m]].
    leaves_step; [|intros]; apply leaves_modify; intros w; apply R_cout. }
  destruct (_ =? char_question); [|leaves_step].
  leaves_step; [leaves_step|intros p].
  leaves_step; [leaves_step|intros [a c]].
  apply leaves_call_control. intros c'. apply setVisible_shape.
Qed.

Lemma leaves_GUIEventHandler_handle h ea :
  leaves R (GUIEventHandler_handle h ea).
Proof using R_refl R_trans R_store R_cout.
  destruct h; simpl.
  - apply leaves_ViewpointHandler_handle.
  - apply leaves_MouseCoordsHandler_handle.
  - leaves_step.
Qed.

Lemma leaves_dispatch hs ea : leaves R (dispatch hs ea).
Proof using R_refl R_trans R_store R_cout.
  induction hs as [|h hs IH]; simpl; [leaves_step|].
  leaves_step; [apply leaves_GUIEventHandler_handle|intros; apply IH].
Qed.

End Output.

Section Masks.
Context (R_mask : ∀ w n mask, is_Some (nodeMasks w !! n) →
                    R w (set_nodeMasks (insert n mask) w)).

Lemma leaves_ToggleNodeHandler_onValueChanged n value :
  leaves R (ToggleNodeHandler_onValueChanged n value).
Proof using R_refl R_mask.
  intros w u w'. rewrite ToggleNodeHandler_run. intros [= <- <-].
  destruct (nodeMasks w !! n) as [m|] eqn:Hn; [|apply R_refl].
  apply R_mask. by rewrite Hn.
Qed.

Lemma leaves_ControlEventHandler_fire h ce :
  leaves R (ControlEventHandler_fire h ce).
Proof using R_refl R_trans R_store R_mask.
  destruct h, ce; simpl; try apply (leaves_ret R R_refl).
  - apply leaves_SkySliderHandler_onValueChanged.
  - apply leaves_ToggleNodeHandler_onValueChanged.
  - apply leaves_ClickViewpointHandler_onClick.
Qed.

End Masks.

Lemma leaves_process e :
  (∀ w s, R w (set_cout (λ out, out +:+ s) w)) →
  (∀ w n mask, is_Some (nodeMasks w !! n) →
     R w (set_nodeMasks (insert n mask) w)) →
  leaves R (process e).
Proof using R_refl R_trans R_store.
  intros R_cout R_mask. destruct e as [ea|i ce]; simpl.
  - leaves_step; [leaves_step|intros; by apply leaves_dispatch].
  - leaves_step; [leaves_step|intros hs].
    destruct (hs !! i); [by apply leaves_ControlEventHandler_fire|leaves_step].
Qed.

Lemma leaves_Viewer_loop es :
  (∀ w s, R w (set_cout (λ out, out +:+ s) w)) →
  (∀ w n mask, is_Some (nodeMasks w !! n) →
     R w (set_nodeMasks (insert n mask) w)) →
  leaves R (Viewer_loop es).
Proof using R_refl R_trans R_store.
  intros R_cout R_mask.
  induction es as [|e es IH]; simpl; [leaves_step|].
  leaves_step; [by apply leaves_process|intros; apply IH].
Qed.

End LeavesHandlers.

Lemma quiet_process e : leaves quiet (process e).
Proof.
  apply leaves_process;
    eauto using quiet_refl, quiet_trans, quiet_store, quiet_set_cout,
      quiet_set_nodeMasks.
Qed.

(** X8.  What the handlers of the file cannot do.  Whatever the state and
    the event, a handler that returns has created no object and changed the
    class of none, has attached no handler to a control and taken none off,
    has registered no handler with the viewer and put no control on the
    canvas, has written none of the six file-level variables, has made none
    of the calls start-up makes into the viewer (only method calls on the
    manipulator, the sky node and the controls), has sent nothing to
    [OE_NOTICE], has only added to
    what is on [std::cout], and has neither added a node to the scene nor
    removed one; so has every run of the viewer's loop.  The handlers for
    viewer events leave the node masks alone, and those for control events
    print nothing. *)
Theorem handlers_are_quiet :
  (∀ h ea, leaves quiet (GUIEventHandler_handle h ea))
  ∧ (∀ h ce, leaves quiet (ControlEventHandler_fire h ce))
  ∧ (∀ es, leaves quiet (Viewer_loop es))
  ∧ (∀ h ea, leaves (λ w w', nodeMasks w' = nodeMasks w)
               (GUIEventHandler_handle h ea))
  ∧ (∀ h ce, leaves (λ w w', cout w' = cout w)
               (ControlEventHandler_fire h ce)).
Proof.
  split; [|split; [|split; [|split]]].
  - intros h ea. apply leaves_GUIEventHandler_handle;
      eauto using quiet_refl, quiet_trans, quiet_store, quiet_set_cout.
  - intros h ce. apply leaves_ControlEventHandler_fire;
      eauto using quiet_refl, quiet_trans, quiet_store, quiet_set_nodeMasks.
  - intros es. apply leaves_Viewer_loop;
      eauto using quiet_refl, quiet_trans, quiet_store, quiet_set_cout,
        quiet_set_nodeMasks.
  - intros h ea. apply leaves_GUIEventHandler_handle; try done.
    intros w1 w2 w3 H1 H2. by rewrite H2.
  - intros h ce. apply leaves_ControlEventHandler_fire; try done.
    intros w1 w2 w3 H1 H2. by rewrite H2.
Qed.

(** ** The control panel *)

Lemma viewpoint_rows_click_handlers (vps : list Viewpoint) k :
  flat_map control_handlers (concat (imap (λ i, viewpoint_row (k + i)) vps))
  = ClickViewpointHandler <$> vps.
Proof.
  revert k. induction vps as [|vp vps IH]; intros k; simpl; [done|].
  f_equal. etrans; [|apply (IH (S k))]. do 2 f_equal.
  apply imap_ext. intros i x _. simpl. f_equal. lia.
Qed.

Lemma viewpoint_rows_length (vps : list Viewpoint) k :
  length (concat (imap (λ i, viewpoint_row (k + i)) vps))
  = (2 * length vps)%nat.
Proof.
  revert k. induction vps as [|vp vps IH]; intros k; [done|].
  cbn [imap concat length app viewpoint_row].
  replace (2 * S (length vps))%nat with (S (S (2 * length vps))) by lia.
  rewrite <- (IH (S k)). do 4 f_equal.
  apply imap_ext. intros i x _. simpl. f_equal. lia.
Qed.

Lemma viewpoint_rows_lookup (vps : list Viewpoint) k i vp :
  vps !! i = Some vp →
  concat (imap (λ j, viewpoint_row (k + j)) vps) !! (2 * i)%nat
  = Some (new_control
            (LabelControl (pretty (to_unsigned (Z.of_nat (k + i) + 1)))))
  ∧ concat (imap (λ j, viewpoint_row (k + j)) vps) !! (2 * i + 1)%nat
    = Some (mkControl
              (LabelControl (if string_empty (Viewpoint_getName vp)
                             then "<no name>" else Viewpoint_getName vp))
              true [ClickViewpointHandler vp] []).
Proof.
  revert k i. induction vps as [|vp' vps IH]; intros k i Hi; [done|].
  destruct i as [|i].
  - injection Hi as ->. simpl. by rewrite Nat.add_0_r.
  - simpl in Hi. destruct (IH (S k) i Hi) as [H1 H2].
    replace (2 * S i)%nat with (S (S (2 * i))) by lia.
    replace (k + S i)%nat with (S k + i)%nat by lia.
    rewrite <- H1, <- H2. simpl.
    split; do 2 f_equal; apply imap_ext; intros j x _; simpl; f_equal; lia.
Qed.

Lemma to_unsigned_id z : 0 <= z < 2 ^ 32 → to_unsigned z = z.
Proof.
  intros Hz. unfold to_unsigned. change (2 ^ 32 - 1) with (Z.ones 32).
  rewrite Z.land_ones by lia. by apply Z.mod_small.
Qed.

(** The world [createControlPanel] leaves, and the panel in it. *)
Lemma createControlPanel_world vps w :
  ∃ c,
    createControlPanel vps w =
    Ok (tt,
        {| statics :=
             {| s_manip := s_manip (statics w);
                s_controlPanel := Some (next w);
                s_sky := s_sky (statics w);
                s_dms := s_dms (statics w);
                s_mgrs := s_mgrs (statics w);
                s_ocean := s_ocean (statics w) |};
           heap := <[next w := OControl c]> (heap w);
           next := Pos.succ (next w);
           nodeMasks := nodeMasks w;
           eventHandlers := eventHandlers w;
           canvas := canvas w ++ [next w];
           calls := calls w;
           cout := cout w;
           notice := notice w;
           optionsRead := optionsRead w;
           assigned := assigned w ++ [Ptr_s_controlPanel] |})
    ∧ control_kind c = VBox
    ∧ control_visible c = true
    ∧ control_own_handlers c = []
    ∧ control_kind <$> control_children c
      = (if vps is [] then [] else [Grid])
        ++ (if s_sky (statics w) is Some _ then [HBox] else [])
    ∧ control_handlers c
      = (ClickViewpointHandler <$> vps)
        ++ (if s_sky (statics w) is Some _ then [SkySliderHandler] else []).
Proof.
  unfold createControlPanel. rewrite gets_bind.
  eexists. split; [reflexivity|].
  pose proof (viewpoint_rows_click_handlers vps 0) as Hh. simpl in Hh.
  destruct (s_sky (statics w)) as [a|], vps as [|vp vps];
    repeat (split; [try reflexivity|]); try reflexivity.
  - rewrite (proj2 (Z.ltb_lt 0 _)) by (simpl length; lia).
    rewrite <- Hh. simpl. by rewrite ?app_nil_r.
  - rewrite (proj2 (Z.ltb_lt 0 _)) by (simpl length; lia).
    rewrite <- Hh. simpl. by rewrite ?app_nil_r.
Qed.

(** X3.  [createControlPanel] never fails.  It makes one new object, a
    visible [VBox] without a handler of its own, puts it on the canvas and
    leaves [s_controlPanel] pointing to it.  The box holds a grid only if
    there is a viewpoint and the sky box only if the sky node exists, in this
    order; the handlers on it are one [ClickViewpointHandler] per viewpoint,
    in the order of the viewpoints, followed by the [SkySliderHandler] when
    the sky node exists.  The objects and handlers already there, the node
    masks and the calls made so far are left as they were. *)
Theorem createControlPanel_builds_the_panel vps w :
  ∃ c w',
    createControlPanel vps w = Ok (tt, w')
    ∧ s_controlPanel (statics w') = Some (next w)
    ∧ heap w' = <[next w := OControl c]> (heap w)
    ∧ canvas w' = canvas w ++ [next w]
    ∧ next w' = Pos.succ (next w)
    ∧ control_kind c = VBox
    ∧ control_visible c = true
    ∧ control_own_handlers c = []
    ∧ control_kind <$> control_children c
      = (if vps is [] then [] else [Grid])
        ++ (if s_sky (statics w) is Some _ then [HBox] else [])
    ∧ control_handlers c
      = (ClickViewpointHandler <$> vps)
        ++ (if s_sky (statics w) is Some _ then [SkySliderHandler] else [])
    ∧ s_manip (statics w') = s_manip (statics w)
    ∧ s_sky (statics w') = s_sky (statics w)
    ∧ eventHandlers w' = eventHandlers w
    ∧ nodeMasks w' = nodeMasks w
    ∧ calls w' = calls w.
Proof.
  destruct (createControlPanel_world vps w)
    as (c & H & Hk & Hv & Ho & Hc & Hh).
  eexists c, _. split; [exact H|]. simpl.
  do 4 (split; [reflexivity|]).
  do 5 (split; [assumption|]).
  repeat (split; [reflexivity|]). reflexivity.
Qed.

(** X4.  The grid of viewpoints.  With at least one viewpoint in the list
    (and fewer than 2^32, the range of the counter), the first thing in the
    panel [createControlPanel] builds is a grid of two controls per
    viewpoint.  Row [i] shows the number [i + 1] in decimal and, on a label
    that carries the [ClickViewpointHandler] of the viewpoint, its name, or
    [<no name>] if the name is empty.  For the first nine rows the number
    shown is the character of the key that selects the viewpoint. *)
Theorem viewpoint_grid_rows vps w i vp :
  vps !! i = Some vp →
  Z.of_nat (length vps) < 2 ^ 32 →
  ∃ c g rest w',
    createControlPanel vps w = Ok (tt, w')
    ∧ heap w' !! next w = Some (OControl c)
    ∧ control_children c = g :: rest
    ∧ control_kind g = Grid
    ∧ length (control_children g) = (2 * length vps)%nat
    ∧ control_children g !! (2 * i)%nat
      = Some (new_control (LabelControl (pretty (Z.of_nat i + 1))))
    ∧ control_children g !! (2 * i + 1)%nat
      = Some (mkControl
                (LabelControl (if string_empty (Viewpoint_getName vp)
                               then "<no name>" else Viewpoint_getName vp))
                true [ClickViewpointHandler vp] [])
    ∧ ((i < 9)%nat →
       pretty (Z.of_nat i + 1)
       = String (Ascii.ascii_of_N (Z.to_N (char_1 + Z.of_nat i))) "").
Proof.
  intros Hi Hlen.
  assert (Hlt : (i < length vps)%nat) by (by eapply lookup_lt_Some).
  assert (Hpos : (0 <? Z.of_nat (length vps)) = true)
    by (apply Z.ltb_lt; lia).
  unfold createControlPanel. rewrite gets_bind, Hpos.
  destruct (viewpoint_rows_lookup vps 0 i vp Hi) as [H1 H2].
  pose proof (viewpoint_rows_length vps 0) as Hl.
  simpl in H1, H2, Hl. rewrite to_unsigned_id in H1 by lia.
  assert (Hkey : (i < 9)%nat →
            pretty (Z.of_nat i + 1)
            = String (Ascii.ascii_of_N (Z.to_N (char_1 + Z.of_nat i))) "").
  { intros H9. do 9 (destruct i as [|i]; [reflexivity|]). lia. }
  destruct (s_sky (statics w)) as [a|].
  - eexists _, _, _, _. split; [reflexivity|]. simpl.
    split; [apply lookup_insert_eq|]. split; [reflexivity|].
    split; [reflexivity|]. simpl.
    split; [exact Hl|]. split; [exact H1|]. split; [exact H2|exact Hkey].
  - eexists _, _, _, _. split; [reflexivity|]. simpl.
    split; [apply lookup_insert_eq|]. split; [reflexivity|].
    split; [reflexivity|]. simpl.
    split; [exact Hl|]. split; [exact H1|]. split; [exact H2|exact Hkey].
Qed.

(** ** The list of KML annotations *)

Lemma elem_of_flat_map {A B} (f : A → list B) (l : list A) (y : B) :
  y ∈ flat_map f l ↔ ∃ x, x ∈ l ∧ y ∈ f x.
Proof.
  rewrite list_elem_of_In, in_flat_map.
  split; intros (x & H1 & H2); exists x; by rewrite ?list_elem_of_In in *.
Qed.

Lemma flat_map_flat_map {A B C} (f : A → list B) (g : B → list C) l :
  flat_map g (flat_map f l) = flat_map (λ x, flat_map g (f x)) l.
Proof.
  induction l as [|x l IH]; simpl; [done|].
  by rewrite flat_map_app, IH.
Qed.

Lemma validNodeMask_true mask : validNodeMask mask = true ↔ mask ≠ 0.
Proof.
  unfold validNodeMask. destruct (Z.eqb_spec mask 0); simpl; split; try done.
Qed.

Lemma KMLUIBuilder_apply_rows n :
  KMLUIBuilder_apply n = flat_map KMLUIBuilder_row (Node_applied n).
Proof.
  induction n as [id mask userData children IH] using Node_ind_Forall.
  rewrite KMLUIBuilder_apply_children.
  change (Node_applied (mkNode id mask userData children))
    with (mkNode id mask userData children
            :: flat_map (λ child, if validNodeMask (node_mask child)
                                  then Node_applied child else []) children).
  cbn [flat_map]. rewrite flat_map_flat_map. f_equal.
  - unfold KMLUIBuilder_row. simpl.
    destruct userData as [data|]; [|done].
    by destruct (ad_getViewpoint data).
  - apply flat_map_ext_elem. intros c Hc.
    pose proof (proj1 (Forall_forall _ _) IH c Hc) as IHc.
    unfold Node_accept. destruct c as [cid cmask cdata cchildren].
    simpl node_mask. by destruct (validNodeMask cmask).
Qed.

Lemma Node_accept_rows n :
  Node_accept n = flat_map KMLUIBuilder_row (Node_visited n).
Proof.
  unfold Node_accept, Node_visited. destruct n as [id mask userData children].
  simpl node_mask. destruct (validNodeMask mask); [|done].
  apply KMLUIBuilder_apply_rows.
Qed.

Lemma KMLUIBuilder_rows_length (l : list (Node Viewpoint)) :
  length (flat_map KMLUIBuilder_row l)
  = (2 * length (filter (λ n, annotated n = true) l))%nat.
Proof.
  induction l as [|n l IH]; [done|].
  simpl. rewrite length_app, IH, filter_cons.
  unfold KMLUIBuilder_row, annotated.
  destruct (node_userData n); simpl; lia.
Qed.

(** The visitor reaches nodes of the subtree only, and below the first one
    only nodes with a mask that is not zero. *)
Lemma Node_applied_subtree n n' :
  n' ∈ Node_applied n →
  n' ∈ Node_subtree n ∧ (n' = n ∨ node_mask n' ≠ 0).
Proof.
  revert n'. induction n as [id mask userData children IH] using Node_ind_Forall.
  intros n' H.
  change (n' ∈ mkNode id mask userData children
            :: flat_map (λ child, if validNodeMask (node_mask child)
                                  then Node_applied child else []) children)
    in H.
  apply elem_of_cons in H as [->|H].
  - split; [by left|by left].
  - apply elem_of_flat_map in H as (c & Hc & H).
    destruct (validNodeMask (node_mask c)) eqn:Hv;
      [|by apply elem_of_nil in H].
    destruct (proj1 (Forall_forall _ _) IH c Hc n' H) as [H1 H2].
    split.
    + simpl. right. apply elem_of_flat_map. by exists c.
    + right. destruct H2 as [->|H2]; [by apply validNodeMask_true|done].
Qed.

Lemma Node_visited_subtree n n' :
  n' ∈ Node_visited n → n' ∈ Node_subtree n ∧ node_mask n' ≠ 0.
Proof.
  unfold Node_visited. destruct (validNodeMask (node_mask n)) eqn:Hv;
    [|by intros ?%elem_of_nil].
  intros [H1 H2]%Node_applied_subtree. split; [done|].
  destruct H2 as [->|H2]; [by apply validNodeMask_true|done].
Qed.

Lemma Node_subtree_self (n : Node Viewpoint) : n ∈ Node_subtree n.
Proof. destruct n. by left. Qed.

(** Where no mask is zero, the visitor reaches every node. *)
Lemma Node_applied_all n :
  (∀ n', n' ∈ Node_subtree n → node_mask n' ≠ 0) →
  Node_applied n = Node_subtree n.
Proof.
  induction n as [id mask userData children IH] using Node_ind_Forall.
  intros H. simpl. f_equal. apply flat_map_ext_elem. intros c Hc.
  assert (Hsub : ∀ n', n' ∈ Node_subtree c → node_mask n' ≠ 0).
  { intros n' Hn'. apply H. simpl. right.
    apply elem_of_flat_map. by exists c. }
  rewrite (proj2 (validNodeMask_true _) (Hsub c (Node_subtree_self c))).
  by apply (proj1 (Forall_forall _ _) IH c Hc).
Qed.

Lemma Node_accept_toggle_iff n id :
  ToggleNodeHandler id ∈ flat_map control_handlers (Node_accept n)
  ↔ ∃ n', n' ∈ Node_visited n ∧ annotated n' = true ∧ node_id n' = id.
Proof.
  rewrite Node_accept_rows, flat_map_flat_map.
  rewrite elem_of_flat_map. split.
  - intros (n' & Hn' & H). exists n'. split; [done|].
    unfold KMLUIBuilder_row, annotated in *.
    destruct (node_userData n') as [data|]; [|by apply elem_of_nil in H].
    simpl in H. rewrite elem_of_cons in H.
    destruct H as [[= <-]|H]; [done|].
    destruct (ad_getViewpoint data); simpl in H;
      [apply list_elem_of_singleton in H|apply elem_of_nil in H]; done.
  - intros (n' & Hn' & Ha & <-). exists n'. split; [done|].
    unfold KMLUIBuilder_row, annotated in *.
    destruct (node_userData n'); [|done]. simpl. apply elem_of_cons. by left.
Qed.

Lemma Node_accept_click_iff n vp :
  ClickViewpointHandler vp ∈ flat_map control_handlers (Node_accept n)
  ↔ ∃ n' data, n' ∈ Node_visited n ∧ node_userData n' = Some data
               ∧ ad_getViewpoint data = Some vp.
Proof.
  rewrite Node_accept_rows, flat_map_flat_map.
  rewrite elem_of_flat_map. split.
  - intros (n' & Hn' & H). exists n'.
    unfold KMLUIBuilder_row in H.
    destruct (node_userData n') as [data|]; [|by apply elem_of_nil in H].
    exists data. split; [done|]. split; [done|].
    simpl in H. rewrite elem_of_cons in H.
    destruct H as [[=]|H]. rewrite !app_nil_r in H.
    destruct (ad_getViewpoint data) as [vp'|];
      [apply list_elem_of_singleton in H|apply elem_of_nil in H];
      [by injection H as ->|done].
  - intros (n' & data & Hn' & Hd & Hv). exists n'. split; [done|].
    unfold KMLUIBuilder_row. rewrite Hd, Hv. simpl.
    apply elem_of_cons. right. by apply list_elem_of_singleton.
Qed.

(** X5.  [KMLUIBuilder] makes one row, a check box and a label, for every
    node with [AnnotationData] that the visitor is applied to, in the order
    of the traversal, and nothing for any other node.  The visitor is applied
    to a node only if the node accepts it, which a node whose mask is zero
    does not: such a node gets no row, and neither does anything below it.
    Where no mask in the subtree is zero, every node is visited.  Every check
    box that is made is ticked and carries a [ToggleNodeHandler] on its
    node; the label shows the name, or [<unnamed>] when the name is empty,
    and carries a [ClickViewpointHandler] exactly when the annotation has a
    viewpoint. *)
Theorem KMLUIBuilder_one_row_per_visited_annotation n :
  Node_accept n = flat_map KMLUIBuilder_row (Node_visited n)
  ∧ length (Node_accept n)
    = (2 * length (filter (λ n', annotated n' = true) (Node_visited n)))%nat
  ∧ (∀ n', n' ∈ Node_visited n → n' ∈ Node_subtree n ∧ node_mask n' ≠ 0)
  ∧ (node_mask n = 0 → Node_accept n = [])
  ∧ ((∀ n', n' ∈ Node_subtree n → node_mask n' ≠ 0) →
     Node_visited n = Node_subtree n)
  ∧ (∀ id, ToggleNodeHandler id ∈ flat_map control_handlers (Node_accept n)
           ↔ ∃ n', n' ∈ Node_visited n ∧ annotated n' = true
                   ∧ node_id n' = id)
  ∧ (∀ vp, ClickViewpointHandler vp
             ∈ flat_map control_handlers (Node_accept n)
           ↔ ∃ n' data, n' ∈ Node_visited n
                        ∧ node_userData n' = Some data
                        ∧ ad_getViewpoint data = Some vp)
  ∧ (∀ c value, c ∈ Node_accept n →
       control_kind c = CheckBoxControl value → value = true)
  ∧ SkySliderHandler ∉ flat_map control_handlers (Node_accept n).
Proof.
  split; [apply Node_accept_rows|].
  split; [rewrite Node_accept_rows; apply KMLUIBuilder_rows_length|].
  split; [intros n'; apply Node_visited_subtree|].
  split.
  { intros Hz. unfold Node_accept. destruct n as [id mask userData children].
    simpl in Hz. subst mask. reflexivity. }
  split.
  { intros Hall. unfold Node_visited.
    rewrite (proj2 (validNodeMask_true _) (Hall n (Node_subtree_self n))).
    by apply Node_applied_all. }
  split; [intros id; apply Node_accept_toggle_iff|].
  split; [intros vp; apply Node_accept_click_iff|].
  split; [|apply Node_accept_handlers].
  intros c value Hc Hk. rewrite Node_accept_rows in Hc.
  apply elem_of_flat_map in Hc as (n' & Hn' & Hc).
  apply Node_visited_subtree in Hn' as [_ Hmask].
  unfold KMLUIBuilder_row in Hc.
  destruct (node_userData n') as [data|]; [|by apply elem_of_nil in Hc].
  apply elem_of_cons in Hc as [->|Hc].
  - simpl in Hk. injection Hk as <-.
    by apply (proj2 (validNodeMask_true _)).
  - apply list_elem_of_singleton in Hc as ->. simpl in Hk. discriminate Hk.
Qed.

End Handlers.

(** * Start-up *)

(** A method call through a pointer to the object just created. *)
Ltac call_new_object :=
  erewrite bind_Ok;
  [|first [ apply call_sky_Some | apply sky_at_Some | apply call_control_Some
          | apply call_manip_Some | apply manip_at_Some ];
    simpl; apply lookup_insert_eq].

Section Startup.
Context `{TK : Toolkit}.

Lemma adds_refl w : adds w w [] [] [].
Proof. constructor; by rewrite ?app_nil_r. Qed.

Lemma adds_trans w1 w2 w3 hs1 hs2 chs1 chs2 cs1 cs2 :
  adds w1 w2 hs1 chs1 cs1 → adds w2 w3 hs2 chs2 cs2 →
  adds w1 w3 (hs1 ++ hs2) (chs1 ++ chs2) (cs1 ++ cs2).
Proof.
  intros [E1 H1 C1 N1 O1] [E2 H2 C2 N2 O2]. constructor.
  - by rewrite E2, E1, app_assoc.
  - by rewrite H2, H1, app_assoc.
  - by rewrite C2, C1, app_assoc.
  - auto.
  - by rewrite O2.
Qed.

(** The canvas and the controls on it, across an allocation. *)
Lemma Inv_canvas_fresh w a : Inv w → a ∈ canvas w → a ≠ next w.
Proof.
  intros I Ha. destruct (inv_canvas _ I a Ha) as (b & hs & Hs).
  apply (Inv_fresh _ _ I). by eapply heap_shape_is_Some.
Qed.

Lemma canvas_handlers_same w w' :
  (∀ a, a ∈ canvas w → a ≠ next w) → canvas w' = canvas w →
  (∀ a, a ≠ next w → heap w' !! a = heap w !! a) →
  canvas_handlers w' = canvas_handlers w.
Proof.
  intros I Hc Hh. unfold canvas_handlers. rewrite Hc.
  apply flat_map_ext_elem. intros a Ha. rewrite Hh; [done|]. by apply I.
Qed.

Lemma canvas_handlers_add w w' c :
  (∀ a, a ∈ canvas w → a ≠ next w) → canvas w' = canvas w ++ [next w] →
  heap w' = <[next w := OControl c]> (heap w) →
  canvas_handlers w' = canvas_handlers w ++ control_handlers c.
Proof.
  intros I Hc Hh. unfold canvas_handlers.
  rewrite Hc, flat_map_app, Hh. simpl.
  rewrite lookup_insert_eq, app_nil_r. f_equal.
  apply flat_map_ext_elem. intros a Ha. rewrite lookup_insert_ne; [done|].
  intros <-. by eapply I.
Qed.

(** [register_nodes] puts every node of a subtree into the scene and takes
    none out. *)
Lemma register_nodes_spec n :
  ∀ masks,
    (∀ k, is_Some (masks !! k) → is_Some (register_nodes n masks !! k))
    ∧ (∀ n', n' ∈ Node_subtree n →
         is_Some (register_nodes n masks !! node_id n')).
Proof.
  induction n as [id mask userData children IH] using Node_ind_Forall.
  intros masks. simpl.
  set (m0 := <[id := to_unsigned mask]> masks).
  assert (H0 : ∀ k, is_Some (masks !! k) → is_Some (m0 !! k)).
  { intros k Hk. subst m0. destruct (decide (k = id)) as [->|].
    - rewrite lookup_insert_eq. eauto.
    - by rewrite lookup_insert_ne. }
  assert (Hid : is_Some (m0 !! id)).
  { subst m0. rewrite lookup_insert_eq. eauto. }
  clearbody m0.
  assert (Hfold :
    (∀ k, is_Some (m0 !! k) →
          is_Some (fold_right register_nodes m0 children !! k))
    ∧ ∀ c n', c ∈ children → n' ∈ Node_subtree c →
        is_Some (fold_right register_nodes m0 children !! node_id n')).
  { induction IH as [|c cs Hc _ IHcs]; simpl.
    - split; [done|]. intros c n' Hc. by apply elem_of_nil in Hc.
    - destruct IHcs as [K1 K2].
      destruct (Hc (fold_right register_nodes m0 cs)) as [L1 L2].
      split; [auto|]. intros c' n' Hc' Hn'.
      apply elem_of_cons in Hc' as [->|Hc']; [auto|]. apply L1. eauto. }
  destruct Hfold as [K1 K2]. split.
  - auto.
  - intros n' Hn'. apply elem_of_cons in Hn' as [->|Hn']; [by apply K1|].
    apply elem_of_flat_map in Hn' as (c & Hc & Hn'). eauto.
Qed.

Lemma addChild_run child root w :
  addChild child root w
  = Ok (root ++ option_list child,
        match child with
        | Some (ChildNode n) => set_nodeMasks (register_nodes n) w
        | _ => w
        end).
Proof.
  destruct child as [[n|p|]|]; simpl; try reflexivity.
  by rewrite app_nil_r.
Qed.

Lemma root_live_addChild child root w :
  root_live root w →
  root_live (root ++ option_list child)
    match child with
    | Some (ChildNode n) => set_nodeMasks (register_nodes n) w
    | _ => w
    end.
Proof.
  intros L n n' Hn Hn'. apply elem_of_app in Hn as [Hn|Hn].
  - destruct child as [[c|p|]|]; try by eapply L.
    simpl. apply (proj1 (register_nodes_spec _ _)). by eapply L.
  - destruct child as [[c|p|]|]; simpl in Hn;
      try (by apply elem_of_nil in Hn);
      apply list_elem_of_singleton in Hn; try done.
    injection Hn as <-. simpl. by apply (proj2 (register_nodes_spec _ _)).
Qed.

Lemma root_live_mono root w w' :
  root_live root w →
  (∀ n, is_Some (nodeMasks w !! n) → is_Some (nodeMasks w' !! n)) →
  root_live root w'.
Proof. intros L H n n' Hn Hn'. apply H. by eapply L. Qed.

Lemma main_sky_run mapNode externals useSky root w :
  let skyConf := Config_child "sky" externals in
  main_sky mapNode externals useSky root w =
  if (if negb (Config_empty skyConf) then true else useSky) then
    Ok (root ++ [ChildSky (next w)],
        {| statics :=
             {| s_manip := s_manip (statics w);
                s_controlPanel := s_controlPanel (statics w);
                s_sky := Some (next w);
                s_dms := s_dms (statics w);
                s_mgrs := s_mgrs (statics w);
                s_ocean := s_ocean (statics w) |};
           heap := <[next w := OSky (SkyNode_setDateTime 2011 3 6
                                 (Config_value_double "hours" 12.0%float
                                    skyConf)
                                 (SkyNode_new mapNode))]> (heap w);
           next := Pos.succ (next w);
           nodeMasks := nodeMasks w;
           eventHandlers := eventHandlers w;
           canvas := canvas w;
           calls := calls w ++ [SkyNode_attach (next w)];
           cout := cout w;
           notice := notice w;
           optionsRead := optionsRead w;
           assigned := assigned w ++ [Ptr_s_sky] |})
  else Ok (root, w).
Proof.
  intros skyConf. unfold main_sky. fold skyConf.
  destruct (if negb (Config_empty skyConf) then true else useSky);
    [|reflexivity].
  rewrite bind_unfold, new_run. unfold assign_s_sky.
  rewrite modify_bind, gets_bind. simpl s_sky. call_new_object.
  rewrite gets_bind. simpl s_sky. call_new_object.
  cbv beta iota zeta. rewrite libcall_bind, gets_bind. simpl.
  unfold set_heap, set_calls. simpl. by rewrite insert_insert_eq.
Qed.

Lemma main_sky_facts mapNode externals useSky root w root' w' :
  main_sky mapNode externals useSky root w = Ok (root', w') →
  Inv w → s_sky (statics w) = None → root_live root w →
  let on := if negb (Config_empty (Config_child "sky" externals))
            then true else useSky in
  Inv w' ∧ root_live root' w'
  ∧ s_controlPanel (statics w') = s_controlPanel (statics w)
  ∧ s_ocean (statics w') = s_ocean (statics w)
  ∧ ∃ a, root' = root ++ (if on then [ChildSky a] else [])
         ∧ s_sky (statics w') = (if on then Some a else None)
         ∧ adds w w' [] [] (if on then [SkyNode_attach a] else []).
Proof.
  intros H I Hnone L on.
  destruct (main_sky_spec mapNode externals useSky root w I Hnone)
    as (r0 & w0 & H0 & I0 & _). rewrite H in H0. injection H0 as <- <-.
  split; [done|]. rewrite main_sky_run in H. fold on in H.
  destruct on; injection H as <- <-.
  - split.
    { intros n n' Hn Hn'. apply elem_of_app in Hn as [Hn|Hn].
      - by eapply L.
      - by apply list_elem_of_singleton in Hn. }
    split; [done|]. split; [done|]. exists (next w).
    split; [done|]. split; [done|]. constructor; simpl; try done.
    + by rewrite app_nil_r.
    + rewrite app_nil_r.
      apply canvas_handlers_same;
        [intros a; by apply Inv_canvas_fresh|done|].
      intros a Ha. simpl. by rewrite lookup_insert_ne.
  - split; [done|]. split; [done|]. split; [done|].
    exists 1%positive. split; [by rewrite app_nil_r|]. split; [done|].
    apply adds_refl.
Qed.

Lemma adds_frame w w' cs :
  frame w w' → calls w' = calls w ++ cs → cout w' = cout w →
  (∀ n, is_Some (nodeMasks w !! n) → is_Some (nodeMasks w' !! n)) →
  adds w w' [] [] cs.
Proof.
  intros F Hc Ho Hn. constructor; try done.
  - by rewrite (fr_eventHandlers _ _ F), app_nil_r.
  - by rewrite (canvas_handlers_frame _ _ F), app_nil_r.
Qed.

Lemma main_ocean_facts mapNode root w root' w' :
  main_ocean mapNode root w = Ok (root', w') →
  Inv w → root_live root w →
  Inv w' ∧ root_live root' w' ∧ statics w' = statics w
  ∧ root' = root ++ (if s_ocean (statics w)
                     then option_list
                            (ChildNode <$> OceanSurface_loadOceanSurface mapNode)
                     else [])
  ∧ adds w w' [] [] [].
Proof.
  intros H I L. unfold main_ocean in H. rewrite gets_bind in H.
  destruct (s_ocean (statics w)).
  - rewrite addChild_run in H. injection H as <- <-.
    pose proof (root_live_addChild
                  (ChildNode <$> OceanSurface_loadOceanSurface mapNode)
                  root w L) as L'.
    destruct (OceanSurface_loadOceanSurface mapNode) as [n|]; simpl in *.
    + split; [by eapply frame_Inv; [apply frame_set_nodeMasks|]|].
      split; [done|]. split; [done|]. split; [done|].
      apply adds_frame; [apply frame_set_nodeMasks|simpl..].
      * by rewrite app_nil_r.
      * done.
      * intros k. apply register_nodes_spec.
    + split; [done|]. split; [done|]. split; [done|]. split; [done|].
      apply adds_refl.
  - injection H as <- <-. split; [done|]. split; [done|]. split; [done|].
    split; [by rewrite app_nil_r|]. apply adds_refl.
Qed.

Lemma main_autoclip_facts mapNode externals useAutoClip w w' :
  main_autoclip mapNode externals useAutoClip w = Ok (tt, w') →
  Inv w →
  let wanted :=
    if Config_hasChild "autoclip" externals
    then Config_boolValue useAutoClip (Config_child "autoclip" externals)
    else useAutoClip in
  Inv w' ∧ statics w' = statics w ∧ nodeMasks w' = nodeMasks w
  ∧ adds w w' [] []
      (if bool_decide (is_Some (s_sky (statics w)))
          || s_ocean (statics w) || wanted
       then [addCullCallback_AutoClipPlaneCallback mapNode] else []).
Proof.
  intros H I wanted. unfold main_autoclip in H. fold wanted in H.
  rewrite !gets_bind in H.
  destruct (bool_decide (is_Some (s_sky (statics w)))
            || s_ocean (statics w) || wanted).
  - injection H as <-.
    split; [by eapply frame_Inv; [apply frame_set_calls|]|].
    split; [done|]. split; [done|]. by apply adds_frame; [apply frame_set_calls|..].
  - injection H as <-. split; [done|]. split; [done|]. split; [done|].
    apply adds_refl.
Qed.

Lemma main_geocentric_facts mapNode externals useAutoClip useSky root w
    root' w' :
  main_geocentric mapNode externals useAutoClip useSky root w
  = Ok (root', w') →
  Inv w → s_sky (statics w) = None → root_live root w →
  let on := if negb (Config_empty (Config_child "sky" externals))
            then true else useSky in
  let wanted :=
    if Config_hasChild "autoclip" externals
    then Config_boolValue useAutoClip (Config_child "autoclip" externals)
    else useAutoClip in
  Inv w' ∧ root_live root' w'
  ∧ s_controlPanel (statics w') = s_controlPanel (statics w)
  ∧ s_ocean (statics w') = s_ocean (statics w)
  ∧ ∃ a, root' = root ++ (if on then [ChildSky a] else [])
                 ++ (if s_ocean (statics w)
                     then option_list
                            (ChildNode
                               <$> OceanSurface_loadOceanSurface mapNode)
                     else [])
         ∧ s_sky (statics w') = (if on then Some a else None)
         ∧ adds w w' [] []
             ((if on then [SkyNode_attach a] else [])
              ++ (if on || s_ocean (statics w) || wanted
                  then [addCullCallback_AutoClipPlaneCallback mapNode]
                  else [])).
Proof.
  intros H I Hnone L on wanted. unfold main_geocentric in H.
  apply bind_inv in H as (ra & wa & Ha & H).
  apply bind_inv in H as (rb & wb & Hb & H).
  apply bind_inv in H as ([] & wc & Hc & H). injection H as <- <-.
  destruct (main_sky_facts _ _ _ _ _ _ _ Ha I Hnone L)
    as (Ia & La & Pa & Oa & a & Ra & Sa & Aa).
  destruct (main_ocean_facts _ _ _ _ _ Hb Ia La)
    as (Ib & Lb & Sb & Rb & Ab).
  destruct (main_autoclip_facts _ _ _ _ _ Hc Ib) as (Ic & Sc & Nc & Ac).
  fold on in Ra, Sa, Aa. fold wanted in Ac.
  split; [done|]. split.
  { eapply root_live_mono; [exact Lb|]. intros n. by rewrite Nc. }
  split; [by rewrite Sc, Sb|]. split; [by rewrite Sc, Sb|].
  exists a. split; [by rewrite Rb, Ra, Oa, app_assoc|].
  split; [by rewrite Sc, Sb|].
  pose proof (adds_trans _ _ _ _ _ _ _ _ _ Aa
                (adds_trans _ _ _ _ _ _ _ _ _ Ab Ac)) as A.
  simpl in A. rewrite Sb, Sa, Oa in A.
  by destruct on.
Qed.

Lemma createControlPanel_facts vps w w' :
  createControlPanel vps w = Ok (tt, w') →
  (∀ a, a ∈ canvas w → a ≠ next w) →
  s_sky (statics w') = s_sky (statics w)
  ∧ s_ocean (statics w') = s_ocean (statics w)
  ∧ nodeMasks w' = nodeMasks w
  ∧ s_controlPanel (statics w') = Some (next w)
  ∧ adds w w' []
      ((ClickViewpointHandler <$> vps)
       ++ (if s_sky (statics w) is Some _ then [SkySliderHandler] else []))
      [].
Proof.
  intros H I.
  destruct (createControlPanel_world vps w) as (c & H0 & _ & _ & _ & _ & Hh).
  rewrite H in H0. injection H0 as ->.
  split; [done|]. split; [done|]. split; [done|]. split; [done|].
  constructor; simpl; try done; try by rewrite app_nil_r.
  rewrite <- Hh. by apply canvas_handlers_add.
Qed.

Lemma main_viewpoints_facts externals root w root' w' :
  main_viewpoints externals root w = Ok (root', w') →
  Inv w → s_controlPanel (statics w) = None → root_live root w →
  let children := Config_children "viewpoint" externals in
  let vps := Viewpoint_of_Config <$> children in
  Inv w' ∧ root_live root' w' ∧ root' = root ++ [ChildCanvas]
  ∧ s_sky (statics w') = s_sky (statics w)
  ∧ s_ocean (statics w') = s_ocean (statics w)
  ∧ (is_Some (s_controlPanel (statics w'))
     ↔ children ≠ [] ∨ is_Some (s_sky (statics w)))
  ∧ adds w w'
      (if children is [] then [] else [ViewpointHandler vps])
      ((ClickViewpointHandler <$> vps)
       ++ (if s_sky (statics w) is Some _ then [SkySliderHandler] else []))
      [].
Proof.
  intros H I Hnone L children vps.
  destruct (main_viewpoints_spec externals root w I Hnone)
    as (w0 & H0 & I0 & _). rewrite H in H0. injection H0 as -> <-.
  split; [done|].
  assert (Hfresh : ∀ a, a ∈ canvas w → a ≠ next w)
    by (intros a; by apply Inv_canvas_fresh).
  unfold main_viewpoints in H. cbv zeta in H. fold children in H.
  assert (Hlive : ∀ w1, nodeMasks w1 = nodeMasks w →
            root_live (root ++ [ChildCanvas]) w1).
  { intros w1 Hw1 n n' Hn Hn'. rewrite Hw1.
    apply elem_of_app in Hn as [Hn|Hn]; [by eapply L|].
    by apply list_elem_of_singleton in Hn. }
  destruct children as [|c cs] eqn:Hch.
  - simpl in H. rewrite ret_bind in H. simpl in H.
    rewrite ret_bind, gets_bind in H. simpl in H. subst vps. simpl.
    destruct (s_sky (statics w)) as [a|] eqn:Hsky.
    + rewrite bool_decide_true in H by eauto.
      apply bind_inv in H as ([] & w1 & H1 & H). injection H as <-.
      destruct (createControlPanel_facts _ _ _ H1 Hfresh)
        as (S1 & O1 & N1 & P1 & A1).
      rewrite Hsky in A1. split; [by apply Hlive|]. split; [done|].
      split; [by rewrite S1, Hsky|]. split; [done|]. split; [|done].
      rewrite P1. split; eauto.
    + rewrite bool_decide_false in H by (by intros [? ?]).
      rewrite ret_bind in H. injection H as <-.
      split; [by apply Hlive|]. split; [done|]. split; [done|].
      split; [done|]. split; [|apply adds_refl].
      rewrite Hnone. split; [by intros [? ?]|].
      intros [?|[? ?]]; done.
  - assert (Hpos : (0 <? Z.of_nat (length (c :: cs))) = true)
      by (apply Z.ltb_lt; simpl length; lia).
    rewrite ?length_fmap, !Hpos in H.
    rewrite modify_bind in H. simpl in H. rewrite ret_bind, gets_bind in H.
    rewrite ?length_fmap, ?Hpos in H. simpl in H.
    apply bind_inv in H as ([] & w1 & H1 & H). injection H as <-.
    apply createControlPanel_facts in H1 as (S1 & O1 & N1 & P1 & A1);
      [|exact Hfresh].
    split; [by apply Hlive|]. split; [done|]. split; [done|].
    split; [done|]. split; [rewrite P1; split; eauto|].
    destruct A1 as [E1 C1 K1 M1 U1].
    constructor; [|exact C1|exact K1|exact M1|exact U1].
    rewrite E1. simpl. by rewrite app_nil_r.
Qed.

Lemma addMouseCoords_facts mapNode w w' :
  addMouseCoords mapNode w = Ok (tt, w') → Inv w →
  Inv w' ∧ statics w' = statics w ∧ nodeMasks w' = nodeMasks w
  ∧ adds w w' [MouseCoordsHandler (next w) mapNode] [] [].
Proof.
  intros H I.
  destruct (addMouseCoords_spec mapNode w I) as (w0 & H0 & I0 & _).
  rewrite H in H0. injection H0 as <-. split; [done|].
  injection H as <-. split; [done|]. split; [done|].
  constructor; simpl; try done; try by rewrite app_nil_r.
  rewrite (canvas_handlers_add w _ (new_control (LabelControl "")));
    [done | intros a; by apply Inv_canvas_fresh | reflexivity | reflexivity ].
Qed.

Lemma main_kml_facts mapNode kmlFile root w root' w' :
  main_kml mapNode kmlFile root w = Ok (root', w') →
  Inv w → root_live root w →
  Inv w' ∧ root_live root' w' ∧ statics w' = statics w
  ∧ root' = root ++ kml_child mapNode kmlFile
  ∧ adds w w' []
      (if kml_child mapNode kmlFile is [] then []
       else flat_map control_handlers (flat_map KMLUIBuilder_child root'))
      [].
Proof.
  intros H I L.
  destruct (main_kml_spec mapNode kmlFile root w I)
    as (r0 & w0 & H0 & I0 & _). rewrite H in H0. injection H0 as <- <-.
  split; [done|]. unfold main_kml, kml_child in *.
  destruct (negb (string_empty kmlFile));
    [|injection H as <- <-; rewrite app_nil_r; repeat (split; [done|]);
      apply adds_refl].
  destruct (KML_load kmlFile mapNode) as [kml|];
    [|injection H as <- <-; rewrite app_nil_r; repeat (split; [done|]);
      apply adds_refl].
  rewrite addChild_node_bind, bind_unfold, new_run, modify_bind in H.
  erewrite bind_Ok in H;
    [|apply call_control_Some; simpl; apply lookup_insert_eq].
  injection H as <- <-. simpl option_list.
  split.
  { apply (root_live_addChild (Some (ChildNode kml))) in L.
    intros n n' Hn Hn'. by eapply L. }
  split; [done|]. split; [done|].
  constructor; simpl; try done; try by rewrite app_nil_r.
  - erewrite (canvas_handlers_add (set_nodeMasks (register_nodes kml) w));
      [| exact (λ a, Inv_canvas_fresh w a I) | reflexivity
       | simpl; by rewrite insert_insert_eq ].
    f_equal.
  - intros n. apply register_nodes_spec.
Qed.

Lemma main_mapNode_facts mapNode useAutoClip useSky kmlFile root w root' w' :
  main_mapNode mapNode useAutoClip useSky kmlFile root w = Ok (root', w') →
  Inv w → s_sky (statics w) = None → s_controlPanel (statics w) = None →
  root_live root w →
  Inv w' ∧ root_live root' w'
  ∧ ∃ a l,
      root' = root ++ (if sky_wanted mapNode useSky then [ChildSky a] else [])
              ++ ocean_child mapNode (s_ocean (statics w))
              ++ [ChildCanvas] ++ kml_child mapNode kmlFile
      ∧ s_sky (statics w')
        = (if sky_wanted mapNode useSky then Some a else None)
      ∧ (is_Some (s_controlPanel (statics w'))
         ↔ Config_children "viewpoint" (MapNode_externalConfig mapNode) ≠ []
           ∨ sky_wanted mapNode useSky = true)
      ∧ adds w w'
          ((if Config_children "viewpoint" (MapNode_externalConfig mapNode)
              is []
            then [] else [ViewpointHandler (earth_viewpoints mapNode)])
           ++ [MouseCoordsHandler l mapNode])
          ((ClickViewpointHandler <$> earth_viewpoints mapNode)
           ++ (if sky_wanted mapNode useSky then [SkySliderHandler] else [])
           ++ (if kml_child mapNode kmlFile is [] then []
               else flat_map control_handlers
                      (flat_map KMLUIBuilder_child root')))
          ((if sky_wanted mapNode useSky then [SkyNode_attach a] else [])
           ++ (if Map_isGeocentric mapNode
                  && (sky_wanted mapNode useSky || s_ocean (statics w)
                      || autoclip_wanted mapNode useAutoClip)
               then [addCullCallback_AutoClipPlaneCallback mapNode]
               else [])).
Proof.
  intros H I Hsky Hpanel L. unfold main_mapNode in H. cbv zeta in H.
  apply bind_inv in H as (r1 & w1 & H1 & H).
  apply bind_inv in H as (r2 & w2 & H2 & H).
  apply bind_inv in H as ([] & w3 & H3 & H4).
  assert (G : Inv w1 ∧ root_live r1 w1 ∧ s_controlPanel (statics w1) = None
              ∧ s_ocean (statics w1) = s_ocean (statics w)
              ∧ ∃ a, r1 = root
                       ++ (if sky_wanted mapNode useSky then [ChildSky a]
                           else [])
                       ++ ocean_child mapNode (s_ocean (statics w))
                     ∧ s_sky (statics w1)
                       = (if sky_wanted mapNode useSky then Some a else None)
                     ∧ adds w w1 [] []
                         ((if sky_wanted mapNode useSky
                           then [SkyNode_attach a] else [])
                          ++ (if Map_isGeocentric mapNode
                                 && (sky_wanted mapNode useSky
                                     || s_ocean (statics w)
                                     || autoclip_wanted mapNode useAutoClip)
                              then [addCullCallback_AutoClipPlaneCallback
                                      mapNode]
                              else []))).
  { unfold sky_wanted, ocean_child, autoclip_wanted.
    destruct (Map_isGeocentric mapNode); simpl.
    - destruct (main_geocentric_facts _ _ _ _ _ _ _ _ H1 I Hsky L)
        as (I1 & L1 & P1 & O1 & a & R1 & S1 & A1).
      split; [done|]. split; [done|]. split; [by rewrite P1|].
      split; [done|]. by exists a.
    - injection H1 as <- <-. split; [done|]. split; [done|].
      split; [done|]. split; [done|]. exists 1%positive.
      split; [by rewrite app_nil_r|]. split; [done|]. apply adds_refl. }
  destruct G as (I1 & L1 & P1 & O1 & a & R1 & S1 & A1).
  destruct (main_viewpoints_facts _ _ _ _ _ H2 I1 P1 L1)
    as (I2 & L2 & R2 & S2 & O2 & P2 & A2).
  destruct (addMouseCoords_facts _ _ _ H3 I2) as (I3 & S3 & N3 & A3).
  assert (L3 : root_live r2 w3).
  { eapply root_live_mono; [exact L2|]. intros n. by rewrite N3. }
  destruct (main_kml_facts _ _ _ _ _ _ H4 I3 L3)
    as (I4 & L4 & S4 & R4 & A4).
  split; [done|]. split; [done|]. exists a, (next w2).
  split; [by rewrite R4, R2, R1, <- !app_assoc|].
  split; [by rewrite S4, S3, S2|].
  split.
  { rewrite S4, S3, P2, S1. by destruct (sky_wanted mapNode useSky);
      split; (intros [?|?]; [by left|]); try done; try (right; done);
      try (by destruct H as [? ?]). }
  pose proof (adds_trans _ _ _ _ _ _ _ _ _ A1
               (adds_trans _ _ _ _ _ _ _ _ _ A2
                  (adds_trans _ _ _ _ _ _ _ _ _ A3 A4))) as A.
  simpl in A. rewrite !app_nil_r in A. rewrite S1 in A.
  fold (earth_viewpoints mapNode) in A.
  rewrite <- !app_assoc in A.
  by destruct (sky_wanted mapNode useSky).
Qed.

Lemma main_scene_facts useAutoClip useSky kmlFile earthNode w w' :
  main_scene useAutoClip useSky kmlFile earthNode w = Ok (tt, w') →
  pristine w →
  Inv w'
  ∧ match MapNode_findMapNode earthNode with
    | None =>
        root_live [ChildNode earthNode] w'
        ∧ s_sky (statics w') = None
        ∧ s_controlPanel (statics w') = None
        ∧ adds w w' stock_handlers []
            [ setCameraManipulator (Some (next w)); setDoPreCompile true;
              setSceneData [ChildNode earthNode] ]
    | Some mapNode =>
        ∃ a l root,
          root = [ChildNode earthNode]
                 ++ (if sky_wanted mapNode useSky then [ChildSky a] else [])
                 ++ ocean_child mapNode (s_ocean (statics w))
                 ++ [ChildCanvas] ++ kml_child mapNode kmlFile
          ∧ root_live root w'
          ∧ s_sky (statics w')
            = (if sky_wanted mapNode useSky then Some a else None)
          ∧ (is_Some (s_controlPanel (statics w'))
             ↔ Config_children "viewpoint" (MapNode_externalConfig mapNode)
               ≠ []
               ∨ sky_wanted mapNode useSky = true)
          ∧ adds w w'
              ((if Config_children "viewpoint"
                     (MapNode_externalConfig mapNode) is []
                then [] else [ViewpointHandler (earth_viewpoints mapNode)])
               ++ [MouseCoordsHandler l mapNode] ++ stock_handlers)
              ((ClickViewpointHandler <$> earth_viewpoints mapNode)
               ++ (if sky_wanted mapNode useSky then [SkySliderHandler]
                   else [])
               ++ (if kml_child mapNode kmlFile is [] then []
                   else flat_map control_handlers
                          (flat_map KMLUIBuilder_child root)))
              ([setCameraManipulator (Some (next w))]
               ++ (if sky_wanted mapNode useSky then [SkyNode_attach a]
                   else [])
               ++ (if Map_isGeocentric mapNode
                      && (sky_wanted mapNode useSky || s_ocean (statics w)
                          || autoclip_wanted mapNode useAutoClip)
                   then [addCullCallback_AutoClipPlaneCallback mapNode]
                   else [])
               ++ [setDoPreCompile true; setSceneData root])
    end.
Proof.
  intros H P.
  destruct (main_scene_spec useAutoClip useSky kmlFile earthNode w P)
    as (w0 & H0 & I0 & _). rewrite H in H0. injection H0 as <-.
  split; [done|].
  pose proof (Inv_manip_created w P) as Im.
  unfold main_scene in H.
  rewrite bind_unfold, new_run in H. unfold assign_s_manip at 1 in H.
  rewrite modify_bind, gets_bind in H. simpl s_manip in H.
  erewrite bind_Ok in H;
    [|apply call_manip_Some; simpl; apply lookup_insert_eq].
  rewrite gets_bind in H. simpl s_manip in H.
  rewrite libcall_bind, addChild_node_bind in H. simpl app in H.
  apply bind_inv in H as (root3 & w3 & H3 & H).
  unfold libcall in H. rewrite !modify_bind in H. injection H as <-.
  match type of H3 with _ ?w0 = _ => set (w2 := w0) in * end.
  assert (I2 : Inv w2).
  { eapply frame_Inv; [apply frame_set_nodeMasks|].
    eapply frame_Inv; [apply frame_set_calls|]. exact Im. }
  assert (L2 : root_live [ChildNode earthNode] w2).
  { intros n n' Hn Hn'. apply list_elem_of_singleton in Hn.
    injection Hn as ->. subst w2. simpl.
    by apply (proj2 (register_nodes_spec _ _)). }
  assert (A2 : adds w w2 [] [] [setCameraManipulator (Some (next w))]).
  { subst w2. constructor; simpl; try done; try by rewrite app_nil_r.
    - unfold canvas_handlers. simpl. by rewrite (pr_canvas _ P).
    - intros n. apply register_nodes_spec. }
  assert (O2 : s_ocean (statics w2) = s_ocean (statics w)) by done.
  assert (S2 : s_sky (statics w2) = None) by apply (pr_sky _ P).
  assert (P2 : s_controlPanel (statics w2) = None)
    by apply (pr_controlPanel _ P).
  clearbody w2.
  destruct (MapNode_findMapNode earthNode) as [mapNode|].
  - destruct (main_mapNode_facts _ _ _ _ _ _ _ _ H3 I2 S2 P2 L2)
      as (I3 & L3 & a & l & R3 & S3 & P3 & A3).
    exists a, l, root3. rewrite O2 in R3, A3.
    split; [exact R3|]. split; [exact L3|]. split; [exact S3|].
    split; [exact P3|].
    pose proof (adds_trans _ _ _ _ _ _ _ _ _ A2 A3) as [E C K N U].
    simpl in E, C. constructor; simpl.
    + rewrite E. unfold stock_handlers. by rewrite <- !app_assoc.
    + exact C.
    + rewrite K. by rewrite <- !app_assoc.
    + exact N.
    + exact U.
  - injection H3 as <- <-. split; [exact L2|]. split; [exact S2|].
    split; [exact P2|].
    destruct A2 as [E C K N U]. constructor; simpl.
    + rewrite E. unfold stock_handlers. by rewrite <- !app_assoc.
    + exact C.
    + rewrite K. by rewrite <- !app_assoc.
    + exact N.
    + exact U.
Qed.

(** ** The world in which the loop starts *)

Lemma loop_entry_built arguments w :
  loop_entry arguments w →
  let o := options_of arguments in
  ∃ earthNode,
    readNodeFiles (opt_arguments o) = Some earthNode
    ∧ Inv w
    ∧ match MapNode_findMapNode earthNode with
      | None =>
          root_live [ChildNode earthNode] w
          ∧ s_sky (statics w) = None
          ∧ s_controlPanel (statics w) = None
          ∧ eventHandlers w = stock_handlers
          ∧ canvas_handlers w = []
          ∧ calls w
            = [ setMinimumNumStencilBits 8;
                setCameraManipulator (Some 1%positive);
                setDoPreCompile true; setSceneData [ChildNode earthNode] ]
      | Some mapNode =>
          ∃ a l root,
            root = [ChildNode earthNode]
                   ++ (if sky_wanted mapNode (opt_sky o) then [ChildSky a]
                       else [])
                   ++ ocean_child mapNode (opt_ocean o)
                   ++ [ChildCanvas] ++ kml_child mapNode (opt_kml o)
            ∧ root_live root w
            ∧ s_sky (statics w)
              = (if sky_wanted mapNode (opt_sky o) then Some a else None)
            ∧ (is_Some (s_controlPanel (statics w))
               ↔ Config_children "viewpoint" (MapNode_externalConfig mapNode)
                 ≠ []
                 ∨ sky_wanted mapNode (opt_sky o) = true)
            ∧ eventHandlers w
              = (if Config_children "viewpoint"
                      (MapNode_externalConfig mapNode) is []
                 then [] else [ViewpointHandler (earth_viewpoints mapNode)])
                ++ [MouseCoordsHandler l mapNode] ++ stock_handlers
            ∧ canvas_handlers w
              = (ClickViewpointHandler <$> earth_viewpoints mapNode)
                ++ (if sky_wanted mapNode (opt_sky o)
                    then [SkySliderHandler] else [])
                ++ (if kml_child mapNode (opt_kml o) is [] then []
                    else flat_map control_handlers
                           (flat_map KMLUIBuilder_child root))
            ∧ calls w
              = [ setMinimumNumStencilBits 8;
                  setCameraManipulator (Some 1%positive) ]
                ++ (if sky_wanted mapNode (opt_sky o)
                    then [SkyNode_attach a] else [])
                ++ (if Map_isGeocentric mapNode
                       && (sky_wanted mapNode (opt_sky o) || opt_ocean o
                           || autoclip_wanted mapNode (opt_autoclip o))
                    then [addCullCallback_AutoClipPlaneCallback mapNode]
                    else [])
                ++ [setDoPreCompile true; setSceneData root]
      end.
Proof.
  intros H o. destruct (loop_entry_inv _ _ H) as (earthNode & Hr & Hs).
  fold o in Hr, Hs. exists earthNode. split; [exact Hr|].
  destruct (main_scene_facts _ _ _ _ _ _ Hs (pristine_options o))
    as [I F]. split; [exact I|].
  destruct (MapNode_findMapNode earthNode) as [mapNode|].
  - destruct F as (a & l & root & R & L & S & P & [E C K N U]).
    exists a, l, root. simpl in *.
    split; [exact R|]. split; [exact L|]. split; [exact S|].
    split; [exact P|]. split; [exact E|]. split; [exact C|]. exact K.
  - destruct F as (L & S & P & [E C K N U]). simpl in *. done.
Qed.

(** X9.  The handlers the viewer holds when its loop starts, in the order
    they are called.  Without a map node in the loaded scene these are the
    five stock handlers of lines 441-445 and no other.  With a map node, the
    stock handlers come last; before them comes the [MouseCoordsHandler],
    whose label is a label control that exists; and before that, only if the
    earth file has a [viewpoint] element, one [ViewpointHandler] that holds
    the viewpoints of the earth file, all of them, in the order of the file. *)
Theorem handlers_registered_at_start arguments earthNode w :
  loop_entry arguments w →
  readNodeFiles (opt_arguments (options_of arguments)) = Some earthNode →
  match MapNode_findMapNode earthNode with
  | None => eventHandlers w = stock_handlers
  | Some mapNode =>
      ∃ l c,
        eventHandlers w
        = (if Config_children "viewpoint" (MapNode_externalConfig mapNode)
             is []
           then []
           else [ViewpointHandler
                   (Viewpoint_of_Config
                      <$> Config_children "viewpoint"
                            (MapNode_externalConfig mapNode))])
          ++ [MouseCoordsHandler l mapNode] ++ stock_handlers
        ∧ heap w !! l = Some (OControl c) ∧ is_label c = true
  end.
Proof.
  intros H Hr. destruct (loop_entry_built _ _ H) as (e' & Hr' & I & F).
  rewrite Hr in Hr'. injection Hr' as <-.
  destruct (MapNode_findMapNode earthNode) as [mapNode|].
  - destruct F as (a & l & root & _ & _ & _ & _ & E & _).
    destruct (inv_labels _ I l mapNode) as (hs & Hs).
    { rewrite E. rewrite !elem_of_app, elem_of_cons. auto. }
    apply heap_shape_control in Hs as (c & Hc & Hl & _).
    by exists l, c.
  - by destruct F as (_ & _ & _ & E & _).
Qed.

(** X10.  The calls [main] has made into the viewer when the loop starts,
    in order.  Always: eight stencil bits are asked for first, the
    manipulator is installed next, and the last two calls switch on
    pre-compilation and hand over the scene.  The sky node is attached only
    for a geocentric map with [--sky] or a [sky] element in the earth file.
    The clip plane callback is added only for a geocentric map, and there
    exactly when the sky was made, or [--ocean] was given, or auto-clip is on:
    [--autoclip], unless the earth file has an [autoclip] element, and then
    what that element says.  The scene handed over holds the earth node, then
    the sky node if made, then the ocean surface if [--ocean] was given for a
    geocentric map and the surface could be loaded, then the canvas, then the
    KML node if [--kml] named a file that could be loaded; without a map node
    it holds the earth node alone, whatever the options. *)
Theorem viewer_calls_at_start arguments earthNode w :
  loop_entry arguments w →
  let o := options_of arguments in
  readNodeFiles (opt_arguments o) = Some earthNode →
  match MapNode_findMapNode earthNode with
  | None =>
      calls w = [ setMinimumNumStencilBits 8;
                  setCameraManipulator (Some 1%positive);
                  setDoPreCompile true; setSceneData [ChildNode earthNode] ]
  | Some mapNode =>
      let sky :=
        Map_isGeocentric mapNode
        && (negb (Config_empty
                    (Config_child "sky" (MapNode_externalConfig mapNode)))
            || opt_sky o) in
      let autoclip :=
        if Config_hasChild "autoclip" (MapNode_externalConfig mapNode)
        then Config_boolValue (opt_autoclip o)
               (Config_child "autoclip" (MapNode_externalConfig mapNode))
        else opt_autoclip o in
      ∃ a,
        s_sky (statics w) = (if sky then Some a else None)
        ∧ calls w
          = [ setMinimumNumStencilBits 8;
              setCameraManipulator (Some 1%positive) ]
            ++ (if sky then [SkyNode_attach a] else [])
            ++ (if Map_isGeocentric mapNode
                   && (sky || opt_ocean o || autoclip)
                then [addCullCallback_AutoClipPlaneCallback mapNode]
                else [])
            ++ [ setDoPreCompile true;
                 setSceneData
                   ([ChildNode earthNode]
                    ++ (if sky then [ChildSky a] else [])
                    ++ (if Map_isGeocentric mapNode && opt_ocean o
                        then option_list
                               (ChildNode
                                  <$> OceanSurface_loadOceanSurface mapNode)
                        else [])
                    ++ [ChildCanvas]
                    ++ (if negb (string_empty (opt_kml o))
                        then option_list
                               (ChildNode <$> KML_load (opt_kml o) mapNode)
                        else [])) ]
  end.
Proof.
  intros H o Hr. destruct (loop_entry_built _ _ H) as (e' & Hr' & I & F).
  fold o in Hr', F. rewrite Hr in Hr'. injection Hr' as <-.
  destruct (MapNode_findMapNode earthNode) as [mapNode|].
  - destruct F as (a & l & root & R & _ & S & _ & _ & _ & K).
    intros sky autoclip. exists a.
    assert (Hsky : sky_wanted mapNode (opt_sky o) = sky) by reflexivity.
    rewrite Hsky in *. split; [exact S|]. rewrite K, R. reflexivity.
  - by destruct F as (_ & _ & _ & _ & _ & K).
Qed.

(** X11.  The handlers on the controls of the canvas when the loop starts,
    in the order of the controls.  Without a map node there is none.  With
    one: first a [ClickViewpointHandler] for each viewpoint of the earth
    file, in the order of the file; then the [SkySliderHandler], exactly when
    the sky node was made; then, if a KML file was given and loaded, the
    handlers of the rows [KMLUIBuilder] makes over the children of the scene
    root.  The label of the mouse coordinates carries no handler. *)
Theorem control_handlers_at_start arguments earthNode w :
  loop_entry arguments w →
  let o := options_of arguments in
  readNodeFiles (opt_arguments o) = Some earthNode →
  match MapNode_findMapNode earthNode with
  | None => canvas_handlers w = [] ∧ canvas w = []
  | Some mapNode =>
      ∃ root,
        setSceneData root ∈ calls w
        ∧ canvas_handlers w
          = (ClickViewpointHandler
               <$> (Viewpoint_of_Config
                      <$> Config_children "viewpoint"
                            (MapNode_externalConfig mapNode)))
            ++ (if s_sky (statics w) is Some _ then [SkySliderHandler]
                else [])
            ++ (if negb (string_empty (opt_kml o))
                then match KML_load (opt_kml o) mapNode with
                     | Some _ =>
                         flat_map control_handlers
                           (flat_map KMLUIBuilder_child root)
                     | None => []
                     end
                else [])
  end.
Proof.
  intros H o Hr. destruct (loop_entry_built _ _ H) as (e' & Hr' & I & F).
  fold o in Hr', F. rewrite Hr in Hr'. injection Hr' as <-.
  destruct (loop_entry_inv _ _ H) as (e' & Hr' & Hs). fold o in Hr', Hs.
  rewrite Hr in Hr'. injection Hr' as <-.
  destruct (MapNode_findMapNode earthNode) as [mapNode|] eqn:Hm.
  - destruct F as (a & l & root & R & _ & S & _ & _ & C & K).
    exists root. split.
    { rewrite K, !elem_of_app, !elem_of_cons. auto 10. }
    rewrite C, S. unfold earth_viewpoints, kml_child.
    f_equal. f_equal; [by destruct (sky_wanted _ _)|].
    destruct (negb (string_empty (opt_kml o))); [|done].
    by destruct (KML_load (opt_kml o) mapNode).
  - destruct F as (_ & _ & _ & _ & C & _). split; [exact C|].
    by destruct (main_scene_no_mapNode _ _ _ _ _ _ Hm Hs).
Qed.

(** ** The session *)

Lemma reachable_quiet arguments w :
  reachable arguments w →
  ∃ w0, loop_entry arguments w0 ∧ quiet w0 w.
Proof.
  induction 1 as [w H|w e w' _ (w0 & H0 & Q) He].
  - exists w. split; [done|apply quiet_refl].
  - exists w0. split; [done|]. eapply quiet_trans; [exact Q|].
    by eapply quiet_process.
Qed.

(** X12.  Every check box of the KML list works throughout the session.  In
    every state a session passes through, a [ToggleNodeHandler] on the
    canvas is there only because a KML file was given and loaded; the node
    it holds is a node of the scene handed to the viewer, so that the
    observer pointer is still valid; and a change of the check box gives the
    node the mask [0xFFFFFFFF] or [0]. *)
Theorem check_boxes_toggle_scene_nodes arguments w _node :
  reachable arguments w →
  ToggleNodeHandler _node ∈ canvas_handlers w →
  let o := options_of arguments in
  (∃ earthNode mapNode kml,
     readNodeFiles (opt_arguments o) = Some earthNode
     ∧ MapNode_findMapNode earthNode = Some mapNode
     ∧ string_empty (opt_kml o) = false
     ∧ KML_load (opt_kml o) mapNode = Some kml)
  ∧ is_Some (nodeMasks w !! _node)
  ∧ ∀ value, ∃ w',
      ControlEventHandler_fire (ToggleNodeHandler _node) (BoolChanged value) w
      = Ok (tt, w')
      ∧ nodeMasks w' !! _node = Some (if value then 4294967295 else 0).
Proof.
  intros Hreach Hin o.
  destruct (reachable_quiet _ _ Hreach) as (w0 & H0 & [F _ N _]).
  rewrite (canvas_handlers_frame _ _ F) in Hin.
  destruct (loop_entry_built _ _ H0) as (earthNode & Hr & I & B).
  fold o in Hr, B.
  assert (G : (∃ mapNode kml,
                 MapNode_findMapNode earthNode = Some mapNode
                 ∧ string_empty (opt_kml o) = false
                 ∧ KML_load (opt_kml o) mapNode = Some kml)
              ∧ is_Some (nodeMasks w0 !! _node)).
  { destruct (MapNode_findMapNode earthNode) as [mapNode|].
    2:{ destruct B as (_ & _ & _ & _ & C & _). rewrite C in Hin.
        by apply elem_of_nil in Hin. }
    destruct B as (a & l & root & R & L & S & _ & E & C & K).
    rewrite C, !elem_of_app in Hin. destruct Hin as [Hin|[Hin|Hin]].
    { apply list_elem_of_fmap in Hin as (vp & [=] & _). }
    { destruct (sky_wanted _ _);
        [by apply list_elem_of_singleton in Hin|by apply elem_of_nil in Hin]. }
    unfold kml_child in Hin.
    destruct (string_empty (opt_kml o)) eqn:He,
      (KML_load (opt_kml o) mapNode) as [kml|] eqn:Hk;
      cbn [negb fmap option_fmap option_map option_list] in Hin;
      try by apply elem_of_nil in Hin.
    split; [by exists mapNode, kml|].
    rewrite flat_map_flat_map in Hin.
    apply elem_of_flat_map in Hin as (child & Hchild & Hin).
    destruct child as [n|p|]; simpl in Hin;
      try by apply elem_of_nil in Hin.
    apply Node_accept_toggle_iff in Hin as (n' & Hn' & _ & <-).
    apply Node_visited_subtree in Hn' as [Hn' _]. by eapply L. }
  destruct G as ((mapNode & kml & Hm & He & Hk) & Hlive).
  split; [by exists earthNode, mapNode, kml|].
  apply N in Hlive. split; [exact Hlive|].
  intros value. eexists. split.
  - simpl. apply ToggleNodeHandler_run.
  - destruct Hlive as [m ->]. simpl. apply lookup_insert_eq.
Qed.

Lemma ViewpointHandler_handle_select vps i vp ea w a m :
  getEventType ea = KEYDOWN →
  getKey ea = char_1 + Z.of_nat i →
  Z.of_nat (length vps) <= int_max →
  vps !! i = Some vp →
  s_manip (statics w) = Some a → heap w !! a = Some (OManip m) →
  ViewpointHandler_handle vps ea w
  = Ok (false,
        set_heap (insert a (OManip
                    (EarthManipulator_setViewpoint vp 4.5%float m))) w).
Proof.
  intros Hty Hkey Hmax Hvp Ha Hm.
  assert (Hi : (i < length vps)%nat) by (by eapply lookup_lt_Some).
  unfold ViewpointHandler_handle. rewrite Hty, Hkey. cbn [EventType_eqb].
  replace (char_1 + Z.of_nat i - char_1) with (Z.of_nat i) by lia.
  rewrite (to_int_id (Z.of_nat i))
    by (unfold is_int, int_min, int_max in *; lia).
  rewrite (to_int_id (Z.of_nat (length vps)))
    by (unfold is_int, int_min, int_max in *; lia).
  replace (0 <=? Z.of_nat i) with true by (symmetry; apply Z.leb_le; lia).
  replace (Z.of_nat i <? Z.of_nat (length vps)) with true
    by (symmetry; apply Z.ltb_lt; lia).
  cbn [andb]. rewrite Nat2Z.id, Hvp, bind_unfold, gets_bind, Ha.
  by rewrite (call_manip_Some _ _ _ _ Hm).
Qed.

(** X13.  The digit keys and the earth file.  At any point of a session on a
    scene with a map node, a KEYDOWN with key ['1' + i] delivered by the
    viewer, where the earth file has a [viewpoint] element at index [i] (and
    no more such elements than an [int] can count), ends with
    [setViewpoint] called on the manipulator for the viewpoint made from that
    element, with duration 4.5, and with nothing else changed: the handlers
    that see the event after the [ViewpointHandler] leave it alone. *)
Theorem digit_key_selects_earth_file_viewpoint arguments earthNode mapNode
    w ea i conf :
  reachable arguments w →
  readNodeFiles (opt_arguments (options_of arguments)) = Some earthNode →
  MapNode_findMapNode earthNode = Some mapNode →
  Config_children "viewpoint" (MapNode_externalConfig mapNode) !! i
  = Some conf →
  Z.of_nat (length (Config_children "viewpoint"
                      (MapNode_externalConfig mapNode))) <= int_max →
  getEventType ea = KEYDOWN →
  getKey ea = char_1 + Z.of_nat i →
  ∃ a m,
    s_manip (statics w) = Some a ∧ heap w !! a = Some (OManip m)
    ∧ process (GUIEvent ea) w
      = Ok (tt,
            set_heap (insert a (OManip
                        (EarthManipulator_setViewpoint
                           (Viewpoint_of_Config conf) 4.5%float m))) w).
Proof.
  intros Hreach Hr Hm Hconf Hmax Hty Hkey.
  destruct (reachable_quiet _ _ Hreach) as (w0 & H0 & [F _ _ _]).
  destruct (reachable_facts _ _ Hreach) as [I _].
  destruct (Inv_manip_obj _ I) as (a & m & Ha & Hma).
  exists a, m. split; [exact Ha|]. split; [exact Hma|].
  destruct (loop_entry_built _ _ H0) as (e' & Hr' & _ & B).
  rewrite Hr in Hr'. injection Hr' as <-. rewrite Hm in B.
  destruct B as (_ & l & _ & _ & _ & _ & _ & E & _).
  simpl. rewrite gets_bind, (fr_eventHandlers _ _ F), E.
  destruct (Config_children "viewpoint" (MapNode_externalConfig mapNode))
    as [|c cs] eqn:Hch; [done|]. rewrite <- Hch in *.
  assert (Hvp : earth_viewpoints mapNode !! i = Some (Viewpoint_of_Config conf)).
  { unfold earth_viewpoints. by rewrite list_lookup_fmap, Hconf. }
  assert (Hlen : Z.of_nat (length (earth_viewpoints mapNode)) <= int_max).
  { unfold earth_viewpoints. by rewrite length_fmap. }
  cbn [app dispatch GUIEventHandler_handle stock_handlers].
  rewrite bind_unfold.
  rewrite (ViewpointHandler_handle_select _ _ _ _ _ _ _
             Hty Hkey Hlen Hvp Ha Hma).
  rewrite bind_unfold.
  assert (Hmouse : ∀ w1, MouseCoordsHandler_handle l mapNode ea w1
                         = Ok (false, w1)).
  { intros w1. unfold MouseCoordsHandler_handle. by rewrite Hty. }
  rewrite Hmouse. reflexivity.
Qed.

Lemma dispatch_stock_handlers ea w :
  dispatch stock_handlers ea w = Ok (tt, w).
Proof. reflexivity. Qed.

(** X15.  At most one handler acts on an event.  At any point of a session
    on a scene with a map node, an event the viewer delivers has the effect
    of one handler of the file, or none: of the [ViewpointHandler] for a
    KEYDOWN, if the earth file has a viewpoint; of the [MouseCoordsHandler]
    for a MOVE or a DRAG; of none for an event of any other type.  So a key
    never touches the label of the mouse coordinates, and the mouse never
    moves the camera. *)
Theorem one_handler_per_event arguments earthNode mapNode w ea :
  reachable arguments w →
  readNodeFiles (opt_arguments (options_of arguments)) = Some earthNode →
  MapNode_findMapNode earthNode = Some mapNode →
  ∃ l,
    MouseCoordsHandler l mapNode ∈ eventHandlers w
    ∧ process (GUIEvent ea) w
      = match getEventType ea with
        | KEYDOWN =>
            match Config_children "viewpoint"
                    (MapNode_externalConfig mapNode) with
            | [] => Ok (tt, w)
            | children =>
                (ViewpointHandler_handle (Viewpoint_of_Config <$> children) ea;;
                 mret tt) w
            end
        | MOVE | DRAG => (MouseCoordsHandler_handle l mapNode ea;; mret tt) w
        | _ => Ok (tt, w)
        end.
Proof.
  intros Hreach Hr Hm.
  destruct (reachable_quiet _ _ Hreach) as (w0 & H0 & [F _ _ _]).
  destruct (loop_entry_built _ _ H0) as (e' & Hr' & _ & B).
  rewrite Hr in Hr'. injection Hr' as <-. rewrite Hm in B.
  destruct B as (_ & l & _ & _ & _ & _ & _ & E & _).
  exists l. rewrite (fr_eventHandlers _ _ F), E. split.
  { rewrite !elem_of_app, elem_of_cons. auto. }
  simpl process. rewrite gets_bind, (fr_eventHandlers _ _ F), E.
  unfold earth_viewpoints.
  assert (Hmouse : ∀ w1,
            (getEventType ea ≠ MOVE ∧ getEventType ea ≠ DRAG) →
            dispatch ([MouseCoordsHandler l mapNode] ++ stock_handlers) ea w1
            = Ok (tt, w1)).
  { intros w1 [H1 H2]. cbn [app dispatch GUIEventHandler_handle].
    rewrite bind_unfold.
    assert (MouseCoordsHandler_handle l mapNode ea w1 = Ok (false, w1)) as ->.
    { unfold MouseCoordsHandler_handle. by destruct (getEventType ea). }
    reflexivity. }
  assert (Hkey : ∀ vps w1, getEventType ea ≠ KEYDOWN →
            ViewpointHandler_handle vps ea w1 = Ok (false, w1)).
  { intros vps w1 H1. unfold ViewpointHandler_handle.
    by destruct (getEventType ea). }
  assert (Hpoint :
    dispatch ([MouseCoordsHandler l mapNode] ++ stock_handlers) ea w
    = (MouseCoordsHandler_handle l mapNode ea;; mret tt) w).
  { cbn [app dispatch GUIEventHandler_handle]. rewrite !bind_unfold.
    by destruct (MouseCoordsHandler_handle l mapNode ea w) as [[b w1]|]. }
  destruct (Config_children "viewpoint" (MapNode_externalConfig mapNode))
    as [|c cs].
  - cbn [app]. destruct (getEventType ea) eqn:Hty;
      try (apply Hmouse; by split); exact Hpoint.
  - change (([ViewpointHandler (Viewpoint_of_Config <$> c :: cs)]
             ++ [MouseCoordsHandler l mapNode] ++ stock_handlers))
      with (ViewpointHandler (Viewpoint_of_Config <$> c :: cs)
              :: ([MouseCoordsHandler l mapNode] ++ stock_handlers)).
    cbn [dispatch GUIEventHandler_handle]. rewrite bind_unfold.
    destruct (getEventType ea) eqn:Hty;
      try (rewrite Hkey by done; cbv beta iota;
           first [ apply Hmouse; by split | exact Hpoint ]).
    rewrite bind_unfold.
    destruct (ViewpointHandler_handle _ ea w) as [[b w1]|]; [|done].
    apply Hmouse. by split.
Qed.

(** X14.  The control panel and the sky node exist exactly when start-up had
    a reason to make them, and this never changes during the session.
    Without a map node there is neither.  With a map node, the sky node
    exists exactly for a geocentric map for which [--sky] was given or whose
    earth file has a non-empty [sky] element; and [s_controlPanel] is
    non-null exactly when the earth file has a viewpoint or the sky node
    exists. *)
Theorem control_panel_exists_when_needed arguments earthNode w :
  reachable arguments w →
  let o := options_of arguments in
  readNodeFiles (opt_arguments o) = Some earthNode →
  match MapNode_findMapNode earthNode with
  | None => s_controlPanel (statics w) = None ∧ s_sky (statics w) = None
  | Some mapNode =>
      let externals := MapNode_externalConfig mapNode in
      (is_Some (s_sky (statics w))
       ↔ Map_isGeocentric mapNode = true
         ∧ (Config_empty (Config_child "sky" externals) = false
            ∨ opt_sky o = true))
      ∧ (is_Some (s_controlPanel (statics w))
         ↔ Config_children "viewpoint" externals ≠ []
           ∨ is_Some (s_sky (statics w)))
  end.
Proof.
  intros Hreach o Hr.
  destruct (reachable_quiet _ _ Hreach) as (w0 & H0 & [F _ _ _]).
  rewrite (fr_statics _ _ F).
  destruct (loop_entry_built _ _ H0) as (e' & Hr' & _ & B).
  fold o in Hr', B. rewrite Hr in Hr'. injection Hr' as <-.
  destruct (MapNode_findMapNode earthNode) as [mapNode|].
  - destruct B as (a & _ & _ & _ & _ & S & P & _). intros externals.
    assert (Hsky : is_Some (s_sky (statics w0))
                   ↔ sky_wanted mapNode (opt_sky o) = true).
    { rewrite S. destruct (sky_wanted mapNode (opt_sky o)).
      - split; eauto.
      - split; [by intros [? ?]|done]. }
    split; [|by rewrite P, Hsky].
    rewrite Hsky. unfold sky_wanted. fold externals.
    rewrite andb_true_iff.
    destruct (Config_empty (Config_child "sky" externals)); simpl;
      split; intros [Hg Hx]; (split; [exact Hg|]);
      first [done | by left | by right | by destruct Hx].
  - by destruct B as (_ & S & P & _).
Qed.

End Startup.

(** * The keys ['?'] and ['v'], and the options, in a session *)

Section Session.
Context `{TK : Toolkit}.

(** What the viewer's handlers do with a KEYDOWN, at any point of a session:
    the [ViewpointHandler] acts, if one is registered, and no other. *)
Lemma process_keydown arguments earthNode w ea :
  reachable arguments w →
  readNodeFiles (opt_arguments (options_of arguments)) = Some earthNode →
  getEventType ea = KEYDOWN →
  process (GUIEvent ea) w
  = match loaded_viewpoints earthNode with
    | [] => Ok (tt, w)
    | children =>
        (ViewpointHandler_handle (Viewpoint_of_Config <$> children) ea;;
         mret tt) w
    end.
Proof.
  intros Hreach Hr Hty.
  destruct (reachable_quiet _ _ Hreach) as (w0 & H0 & [F _ _ _]).
  destruct (loop_entry_built _ _ H0) as (e' & Hr' & _ & B).
  rewrite Hr in Hr'. injection Hr' as <-.
  simpl process. rewrite gets_bind, (fr_eventHandlers _ _ F).
  unfold loaded_viewpoints.
  destruct (MapNode_findMapNode earthNode) as [mapNode|].
  2:{ destruct B as (_ & _ & _ & E & _). by rewrite E. }
  destruct B as (_ & l & _ & _ & _ & _ & _ & E & _). rewrite E.
  unfold earth_viewpoints.
  assert (Hmouse : ∀ w1,
            dispatch ([MouseCoordsHandler l mapNode] ++ stock_handlers) ea w1
            = Ok (tt, w1)).
  { intros w1. cbn [app dispatch GUIEventHandler_handle].
    rewrite bind_unfold.
    assert (MouseCoordsHandler_handle l mapNode ea w1 = Ok (false, w1)) as ->.
    { unfold MouseCoordsHandler_handle. by rewrite Hty. }
    reflexivity. }
  destruct (Config_children "viewpoint" (MapNode_externalConfig mapNode))
    as [|c cs].
  - apply Hmouse.
  - change (([ViewpointHandler (Viewpoint_of_Config <$> c :: cs)]
             ++ [MouseCoordsHandler l mapNode] ++ stock_handlers))
      with (ViewpointHandler (Viewpoint_of_Config <$> c :: cs)
              :: ([MouseCoordsHandler l mapNode] ++ stock_handlers)).
    cbn [dispatch GUIEventHandler_handle]. rewrite !bind_unfold.
    destruct (ViewpointHandler_handle _ ea w) as [[b w1]|]; [|done].
    apply Hmouse.
Qed.

(** Where a viewpoint was loaded, the control panel exists. *)
Lemma loaded_viewpoints_panel arguments earthNode w :
  reachable arguments w →
  readNodeFiles (opt_arguments (options_of arguments)) = Some earthNode →
  loaded_viewpoints earthNode ≠ [] →
  ∃ p c, s_controlPanel (statics w) = Some p
         ∧ heap w !! p = Some (OControl c).
Proof.
  intros Hreach Hr Hne.
  destruct (reachable_quiet _ _ Hreach) as (w0 & H0 & [F _ _ _]).
  destruct (reachable_facts _ _ Hreach) as [I _].
  destruct (loop_entry_built _ _ H0) as (e' & Hr' & _ & B).
  rewrite Hr in Hr'. injection Hr' as <-.
  unfold loaded_viewpoints in Hne.
  destruct (MapNode_findMapNode earthNode) as [mapNode|]; [|done].
  destruct B as (_ & _ & _ & _ & _ & _ & P & _).
  destruct (proj2 P (or_introl Hne)) as [p Hp].
  rewrite <- (fr_statics _ _ F) in Hp. exists p.
  destruct (inv_panel _ I p Hp) as (b & hs & Hs).
  apply heap_shape_control in Hs as (c & Hc & _). by exists c.
Qed.

(** C4, as the code has it.  At any point of a session, for a KEYDOWN with
    key ['?'] that the viewer delivers: if at least one and fewer than
    fifteen viewpoints were loaded, the control panel exists, its visibility
    becomes the negation of what it was and nothing else in the program's
    state changes, and a second ['?'] gives back the very state before the
    first; if no viewpoint was loaded (no map node among them), no
    [ViewpointHandler] is registered and the key changes nothing, whether
    the panel exists or not. *)
Theorem question_mark_toggles_control_panel arguments earthNode w ea :
  reachable arguments w →
  readNodeFiles (opt_arguments (options_of arguments)) = Some earthNode →
  getEventType ea = KEYDOWN →
  getKey ea = char_question →
  let n := length (loaded_viewpoints earthNode) in
  ((0 < n < 15)%nat →
   ∃ p c w',
     s_controlPanel (statics w) = Some p
     ∧ heap w !! p = Some (OControl c)
     ∧ process (GUIEvent ea) w = Ok (tt, w')
     ∧ w' = set_heap (insert p (OControl
                        (mkControl (control_kind c) (negb (control_visible c))
                           (control_own_handlers c) (control_children c)))) w
     ∧ process (GUIEvent ea) w' = Ok (tt, w))
  ∧ (n = 0%nat → process (GUIEvent ea) w = Ok (tt, w)).
Proof.
  intros Hreach Hr Hty Hkey n. subst n.
  pose proof (process_keydown _ _ _ _ Hreach Hr Hty) as Hp.
  split.
  - intros Hn.
    destruct (loaded_viewpoints earthNode) as [|c0 cs] eqn:Hch;
      [simpl in Hn; lia|].
    destruct (loaded_viewpoints_panel _ _ _ Hreach Hr) as (p & c & Hpan & Hc).
    { by rewrite Hch. }
    destruct (ViewpointHandler_handle_toggles
                (Viewpoint_of_Config <$> c0 :: cs) ea w p c Hty Hkey)
      as (w' & H1 & Hw' & H2); [rewrite length_fmap; lia|done|done|].
    assert (Hp1 : process (GUIEvent ea) w = Ok (tt, w')).
    { rewrite Hp, bind_unfold, H1. reflexivity. }
    exists p, c, w'. split; [done|]. split; [done|]. split; [done|].
    split; [done|].
    rewrite (process_keydown _ _ _ _
               (reachable_event _ _ _ _ Hreach Hp1) Hr Hty), Hch.
    rewrite bind_unfold, H2. reflexivity.
  - intros Hn. destruct (loaded_viewpoints earthNode); [done|discriminate Hn].
Qed.

(** C5, as the code has it.  At any point of a session, for a KEYDOWN with
    key ['v'] that the viewer delivers: if at least one and fewer than
    seventy viewpoints were loaded, the XML of the configuration of the
    manipulator's current viewpoint and a newline are appended to
    [std::cout], and nothing else changes: not the manipulator, not any other
    object or variable; if no viewpoint was loaded (no map node among them),
    no [ViewpointHandler] is registered and nothing is printed. *)
Theorem v_prints_current_viewpoint arguments earthNode w ea :
  reachable arguments w →
  readNodeFiles (opt_arguments (options_of arguments)) = Some earthNode →
  getEventType ea = KEYDOWN →
  getKey ea = char_v →
  let n := length (loaded_viewpoints earthNode) in
  ((0 < n < 70)%nat →
   ∃ a m,
     s_manip (statics w) = Some a
     ∧ heap w !! a = Some (OManip m)
     ∧ process (GUIEvent ea) w
       = Ok (tt,
             set_cout (λ out,
               (out +:+ XmlDocument_store
                          (Viewpoint_getConfig
                             (EarthManipulator_getViewpoint m)))
               +:+ endl) w))
  ∧ (n = 0%nat → process (GUIEvent ea) w = Ok (tt, w)).
Proof.
  intros Hreach Hr Hty Hkey n. subst n.
  pose proof (process_keydown _ _ _ _ Hreach Hr Hty) as Hp.
  split.
  - intros Hn.
    destruct (loaded_viewpoints earthNode) as [|c0 cs] eqn:Hch;
      [simpl in Hn; lia|].
    destruct (reachable_facts _ _ Hreach) as [I _].
    destruct (Inv_manip_obj _ I) as (a & m & Ha & Hm).
    exists a, m. split; [done|]. split; [done|].
    rewrite Hp, bind_unfold.
    rewrite (ViewpointHandler_handle_prints
               (Viewpoint_of_Config <$> c0 :: cs) ea w a m Hty Hkey);
      [reflexivity|rewrite length_fmap; lia|done|done].
  - intros Hn. destruct (loaded_viewpoints earthNode); [done|discriminate Hn].
Qed.




End Session.

(** * The theorems at work on the concrete toolkit *)

#[local] Existing Instance Demo.toolkit.

(** Closed equations, left to the virtual machine. *)
Ltac by_vm :=
  match goal with |- _ = ?b => vm_cast_no_check (@eq_refl _ b) end.

(** Closed comparisons of integers. *)
Ltac closed_arith :=
  cbv; repeat split; first [reflexivity | discriminate | intros [] ].

Lemma globe_entry_loop_entry : loop_entry Demo.globe_args Demo.globe_entry.
Proof.
  eapply (loop_entry_intro (TK := Demo.toolkit)); [reflexivity|].
  vm_cast_no_check (eq_refl (Ok (tt, Demo.globe_entry))).
Qed.

Lemma flat_entry_loop_entry : loop_entry Demo.flat_args Demo.flat_entry.
Proof.
  eapply (loop_entry_intro (TK := Demo.toolkit)); [reflexivity|].
  vm_cast_no_check (eq_refl (Ok (tt, Demo.flat_entry))).
Qed.

Lemma fifteen_entry_loop_entry :
  loop_entry Demo.fifteen_args Demo.fifteen_entry.
Proof.
  eapply (loop_entry_intro (TK := Demo.toolkit)); [reflexivity|].
  vm_cast_no_check (eq_refl (Ok (tt, Demo.fifteen_entry))).
Qed.

Lemma seventy_entry_loop_entry :
  loop_entry Demo.seventy_args Demo.seventy_entry.
Proof.
  eapply (loop_entry_intro (TK := Demo.toolkit)); [reflexivity|].
  vm_cast_no_check (eq_refl (Ok (tt, Demo.seventy_entry))).
Qed.

Lemma plain_sky_entry_loop_entry :
  loop_entry Demo.plain_sky_args Demo.plain_sky_entry.
Proof.
  eapply (loop_entry_intro (TK := Demo.toolkit)); [reflexivity|].
  vm_cast_no_check (eq_refl (Ok (tt, Demo.plain_sky_entry))).
Qed.


(** C2 on the globe: key ['2'] sends the camera to the second viewpoint;
    keys ['0'] and ['3'] change nothing. *)
Lemma ViewpointHandler_selects_viewpoint_witness :
  getEventType (Demo.key_down 50) = KEYDOWN
  ∧ Z.of_nat (length Demo.globe_viewpoints) <= int_max
  ∧ 0 <= getKey (Demo.key_down 50) - char_1
      < Z.of_nat (length Demo.globe_viewpoints)
  ∧ s_manip (statics Demo.globe_entry) = Some 1%positive
  ∧ heap Demo.globe_entry !! 1%positive = Some (OManip Demo.manip_at_start)
  ∧ ViewpointHandler_handle Demo.globe_viewpoints (Demo.key_down 50)
      Demo.globe_entry
    = Ok (false,
          set_heap (insert 1%positive
                      (OManip (Demo.manip_on (Demo.viewpoint_conf "Alps"))))
            Demo.globe_entry)
  ∧ ViewpointHandler_handle Demo.globe_viewpoints (Demo.key_down 48)
      Demo.globe_entry = Ok (false, Demo.globe_entry)
  ∧ ViewpointHandler_handle Demo.globe_viewpoints (Demo.key_down 51)
      Demo.globe_entry = Ok (false, Demo.globe_entry).
Proof.
  assert (H1 : getEventType (Demo.key_down 50) = KEYDOWN) by reflexivity.
  assert (H2 : Z.of_nat (length Demo.globe_viewpoints) <= int_max)
    by closed_arith.
  assert (H3 : 0 <= getKey (Demo.key_down 50) - char_1
               < Z.of_nat (length Demo.globe_viewpoints))
    by closed_arith.
  assert (H4 : s_manip (statics Demo.globe_entry) = Some 1%positive)
    by reflexivity.
  assert (H5 : heap Demo.globe_entry !! 1%positive
               = Some (OManip Demo.manip_at_start)) by reflexivity.
  do 5 (split; [assumption|]).
  split; [|split].
  - destruct (proj1 (ViewpointHandler_selects_viewpoint (TK := Demo.toolkit)
                       Demo.globe_viewpoints (Demo.key_down 50)
                       Demo.globe_entry) H1 H2 H3 _ _ H4 H5)
      as (vp & Hvp & Hrun).
    injection Hvp as <-. exact Hrun.
  - apply (proj2 (ViewpointHandler_selects_viewpoint (TK := Demo.toolkit)
                    Demo.globe_viewpoints (Demo.key_down 48)
                    Demo.globe_entry)).
    + closed_arith.
    + cbv. intros [H _]. by apply H.
  - apply (proj2 (ViewpointHandler_selects_viewpoint (TK := Demo.toolkit)
                    Demo.globe_viewpoints (Demo.key_down 51)
                    Demo.globe_entry)).
    + closed_arith.
    + cbv. intros [_ H]. discriminate H.
Defined.

(** C3 on the globe: the loop starts with a [ViewpointHandler] registered,
    and the control panel it toggles is there. *)
Lemma registered_handlers_find_their_objects_witness :
  reachable Demo.globe_args Demo.globe_entry
  ∧ ViewpointHandler Demo.globe_viewpoints ∈ eventHandlers Demo.globe_entry
  ∧ ∃ p c, s_controlPanel (statics Demo.globe_entry) = Some p
           ∧ heap Demo.globe_entry !! p = Some (OControl c).
Proof.
  assert (R : reachable Demo.globe_args Demo.globe_entry)
    by (apply reachable_entry, globe_entry_loop_entry).
  assert (Hin : ViewpointHandler Demo.globe_viewpoints
                ∈ eventHandlers Demo.globe_entry) by left.
  split; [exact R|]. split; [exact Hin|].
  destruct (registered_handlers_find_their_objects (TK := Demo.toolkit) _ _ R)
    as (_ & _ & Hpanel & _).
  exact (Hpanel _ Hin).
Defined.

(** The handlers test no pointer: called where the control panel, or the sky
    node, is still null, they go through the null pointer. *)
Lemma handlers_test_no_pointer :
  ViewpointHandler_handle (TK := Demo.toolkit) []
    (Demo.key_down char_question) initial_world = Crash NullDeref
  ∧ s_controlPanel (statics (initial_world (TK := Demo.toolkit))) = None
  ∧ ControlEventHandler_fire (TK := Demo.toolkit) SkySliderHandler
      (FloatChanged 12.0%float) initial_world = Crash NullDeref
  ∧ s_sky (statics (initial_world (TK := Demo.toolkit))) = None.
Proof. repeat split; vm_compute; reflexivity. Qed.

(** C4 on the globe (two viewpoints): ['?'] hides the panel, ['?'] again
    gives back the world before.  On the plain globe started with [--sky],
    which has a panel for the sky slider but no viewpoint, ['?'] changes
    nothing. *)
Lemma question_mark_toggles_control_panel_witness :
  (reachable Demo.globe_args Demo.globe_entry
   ∧ readNodeFiles (opt_arguments (options_of Demo.globe_args))
     = Some (mkNode 1%positive 1 None [])
   ∧ getEventType (Demo.key_down char_question) = KEYDOWN
   ∧ getKey (Demo.key_down char_question) = char_question
   ∧ (0 < length (loaded_viewpoints (mkNode 1%positive 1 None [])) < 15)%nat
   ∧ s_controlPanel (statics Demo.globe_entry) = Some 3%positive
   ∧ heap Demo.globe_entry !! 3%positive = Some (OControl Demo.globe_panel)
   ∧ control_visible Demo.globe_panel = true
   ∧ ∃ w',
       process (GUIEvent (Demo.key_down char_question)) Demo.globe_entry
       = Ok (tt, w')
       ∧ heap w' !! 3%positive
         = Some (OControl (setVisible false Demo.globe_panel))
       ∧ process (GUIEvent (Demo.key_down char_question)) w'
         = Ok (tt, Demo.globe_entry))
  ∧ (reachable Demo.plain_sky_args Demo.plain_sky_entry
     ∧ readNodeFiles (opt_arguments (options_of Demo.plain_sky_args))
       = Some (mkNode 5%positive 1 None [])
     ∧ length (loaded_viewpoints (mkNode 5%positive 1 None [])) = 0%nat
     ∧ s_controlPanel (statics Demo.plain_sky_entry) = Some 3%positive
     ∧ process (GUIEvent (Demo.key_down char_question)) Demo.plain_sky_entry
       = Ok (tt, Demo.plain_sky_entry)).
Proof.
  assert (H1 : getEventType (Demo.key_down char_question) = KEYDOWN)
    by reflexivity.
  assert (H2 : getKey (Demo.key_down char_question) = char_question)
    by reflexivity.
  split.
  - assert (R : reachable Demo.globe_args Demo.globe_entry)
      by (apply reachable_entry, globe_entry_loop_entry).
    assert (F : readNodeFiles (opt_arguments (options_of Demo.globe_args))
                = Some (mkNode 1%positive 1 None [])) by reflexivity.
    assert (L : length (loaded_viewpoints (mkNode 1%positive 1 None []))
                = 2%nat) by reflexivity.
    assert (N : (0 < length (loaded_viewpoints (mkNode 1%positive 1 None []))
                 < 15)%nat) by (rewrite L; lia).
    do 5 (split; [assumption|]).
    split; [reflexivity|]. split; [reflexivity|]. split; [reflexivity|].
    destruct (proj1 (question_mark_toggles_control_panel (TK := Demo.toolkit)
                       Demo.globe_args (mkNode 1%positive 1 None [])
                       Demo.globe_entry (Demo.key_down char_question)
                       R F H1 H2) N)
      as (p & c & w' & Hp & Hc & Hrun & Hw' & Hback).
    change (Some 3%positive = Some p) in Hp. injection Hp as <-.
    change (Some (OControl Demo.globe_panel) = Some (OControl c)) in Hc.
    injection Hc as <-.
    exists w'. split; [exact Hrun|]. split; [|exact Hback].
    rewrite Hw'. apply lookup_insert_eq.
  - assert (R : reachable Demo.plain_sky_args Demo.plain_sky_entry)
      by (apply reachable_entry, plain_sky_entry_loop_entry).
    assert (F : readNodeFiles (opt_arguments (options_of Demo.plain_sky_args))
                = Some (mkNode 5%positive 1 None [])) by reflexivity.
    assert (L : length (loaded_viewpoints (mkNode 5%positive 1 None []))
                = 0%nat) by reflexivity.
    do 3 (split; [assumption|]). split; [reflexivity|].
    exact (proj2 (question_mark_toggles_control_panel (TK := Demo.toolkit)
                    Demo.plain_sky_args (mkNode 5%positive 1 None [])
                    Demo.plain_sky_entry (Demo.key_down char_question)
                    R F H1 H2) L).
Defined.

(** With fifteen viewpoints in the earth file, ['?'] is within the range of
    the viewpoint keys: the loop starts with the handler registered and the
    panel visible, and the key leaves the panel as it is and sends the camera
    to the fifteenth viewpoint. *)
Lemma question_mark_with_fifteen_viewpoints :
  loop_entry Demo.fifteen_args Demo.fifteen_entry
  ∧ eventHandlers Demo.fifteen_entry !! 0%nat
    = Some (ViewpointHandler Demo.fifteen_viewpoints)
  ∧ s_controlPanel (statics Demo.fifteen_entry) = Some 2%positive
  ∧ heap Demo.fifteen_entry !! 2%positive
    = Some (OControl Demo.fifteen_panel)
  ∧ control_visible Demo.fifteen_panel = true
  ∧ heap Demo.fifteen_entry !! 1%positive = Some (OManip Demo.manip_at_start)
  ∧ ViewpointHandler_handle Demo.fifteen_viewpoints
      (Demo.key_down char_question) Demo.fifteen_entry
    = Ok (false, Demo.fifteen_after)
  ∧ heap Demo.fifteen_after !! 2%positive
    = Some (OControl Demo.fifteen_panel)
  ∧ heap Demo.fifteen_after !! 1%positive
    = Some (OManip (Demo.manip_on (Demo.viewpoint_conf "")))
  ∧ run_program Demo.fifteen_args
      {| events := [GUIEvent (Demo.key_down char_question)];
         exitStatus := 0 |} = Ok (0, Demo.fifteen_after).
Proof.
  split; [apply fifteen_entry_loop_entry|]. repeat split; by_vm.
Qed.

(** C5 on the globe: ['v'] prints the viewpoint the camera starts at.  On
    the plain globe, which has no viewpoint, ['v'] prints nothing. *)
Lemma v_prints_current_viewpoint_witness :
  (reachable Demo.globe_args Demo.globe_entry
   ∧ readNodeFiles (opt_arguments (options_of Demo.globe_args))
     = Some (mkNode 1%positive 1 None [])
   ∧ getEventType (Demo.key_down char_v) = KEYDOWN
   ∧ getKey (Demo.key_down char_v) = char_v
   ∧ (0 < length (loaded_viewpoints (mkNode 1%positive 1 None [])) < 70)%nat
   ∧ s_manip (statics Demo.globe_entry) = Some 1%positive
   ∧ heap Demo.globe_entry !! 1%positive = Some (OManip Demo.manip_at_start)
   ∧ process (GUIEvent (Demo.key_down char_v)) Demo.globe_entry
     = Ok (tt,
           set_cout (λ out,
             (out +:+ "<viewpoint><name>start</name></viewpoint>") +:+ endl)
             Demo.globe_entry))
  ∧ (reachable Demo.plain_sky_args Demo.plain_sky_entry
     ∧ readNodeFiles (opt_arguments (options_of Demo.plain_sky_args))
       = Some (mkNode 5%positive 1 None [])
     ∧ length (loaded_viewpoints (mkNode 5%positive 1 None [])) = 0%nat
     ∧ cout Demo.plain_sky_entry = EmptyString
     ∧ process (GUIEvent (Demo.key_down char_v)) Demo.plain_sky_entry
       = Ok (tt, Demo.plain_sky_entry)).
Proof.
  assert (H1 : getEventType (Demo.key_down char_v) = KEYDOWN) by reflexivity.
  assert (H2 : getKey (Demo.key_down char_v) = char_v) by reflexivity.
  split.
  - assert (R : reachable Demo.globe_args Demo.globe_entry)
      by (apply reachable_entry, globe_entry_loop_entry).
    assert (F : readNodeFiles (opt_arguments (options_of Demo.globe_args))
                = Some (mkNode 1%positive 1 None [])) by reflexivity.
    assert (L : length (loaded_viewpoints (mkNode 1%positive 1 None []))
                = 2%nat) by reflexivity.
    assert (N : (0 < length (loaded_viewpoints (mkNode 1%positive 1 None []))
                 < 70)%nat) by (rewrite L; lia).
    do 5 (split; [assumption|]).
    split; [reflexivity|]. split; [reflexivity|].
    destruct (proj1 (v_prints_current_viewpoint (TK := Demo.toolkit)
                       Demo.globe_args (mkNode 1%positive 1 None [])
                       Demo.globe_entry (Demo.key_down char_v)
                       R F H1 H2) N)
      as (a & m & Ha & Hm & T).
    change (Some 1%positive = Some a) in Ha. injection Ha as <-.
    change (Some (OManip Demo.manip_at_start) = Some (OManip m)) in Hm.
    injection Hm as <-. exact T.
  - assert (R : reachable Demo.plain_sky_args Demo.plain_sky_entry)
      by (apply reachable_entry, plain_sky_entry_loop_entry).
    assert (F : readNodeFiles (opt_arguments (options_of Demo.plain_sky_args))
                = Some (mkNode 5%positive 1 None [])) by reflexivity.
    assert (L : length (loaded_viewpoints (mkNode 5%positive 1 None []))
                = 0%nat) by reflexivity.
    do 3 (split; [assumption|]). split; [reflexivity|].
    exact (proj2 (v_prints_current_viewpoint (TK := Demo.toolkit)
                    Demo.plain_sky_args (mkNode 5%positive 1 None [])
                    Demo.plain_sky_entry (Demo.key_down char_v)
                    R F H1 H2) L).
Defined.

(** With seventy viewpoints in the earth file, ['v'] is within the range of
    the viewpoint keys: nothing is printed, and the camera goes to the
    seventieth viewpoint. *)
Lemma v_with_seventy_viewpoints :
  loop_entry Demo.seventy_args Demo.seventy_entry
  ∧ eventHandlers Demo.seventy_entry !! 0%nat
    = Some (ViewpointHandler Demo.seventy_viewpoints)
  ∧ cout Demo.seventy_entry = ""
  ∧ heap Demo.seventy_entry !! 1%positive = Some (OManip Demo.manip_at_start)
  ∧ ViewpointHandler_handle Demo.seventy_viewpoints (Demo.key_down char_v)
      Demo.seventy_entry
    = Ok (false, Demo.seventy_after)
  ∧ cout Demo.seventy_after = ""
  ∧ heap Demo.seventy_after !! 1%positive
    = Some (OManip (Demo.manip_on (Demo.viewpoint_conf "")))
  ∧ run_program Demo.seventy_args
      {| events := [GUIEvent (Demo.key_down char_v)]; exitStatus := 0 |}
    = Ok (0, Demo.seventy_after).
Proof.
  split; [apply seventy_entry_loop_entry|]. repeat split; by_vm.
Qed.

(** C6 on the globe, started with [--mgrs] and without [--dms]: a mouse move
    over the terrain puts the MGRS rendering and the decimal coordinates on
    the label. *)
Lemma mouse_coordinates_label_witness :
  reachable Demo.globe_args Demo.globe_entry
  ∧ MouseCoordsHandler 4%positive Demo.globe_map
    ∈ eventHandlers Demo.globe_entry
  ∧ opt_mgrs (options_of Demo.globe_args) = true
  ∧ opt_dms (options_of Demo.globe_args) = false
  ∧ MouseCoordsHandler_handle 4%positive Demo.globe_map
      (Demo.mouse MOVE [{| v_x := 8.0%float; v_y := 46.0%float;
                           v_z := 0.0%float |}]) Demo.globe_entry
    = Ok (false,
          set_heap (insert 4%positive
            (OControl (mkControl
               (LabelControl "MGRS: 32TLS   Lat: dd  Lon: dd") true [] [])))
            Demo.globe_entry).
Proof.
  assert (R : reachable Demo.globe_args Demo.globe_entry)
    by (apply reachable_entry, globe_entry_loop_entry).
  assert (Hin : MouseCoordsHandler 4%positive Demo.globe_map
                ∈ eventHandlers Demo.globe_entry) by (right; left).
  split; [exact R|]. split; [exact Hin|].
  split; [reflexivity|]. split; [reflexivity|].
  destruct (mouse_coordinates_label (TK := Demo.toolkit) Demo.globe_args Demo.globe_entry
              4%positive Demo.globe_map
              (Demo.mouse MOVE [{| v_x := 8.0%float; v_y := 46.0%float;
                                   v_z := 0.0%float |}]) R Hin)
    as (t & v & hs & cs & Hlabel & _ & Hshow).
  injection Hlabel as <- <- <- <-. exact Hshow.
Defined.


(** C8 on the globe: three assignments, one to each pointer, all before the
    loop; a session with a key and a slider event leaves the variables as
    they were. *)
Lemma static_pointers_assigned_once_witness :
  loop_entry Demo.globe_args Demo.globe_entry
  ∧ Viewer_loop Demo.globe_events Demo.globe_entry = Ok (tt, Demo.globe_after)
  ∧ assigned Demo.globe_entry = [Ptr_s_manip; Ptr_s_sky; Ptr_s_controlPanel]
  ∧ NoDup (assigned Demo.globe_entry)
  ∧ s_manip (statics Demo.globe_after) = s_manip (statics Demo.globe_entry)
  ∧ s_controlPanel (statics Demo.globe_after)
    = s_controlPanel (statics Demo.globe_entry)
  ∧ s_sky (statics Demo.globe_after) = s_sky (statics Demo.globe_entry)
  ∧ assigned Demo.globe_after = assigned Demo.globe_entry.
Proof.
  assert (He : loop_entry Demo.globe_args Demo.globe_entry)
    by apply globe_entry_loop_entry.
  assert (Hl : Viewer_loop Demo.globe_events Demo.globe_entry
               = Ok (tt, Demo.globe_after)) by by_vm.
  split; [exact He|]. split; [exact Hl|]. split; [reflexivity|].
  destruct (static_pointers_assigned_once (TK := Demo.toolkit) Demo.globe_args
              {| events := Demo.globe_events; exitStatus := 0 |})
    as (_ & Hloop & _).
  destruct (Hloop _ He) as (Hnd & _ & Hkeep).
  split; [exact Hnd|]. exact (Hkeep _ _ Hl).
Defined.

(** C9 on the globe, whose earth file has a sky element with hours 20, and
    on the flat map started with [--sky]. *)
Lemma sky_model_from_earth_file_witness :
  (readNodeFiles (opt_arguments (options_of Demo.globe_args))
   = Some (mkNode 1%positive 1 None [])
   ∧ MapNode_findMapNode (mkNode 1%positive 1 None []) = Some Demo.globe_map
   ∧ loop_entry Demo.globe_args Demo.globe_entry
   ∧ opt_sky (options_of Demo.globe_args) = false
   ∧ Map_isGeocentric Demo.globe_map = true
   ∧ Config_empty (Config_child "sky" (MapNode_externalConfig Demo.globe_map))
     = false
   ∧ ∃ a, s_sky (statics Demo.globe_entry) = Some a
          ∧ heap Demo.globe_entry !! a
            = Some (OSky (Some (2011, 3, 6, 20.0%float)))
          ∧ SkyNode_attach a ∈ calls Demo.globe_entry)
  ∧ (readNodeFiles (opt_arguments (options_of Demo.flat_args))
     = Some (mkNode 2%positive 1 None [])
     ∧ MapNode_findMapNode (mkNode 2%positive 1 None [])
       = Some Demo.flat_map_node
     ∧ loop_entry Demo.flat_args Demo.flat_entry
     ∧ opt_sky (options_of Demo.flat_args) = true
     ∧ Map_isGeocentric Demo.flat_map_node = false
     ∧ Viewer_loop [] Demo.flat_entry = Ok (tt, Demo.flat_entry)
     ∧ s_sky (statics Demo.flat_entry) = None).
Proof.
  split.
  - assert (H1 : readNodeFiles (opt_arguments (options_of Demo.globe_args))
                 = Some (mkNode 1%positive 1 None [])) by reflexivity.
    assert (H2 : MapNode_findMapNode (mkNode 1%positive 1 None [])
                 = Some Demo.globe_map) by reflexivity.
    assert (H3 : loop_entry Demo.globe_args Demo.globe_entry)
      by apply globe_entry_loop_entry.
    split; [exact H1|]. split; [exact H2|]. split; [exact H3|].
    split; [reflexivity|]. split; [reflexivity|]. split; [reflexivity|].
    exact (proj1 (sky_model_from_earth_file (TK := Demo.toolkit) Demo.globe_args _ _ _ H1 H2 H3)
             eq_refl eq_refl).
  - assert (H1 : readNodeFiles (opt_arguments (options_of Demo.flat_args))
                 = Some (mkNode 2%positive 1 None [])) by reflexivity.
    assert (H2 : MapNode_findMapNode (mkNode 2%positive 1 None [])
                 = Some Demo.flat_map_node) by reflexivity.
    assert (H3 : loop_entry Demo.flat_args Demo.flat_entry)
      by apply flat_entry_loop_entry.
    assert (H4 : Viewer_loop [] Demo.flat_entry = Ok (tt, Demo.flat_entry))
      by reflexivity.
    split; [exact H1|]. split; [exact H2|]. split; [exact H3|].
    split; [reflexivity|]. split; [reflexivity|]. split; [exact H4|].
    exact (proj1 (proj2 (sky_model_from_earth_file (TK := Demo.toolkit) Demo.flat_args _ _ _
                           H1 H2 H3) eq_refl _ _ H4)).
Defined.

(** C10 on the globe: the panel built where the sky exists holds the
    slider, and a slider value of 3.5 sets the sky to 6 March 2011, 3.5 h. *)
Lemma sky_slider_sets_hour_witness :
  is_Some (s_sky (statics Demo.globe_entry))
  ∧ (∃ c w', createControlPanel Demo.globe_viewpoints Demo.globe_entry
             = Ok (tt, w')
             ∧ heap w' !! next Demo.globe_entry = Some (OControl c)
             ∧ mkControl (HSliderControl 0.0%float 24.0%float 18.0%float) true
                 [SkySliderHandler] [] ∈ control_subtree c)
  ∧ s_sky (statics Demo.globe_entry) = Some 2%positive
  ∧ heap Demo.globe_entry !! 2%positive
    = Some (OSky (Some (2011, 3, 6, 20.0%float)))
  ∧ ControlEventHandler_fire SkySliderHandler (FloatChanged 3.5%float)
      Demo.globe_entry
    = Ok (tt, set_heap (insert 2%positive
                          (OSky (Some (2011, 3, 6, 3.5%float))))
                Demo.globe_entry).
Proof.
  destruct (sky_slider_sets_hour (TK := Demo.toolkit)) as (Hpanel & Hfire & _).
  assert (H1 : is_Some (s_sky (statics Demo.globe_entry))) by (by eexists).
  assert (H2 : s_sky (statics Demo.globe_entry) = Some 2%positive)
    by reflexivity.
  assert (H3 : heap Demo.globe_entry !! 2%positive
               = Some (OSky (Some (2011, 3, 6, 20.0%float)))) by reflexivity.
  split; [exact H1|]. split.
  - destruct (Hpanel Demo.globe_viewpoints Demo.globe_entry H1)
      as (c & w' & Hrun & _ & Hc & Hin & _).
    exists c, w'. by repeat split.
  - split; [exact H2|]. split; [exact H3|].
    exact (Hfire 3.5%float Demo.globe_entry 2%positive _ H2 H3).
Defined.

(** * The further properties at work on the concrete toolkit *)

Lemma kml_entry_loop_entry : loop_entry Demo.kml_args Demo.kml_entry.
Proof.
  eapply (loop_entry_intro (TK := Demo.toolkit)); [reflexivity|].
  vm_cast_no_check (eq_refl (Ok (tt, Demo.kml_entry))).
Qed.

Lemma plain_entry_loop_entry : loop_entry Demo.plain_args Demo.plain_entry.
Proof.
  eapply (loop_entry_intro (TK := Demo.toolkit)); [reflexivity|].
  vm_cast_no_check (eq_refl (Ok (tt, Demo.plain_entry))).
Qed.

(** X2 on the globe: a click on the label of the second viewpoint and the
    key ['2'] both send the camera to the Alps. *)
Lemma click_is_the_viewpoint_key_witness :
  getEventType (Demo.key_down 50) = KEYDOWN
  ∧ getKey (Demo.key_down 50) = char_1 + Z.of_nat 1
  ∧ Z.of_nat (length Demo.globe_viewpoints) <= int_max
  ∧ Demo.globe_viewpoints !! 1%nat = Some (Demo.viewpoint_conf "Alps")
  ∧ ViewpointHandler_handle Demo.globe_viewpoints (Demo.key_down 50)
      Demo.globe_entry
    = (ControlEventHandler_fire
         (ClickViewpointHandler (Demo.viewpoint_conf "Alps")) Click;;
       mret false) Demo.globe_entry
  ∧ ControlEventHandler_fire
      (ClickViewpointHandler (Demo.viewpoint_conf "Alps")) Click
      Demo.globe_entry
    = Ok (tt,
          set_heap (insert 1%positive
                      (OManip (Demo.manip_on (Demo.viewpoint_conf "Alps"))))
            Demo.globe_entry).
Proof.
  assert (H1 : getEventType (Demo.key_down 50) = KEYDOWN) by reflexivity.
  assert (H2 : getKey (Demo.key_down 50) = char_1 + Z.of_nat 1)
    by reflexivity.
  assert (H3 : Z.of_nat (length Demo.globe_viewpoints) <= int_max)
    by closed_arith.
  assert (H4 : Demo.globe_viewpoints !! 1%nat
               = Some (Demo.viewpoint_conf "Alps")) by reflexivity.
  do 4 (split; [assumption|]).
  destruct (click_is_the_viewpoint_key (TK := Demo.toolkit)
              Demo.globe_viewpoints 1 (Demo.viewpoint_conf "Alps")
              (Demo.key_down 50) Demo.globe_entry H1 H2 H3 H4)
    as (T1 & _ & T3).
  split; [exact T1|].
  exact (T3 1%positive Demo.manip_at_start eq_refl eq_refl).
Defined.

(** X4 on the two viewpoints of the globe: the second row shows [2] and
    [Alps]. *)
Lemma viewpoint_grid_rows_witness :
  Demo.globe_viewpoints !! 1%nat = Some (Demo.viewpoint_conf "Alps")
  ∧ Z.of_nat (length Demo.globe_viewpoints) < 2 ^ 32
  ∧ ∃ c g rest w',
      createControlPanel Demo.globe_viewpoints initial_world = Ok (tt, w')
      ∧ heap w' !! 1%positive = Some (OControl c)
      ∧ control_children c = g :: rest
      ∧ control_kind g = Grid
      ∧ length (control_children g) = 4%nat
      ∧ control_children g !! 2%nat = Some (new_control (LabelControl "2"))
      ∧ control_children g !! 3%nat
        = Some (mkControl (LabelControl "Alps") true
                  [ClickViewpointHandler (Demo.viewpoint_conf "Alps")] []).
Proof.
  assert (H1 : Demo.globe_viewpoints !! 1%nat
               = Some (Demo.viewpoint_conf "Alps")) by reflexivity.
  assert (H2 : Z.of_nat (length Demo.globe_viewpoints) < 2 ^ 32)
    by closed_arith.
  split; [exact H1|]. split; [exact H2|].
  destruct (viewpoint_grid_rows (TK := Demo.toolkit) Demo.globe_viewpoints
              initial_world 1 (Demo.viewpoint_conf "Alps") H1 H2)
    as (c & g & rest & w' & T1 & T2 & T3 & T4 & T5 & T6 & T7 & _).
  exists c, g, rest, w'. repeat (split; [assumption|]). exact T7.
Defined.

(** X6 on the globe: after the mouse has pointed at the Alps, a DRAG that
    hits nothing leaves the label empty, as it would have without the first
    event. *)
Lemma mouse_label_shows_latest_position_witness :
  MouseCoordsHandler_handle 4%positive Demo.globe_map Demo.mouse_over_alps
    Demo.globe_entry = Ok (false, Demo.globe_pointed)
  ∧ (getEventType (Demo.mouse DRAG []) = MOVE
     ∨ getEventType (Demo.mouse DRAG []) = DRAG)
  ∧ MouseCoordsHandler_handle 4%positive Demo.globe_map (Demo.mouse DRAG [])
      Demo.globe_pointed
    = MouseCoordsHandler_handle 4%positive Demo.globe_map (Demo.mouse DRAG [])
        Demo.globe_entry
  ∧ MouseCoordsHandler_handle 4%positive Demo.globe_map Demo.mouse_over_alps
      Demo.globe_pointed = Ok (false, Demo.globe_pointed).
Proof.
  assert (H1 : MouseCoordsHandler_handle 4%positive Demo.globe_map
                 Demo.mouse_over_alps Demo.globe_entry
               = Ok (false, Demo.globe_pointed)) by by_vm.
  assert (H2 : getEventType (Demo.mouse DRAG []) = MOVE
               ∨ getEventType (Demo.mouse DRAG []) = DRAG) by (by right).
  split; [exact H1|]. split; [exact H2|].
  exact (mouse_label_shows_latest_position (TK := Demo.toolkit) 4%positive
           Demo.globe_map Demo.mouse_over_alps (Demo.mouse DRAG [])
           Demo.globe_entry Demo.globe_pointed H1 H2).
Defined.

(** X9 on the globe: the [ViewpointHandler] with the two viewpoints of the
    earth file, the [MouseCoordsHandler], the five stock handlers. *)
Lemma handlers_registered_at_start_witness :
  loop_entry Demo.globe_args Demo.globe_entry
  ∧ readNodeFiles (opt_arguments (options_of Demo.globe_args))
    = Some (mkNode 1%positive 1 None [])
  ∧ ∃ l c,
      eventHandlers Demo.globe_entry
      = [ViewpointHandler Demo.globe_viewpoints]
        ++ [MouseCoordsHandler l Demo.globe_map] ++ stock_handlers
      ∧ heap Demo.globe_entry !! l = Some (OControl c)
      ∧ is_label c = true.
Proof.
  assert (H1 : loop_entry Demo.globe_args Demo.globe_entry)
    by apply globe_entry_loop_entry.
  assert (H2 : readNodeFiles (opt_arguments (options_of Demo.globe_args))
               = Some (mkNode 1%positive 1 None [])) by reflexivity.
  split; [exact H1|]. split; [exact H2|].
  exact (handlers_registered_at_start (TK := Demo.toolkit) Demo.globe_args
           (mkNode 1%positive 1 None []) Demo.globe_entry H1 H2).
Defined.

(** X10 on the globe, started without [--sky], [--ocean], [--autoclip]: the
    sky element of the earth file brings the sky node and with it the clip
    plane callback. *)
Lemma viewer_calls_at_start_witness :
  loop_entry Demo.globe_args Demo.globe_entry
  ∧ readNodeFiles (opt_arguments (options_of Demo.globe_args))
    = Some (mkNode 1%positive 1 None [])
  ∧ ∃ a,
      s_sky (statics Demo.globe_entry) = Some a
      ∧ calls Demo.globe_entry
        = [ setMinimumNumStencilBits 8;
            setCameraManipulator (Some 1%positive);
            SkyNode_attach a;
            addCullCallback_AutoClipPlaneCallback Demo.globe_map;
            setDoPreCompile true;
            setSceneData [ ChildNode (mkNode 1%positive 1 None []);
                           ChildSky a; ChildCanvas ] ].
Proof.
  assert (H1 : loop_entry Demo.globe_args Demo.globe_entry)
    by apply globe_entry_loop_entry.
  assert (H2 : readNodeFiles (opt_arguments (options_of Demo.globe_args))
               = Some (mkNode 1%positive 1 None [])) by reflexivity.
  split; [exact H1|]. split; [exact H2|].
  exact (viewer_calls_at_start (TK := Demo.toolkit) Demo.globe_args
           (mkNode 1%positive 1 None []) Demo.globe_entry H1 H2).
Defined.

(** X11 on the globe with the KML file: the two viewpoints, the slider, and
    the row of the one placemark the visitor reaches; the hidden placemark,
    whose mask is zero, has no row. *)
Lemma control_handlers_at_start_witness :
  loop_entry Demo.kml_args Demo.kml_entry
  ∧ readNodeFiles (opt_arguments (options_of Demo.kml_args))
    = Some (mkNode 1%positive 1 None [])
  ∧ canvas_handlers Demo.kml_entry
    = [ ClickViewpointHandler (Demo.viewpoint_conf "Home");
        ClickViewpointHandler (Demo.viewpoint_conf "Alps");
        SkySliderHandler;
        ToggleNodeHandler 21%positive;
        ClickViewpointHandler (Demo.viewpoint_conf "Matterhorn") ]
  ∧ ∃ root,
      setSceneData root ∈ calls Demo.kml_entry
      ∧ canvas_handlers Demo.kml_entry
        = [ ClickViewpointHandler (Demo.viewpoint_conf "Home");
            ClickViewpointHandler (Demo.viewpoint_conf "Alps");
            SkySliderHandler ]
          ++ flat_map control_handlers (flat_map KMLUIBuilder_child root).
Proof.
  assert (H1 : loop_entry Demo.kml_args Demo.kml_entry)
    by apply kml_entry_loop_entry.
  assert (H2 : readNodeFiles (opt_arguments (options_of Demo.kml_args))
               = Some (mkNode 1%positive 1 None [])) by reflexivity.
  split; [exact H1|]. split; [exact H2|]. split; [by_vm|].
  exact (control_handlers_at_start (TK := Demo.toolkit) Demo.kml_args
           (mkNode 1%positive 1 None []) Demo.kml_entry H1 H2).
Defined.

(** X12 on the globe with the KML file: the check box of the Matterhorn
    hides the placemark. *)
Lemma check_boxes_toggle_scene_nodes_witness :
  reachable Demo.kml_args Demo.kml_entry
  ∧ ToggleNodeHandler 21%positive ∈ canvas_handlers Demo.kml_entry
  ∧ nodeMasks Demo.kml_entry !! 21%positive = Some 1
  ∧ is_Some (nodeMasks Demo.kml_entry !! 21%positive)
  ∧ ∃ w',
      ControlEventHandler_fire (ToggleNodeHandler 21%positive)
        (BoolChanged false) Demo.kml_entry = Ok (tt, w')
      ∧ nodeMasks w' !! 21%positive = Some 0.
Proof.
  assert (H1 : reachable Demo.kml_args Demo.kml_entry)
    by (apply reachable_entry, kml_entry_loop_entry).
  assert (C : canvas_handlers Demo.kml_entry
              = [ ClickViewpointHandler (Demo.viewpoint_conf "Home");
                  ClickViewpointHandler (Demo.viewpoint_conf "Alps");
                  SkySliderHandler;
                  ToggleNodeHandler 21%positive;
                  ClickViewpointHandler (Demo.viewpoint_conf "Matterhorn") ])
    by by_vm.
  assert (H2 : ToggleNodeHandler 21%positive ∈ canvas_handlers Demo.kml_entry).
  { rewrite C. do 3 right. left. }
  split; [exact H1|]. split; [exact H2|]. split; [reflexivity|].
  destruct (check_boxes_toggle_scene_nodes (TK := Demo.toolkit) Demo.kml_args
              Demo.kml_entry 21%positive H1 H2) as (_ & T2 & T3).
  split; [exact T2|]. exact (T3 false).
Defined.

(** X13 on the globe: key ['2'] at the start of the session. *)
Lemma digit_key_selects_earth_file_viewpoint_witness :
  reachable Demo.globe_args Demo.globe_entry
  ∧ readNodeFiles (opt_arguments (options_of Demo.globe_args))
    = Some (mkNode 1%positive 1 None [])
  ∧ MapNode_findMapNode (mkNode 1%positive 1 None []) = Some Demo.globe_map
  ∧ Config_children "viewpoint" (MapNode_externalConfig Demo.globe_map)
      !! 1%nat = Some (Demo.viewpoint_conf "Alps")
  ∧ Z.of_nat (length (Config_children "viewpoint"
                        (MapNode_externalConfig Demo.globe_map))) <= int_max
  ∧ getEventType (Demo.key_down 50) = KEYDOWN
  ∧ getKey (Demo.key_down 50) = char_1 + Z.of_nat 1
  ∧ process (GUIEvent (Demo.key_down 50)) Demo.globe_entry
    = Ok (tt,
          set_heap (insert 1%positive
                      (OManip (Demo.manip_on (Demo.viewpoint_conf "Alps"))))
            Demo.globe_entry).
Proof.
  assert (H1 : reachable Demo.globe_args Demo.globe_entry)
    by (apply reachable_entry, globe_entry_loop_entry).
  assert (H2 : readNodeFiles (opt_arguments (options_of Demo.globe_args))
               = Some (mkNode 1%positive 1 None [])) by reflexivity.
  assert (H3 : MapNode_findMapNode (mkNode 1%positive 1 None [])
               = Some Demo.globe_map) by reflexivity.
  assert (H4 : Config_children "viewpoint"
                 (MapNode_externalConfig Demo.globe_map) !! 1%nat
               = Some (Demo.viewpoint_conf "Alps")) by reflexivity.
  assert (H5 : Z.of_nat (length (Config_children "viewpoint"
                                   (MapNode_externalConfig Demo.globe_map)))
               <= int_max) by closed_arith.
  assert (H6 : getEventType (Demo.key_down 50) = KEYDOWN) by reflexivity.
  assert (H7 : getKey (Demo.key_down 50) = char_1 + Z.of_nat 1)
    by reflexivity.
  do 7 (split; [assumption|]).
  destruct (digit_key_selects_earth_file_viewpoint (TK := Demo.toolkit)
              Demo.globe_args (mkNode 1%positive 1 None []) Demo.globe_map
              Demo.globe_entry (Demo.key_down 50) 1
              (Demo.viewpoint_conf "Alps") H1 H2 H3 H4 H5 H6 H7)
    as (a & m & Ha & Hm & T).
  change (Some 1%positive = Some a) in Ha. injection Ha as <-.
  change (Some (OManip Demo.manip_at_start) = Some (OManip m)) in Hm.
  injection Hm as <-. exact T.
Defined.

(** X14 on the plain globe, which has no viewpoint and no sky element:
    started without [--sky], it has neither sky node nor control panel. *)
Lemma control_panel_exists_when_needed_witness :
  reachable Demo.plain_args Demo.plain_entry
  ∧ readNodeFiles (opt_arguments (options_of Demo.plain_args))
    = Some (mkNode 5%positive 1 None [])
  ∧ s_sky (statics Demo.plain_entry) = None
  ∧ s_controlPanel (statics Demo.plain_entry) = None
  ∧ (is_Some (s_sky (statics Demo.plain_entry))
     ↔ Map_isGeocentric Demo.plain_map = true
       ∧ (Config_empty
            (Config_child "sky" (MapNode_externalConfig Demo.plain_map))
          = false
          ∨ opt_sky (options_of Demo.plain_args) = true))
  ∧ (is_Some (s_controlPanel (statics Demo.plain_entry))
     ↔ Config_children "viewpoint" (MapNode_externalConfig Demo.plain_map)
       ≠ []
       ∨ is_Some (s_sky (statics Demo.plain_entry))).
Proof.
  assert (H1 : reachable Demo.plain_args Demo.plain_entry)
    by (apply reachable_entry, plain_entry_loop_entry).
  assert (H2 : readNodeFiles (opt_arguments (options_of Demo.plain_args))
               = Some (mkNode 5%positive 1 None [])) by reflexivity.
  split; [exact H1|]. split; [exact H2|].
  split; [reflexivity|]. split; [reflexivity|].
  exact (control_panel_exists_when_needed (TK := Demo.toolkit)
           Demo.plain_args (mkNode 5%positive 1 None []) Demo.plain_entry
           H1 H2).
Defined.

(** X15 on the globe: a MOVE of the mouse is the business of the
    [MouseCoordsHandler] alone, a key release is nobody's. *)
Lemma one_handler_per_event_witness :
  reachable Demo.globe_args Demo.globe_entry
  ∧ readNodeFiles (opt_arguments (options_of Demo.globe_args))
    = Some (mkNode 1%positive 1 None [])
  ∧ MapNode_findMapNode (mkNode 1%positive 1 None []) = Some Demo.globe_map
  ∧ (∃ l,
       MouseCoordsHandler l Demo.globe_map ∈ eventHandlers Demo.globe_entry
       ∧ process (GUIEvent Demo.mouse_over_alps) Demo.globe_entry
         = (MouseCoordsHandler_handle l Demo.globe_map Demo.mouse_over_alps;;
            mret tt) Demo.globe_entry)
  ∧ ∃ l,
      MouseCoordsHandler l Demo.globe_map ∈ eventHandlers Demo.globe_entry
      ∧ process (GUIEvent (Demo.mouse KEYUP [])) Demo.globe_entry
        = Ok (tt, Demo.globe_entry).
Proof.
  assert (H1 : reachable Demo.globe_args Demo.globe_entry)
    by (apply reachable_entry, globe_entry_loop_entry).
  assert (H2 : readNodeFiles (opt_arguments (options_of Demo.globe_args))
               = Some (mkNode 1%positive 1 None [])) by reflexivity.
  assert (H3 : MapNode_findMapNode (mkNode 1%positive 1 None [])
               = Some Demo.globe_map) by reflexivity.
  do 3 (split; [assumption|]). split.
  - exact (one_handler_per_event (TK := Demo.toolkit) Demo.globe_args
             (mkNode 1%positive 1 None []) Demo.globe_map Demo.globe_entry
             Demo.mouse_over_alps H1 H2 H3).
  - exact (one_handler_per_event (TK := Demo.toolkit) Demo.globe_args
             (mkNode 1%positive 1 None []) Demo.globe_map Demo.globe_entry
             (Demo.mouse KEYUP []) H1 H2 H3).
Defined.
